(** * pyresample.utils: area-definition parameters, catalog parsers, PROJ strings

    A shallow embedding of [pyresample/utils.py].  Every definition below is
    the translation of the Python function of the same name; the comment in
    front of it gives the source lines.

    Conventions of the embedding.
    - A Python [float] (and an [int] used as a number) is a rational [Q]:
      the finite values, with exact arithmetic.  NaN and the infinities have
      no counterpart, and rounding of the arithmetic is not modelled.
    - A Python [str] is a [string]; a character outside ASCII stands as its
      UTF-8 bytes.
    - A [dict] is an association list in insertion order with distinct keys.
    - A raising function returns [Raise e]; [x <- c ;; k] threads exceptions.
    - What the module imports from other packages (pyproj's [Proj], numpy,
      yaml, ConfigObj, the file system, [float()] on text) is a [Variable] of
      the section that uses it. *)

From Stdlib Require Import QArith ZArith Qabs Qround List String Ascii Bool Lia.
Import ListNotations.

Local Open Scope string_scope.
Local Open Scope list_scope.

Set Warnings "-register-all".

(** ** Exceptions *)

(** The [ValueError]s of the module, one constructor per message. *)
Inductive value_error : Type :=
| NotEnoughInformation
    (* 'Not enough information provided to create an area definition' *)
| ConflictingData (var_name : string) (input_list : list string)
    (* 'CONFLICTING DATA: {0} given does not match {0} found from {1}' *)
| NotListLike (name : string)
    (* '{0} is not list-like' *)
| NotNumeric (name : string)
    (* '{0} is not composed purely of numbers' *)
| WrongLength (name : string) (expected actual : nat)
    (* '{0} should have length {1}, but instead has length {2}' *)
| LatlongMeters (name : string)
    (* 'latlon/latlong projection cannot take meters as units: {0}' *)
| InvalidUnits (name : string)
    (* "{0}'s units must be in degrees, radians, or meters." *)
| MissingCenter
    (* 'center must be given to convert radius or resolution from an angle to meters' *)
| TooManyArguments (var arg : string)
    (* 'Incorrect yaml: {0} has too many arguments: Both {0} and {1} were specified.' *)
| BadProjection
    (* '"projection" must be a proj4_dict or a proj4_string.' *)
| FloatOfText
    (* raised by float() on text that is no number *)
| NotInList.
    (* raised by list.index() *)

Inductive exn : Type :=
| ValueError (e : value_error)
| TypeError
| KeyError (key : string)
| AttributeError
| ZeroDivisionError
| AreaNotFound (msg : string)      (* class AreaNotFound(KeyError) *)
| ScannerError                     (* yaml.scanner.ScannerError *)
| External (what : string).        (* raised inside an imported package *)

Inductive result (A : Type) : Type :=
| Ok (a : A)
| Raise (e : exn).
Arguments Ok {A} a.
Arguments Raise {A} e.

Definition bind {A B : Type} (c : result A) (k : A -> result B) : result B :=
  match c with
  | Ok a => k a
  | Raise e => Raise e
  end.

Notation "x <- c ;; k" := (bind c (fun x => k))
  (at level 61, c at next level, right associativity).
Notation "' p <- c ;; k" := (bind c (fun x => let p := x in k))
  (at level 61, p pattern, c at next level, right associativity).

Fixpoint mapM {A B : Type} (f : A -> result B) (l : list A) : result (list B) :=
  match l with
  | [] => Ok []
  | a :: l' => b <- f a ;; bs <- mapM f l' ;; Ok (b :: bs)
  end.

(** ** Python strings *)

Module PyStr.

(** [sub in s]. *)
Fixpoint contains (sub s : string) : bool :=
  prefix sub s ||
  match s with
  | EmptyString => false
  | String _ t => contains sub t
  end.

(** [s.replace(old, new)] for a non-empty [old]: occurrences are replaced
    from the left and do not overlap.  [skip] counts the characters of the
    occurrence being replaced that are still to be dropped. *)
Fixpoint replace_from (old new : string) (skip : nat) (s : string) : string :=
  match s with
  | EmptyString => EmptyString
  | String c t =>
      match skip with
      | S k => replace_from old new k t
      | O =>
          if prefix old s
          then new ++ replace_from old new (String.length old - 1) t
          else String c (replace_from old new 0 t)
      end
  end.

Definition replace (old new s : string) : string := replace_from old new 0 s.

(** [c.isspace()] on ASCII: tab, LF, VT, FF, CR, FS, GS, RS, US, space.
    The white space outside ASCII is left out. *)
Definition isspace (c : ascii) : bool :=
  let n := nat_of_ascii c in
  ((9 <=? n) && (n <=? 13) || (28 <=? n) && (n <=? 32))%nat.

Fixpoint lstrip (s : string) : string :=
  match s with
  | EmptyString => EmptyString
  | String c t => if isspace c then lstrip t else s
  end.

Fixpoint rstrip (s : string) : string :=
  match s with
  | EmptyString => EmptyString
  | String c t =>
      match rstrip t with
      | EmptyString => if isspace c then EmptyString else String c EmptyString
      | t' => String c t'
      end
  end.

(** [s.strip()]. *)
Definition strip (s : string) : string := rstrip (lstrip s).

(** [s.split(sep)] for a one-character [sep]: every occurrence separates,
    so the result is never empty and may hold empty words. *)
Fixpoint split (sep : ascii) (s : string) : list string :=
  match s with
  | EmptyString => [EmptyString]
  | String c t =>
      if (c =? sep)%char then EmptyString :: split sep t
      else match split sep t with
           | w :: ws => String c w :: ws
           | [] => [String c EmptyString]
           end
  end.

(** [s.split(sep, 1)] for a one-character [sep]: a list of one or of two
    words, here the first word and the second when there is one. *)
Fixpoint split_once (sep : ascii) (s : string) : string * option string :=
  match s with
  | EmptyString => (EmptyString, None)
  | String c t =>
      if (c =? sep)%char then (EmptyString, Some t)
      else let (w, r) := split_once sep t in (String c w, r)
  end.

(** [s.startswith(p)] is [prefix p s]; [sep.join(l)] is [concat sep l]. *)
Definition startswith (p s : string) : bool := prefix p s.
Definition join (sep : string) (l : list string) : string := concat sep l.

(** [s.splitlines()]: the lines of [s] without their ends.  The ends are
    LF, CR LF, CR, VT, FF, FS, GS and RS (the line ends outside ASCII are
    left out); a last line without end counts when it is not empty. *)
Definition islinebreak (c : ascii) : bool :=
  let n := nat_of_ascii c in
  ((10 <=? n) && (n <=? 13) || (28 <=? n) && (n <=? 30))%nat.

Fixpoint splitlines_from (cur : string) (s : string) : list string :=
  match s with
  | EmptyString =>
      match cur with
      | EmptyString => []
      | _ => [cur]
      end
  | String c t =>
      if islinebreak c then
        match c, t with
        | "013"%char, String "010"%char t' => cur :: splitlines_from EmptyString t'
        | _, _ => cur :: splitlines_from EmptyString t
        end
      else splitlines_from (cur ++ String c EmptyString) t
  end.

Definition splitlines (s : string) : list string := splitlines_from EmptyString s.

End PyStr.

(** ** Python dicts: association lists in insertion order *)

Module PyDict.

Section Dict.
Context {V : Type}.

Definition dict : Type := list (string * V).

(** [d[k]] and [d.get(k)]. *)
Fixpoint get (k : string) (d : dict) : option V :=
  match d with
  | [] => None
  | (k', v) :: d' => if k' =? k then Some v else get k d'
  end.

(** [d[k] = v]: an existing key keeps its place, a new one goes last. *)
Fixpoint set (k : string) (v : V) (d : dict) : dict :=
  match d with
  | [] => [(k, v)]
  | (k', v') :: d' => if k' =? k then (k, v) :: d' else (k', v') :: set k v d'
  end.

Definition keys (d : dict) : list string := map fst d.

Definition mem (k : string) (d : dict) : bool :=
  match get k d with Some _ => true | None => false end.

End Dict.
Arguments dict V : clear implicits.

End PyDict.

(** ** PROJ.4 strings and dicts *)

(** A value of a PROJ.4 dict: [True] for a key-only parameter, a float, or
    the text of the parameter. *)
Inductive proj_value : Type :=
| PTrue
| PFloat (x : Q)
| PStr (s : string).

Definition proj_dict : Type := PyDict.dict proj_value.

Section ProjStrings.

(** [float(s)] on text ([None] is the [ValueError]) and the text of a float
    as [str.format] writes it. *)
Variable float_of_string : string -> option Q.
Variable float_repr : Q -> string.

(** utils.py 424-437.  [proj_pairs] holds the lists that [split('=', 1)]
    makes: [(k, None)] is the list of length one, [(k, Some v)] the pair. *)
Definition convert_proj_floats (proj_pairs : list (string * option string)) : proj_dict :=
  fold_left
    (fun proj_dict x =>
       match snd x with
       | None => PyDict.set (fst x) PTrue proj_dict
       | Some v =>
           match float_of_string v with
           | Some f => PyDict.set (fst x) (PFloat f) proj_dict
           | None => PyDict.set (fst x) (PStr v) proj_dict
           end
       end)
    proj_pairs [].

(** utils.py 451-457. *)
Definition proj4_str_to_dict (proj4_str : string) : proj_dict :=
  let pairs :=
    map (PyStr.split_once "=") (PyStr.split " " (PyStr.replace "+" EmptyString proj4_str)) in
  convert_proj_floats pairs.

(** ['{}'.format(val)]. *)
Definition format_value (val : proj_value) : string :=
  match val with
  | PTrue => "True"
  | PFloat x => float_repr x
  | PStr s => s
  end.

(** [sorted(items)]: the keys of a dict are distinct, so the order of the
    pairs is the order of their keys. *)
Fixpoint insert_item (x : string * proj_value) (l : list (string * proj_value)) :
  list (string * proj_value) :=
  match l with
  | [] => [x]
  | y :: l' => if String.leb (fst x) (fst y) then x :: l else y :: insert_item x l'
  end.

Definition sorted (items : list (string * proj_value)) : list (string * proj_value) :=
  fold_right insert_item [] items.

Definition flag_params : list string := ["+no_defs"; "+no_off"; "+no_rot"].

Definition proj4_param (item : string * proj_value) : string :=
  let (key, val) := item in
  let key := if PyStr.startswith "+" key then key else ("+" ++ key)%string in
  if existsb (String.eqb key) flag_params then key
  else (key ++ "=" ++ format_value val)%string.

(** utils.py 460-473. *)
Definition proj4_dict_to_str (proj4_dict : proj_dict) (sort : bool) : string :=
  let items := if sort then sorted proj4_dict else proj4_dict in
  PyStr.join " " (map proj4_param items).

End ProjStrings.

(** An instance of the two conversions that is enough to run examples:
    whole numbers from zero on in decimal, read with or without a final
    [.0] and written with it. *)
Module SampleFloat.

Definition digit_of (c : ascii) : option Z :=
  let n := nat_of_ascii c in
  if ((48 <=? n) && (n <=? 57))%nat then Some (Z.of_nat (n - 48)) else None.

Fixpoint digits_from (acc : Z) (s : string) : option Z :=
  match s with
  | EmptyString => Some acc
  | String c t =>
      match digit_of c with
      | Some d => digits_from (10 * acc + d) t
      | None => if (String c t =? ".0")%string then Some acc else None
      end
  end.

Definition float_of_string (s : string) : option Q :=
  match s with
  | EmptyString => None
  | String c _ =>
      match digit_of c with
      | Some _ => option_map inject_Z (digits_from 0 s)
      | None => None
      end
  end.

Fixpoint digits_of (fuel : nat) (n : Z) (acc : string) : string :=
  match fuel with
  | O => acc
  | S fuel' =>
      let acc' := String (ascii_of_nat (48 + Z.to_nat (n mod 10))) acc in
      if (n <? 10)%Z then acc' else digits_of fuel' (n / 10) acc'
  end.

Definition float_repr (x : Q) : string :=
  let n := Z.abs (Qfloor x) in
  digits_of (S (Z.to_nat (Z.log2 n))) n ".0".

End SampleFloat.

(** ** Numbers and vectors *)

Local Open Scope Q_scope.

Definition Qltb (a b : Q) : bool := negb (Qle_bool b a).

(** [a / b] on floats. *)
Definition pydiv (a b : Q) : result Q :=
  if Qeq_bool b 0 then Raise ZeroDivisionError else Ok (a / b).

(** [round(x)]: the nearest integer, a tie going to the even one. *)
Definition py_round (x : Q) : Z :=
  let f := Qfloor x in
  let d := x - inject_Z f in
  if Qltb d (1 # 2) then f
  else if Qltb (1 # 2) d then (f + 1)%Z
  else if Z.even f then f else (f + 1)%Z.

(** [math.pi], the double nearest to pi. *)
Definition math_pi : Q := 884279719003555 # 281474976710656.

(** A pair [(x, y)] and an extent [(x0, y0, x1, y1)]. *)
Definition vec2 : Type := Q * Q.
Definition vec4 : Type := Q * Q * Q * Q.

(** [np.allclose(a, b)] with numpy's default tolerances: every component
    has [|a - b| <= atol + rtol * |b|], [rtol = 1e-05], [atol = 1e-08]. *)
Definition isclose (a b : Q) : bool :=
  Qle_bool (Qabs (a - b)) ((1 # 100000000) + (1 # 100000) * Qabs b).

Class AllClose (A : Type) : Type := allclose : A -> A -> bool.

#[export] Instance allclose_vec2 : AllClose vec2 :=
  fun a b => isclose (fst a) (fst b) && isclose (snd a) (snd b).

#[export] Instance allclose_vec4 : AllClose vec4 :=
  fun a b =>
    let '(a0, a1, a2, a3) := a in
    let '(b0, b1, b2, b3) := b in
    isclose a0 b0 && isclose a1 b1 && isclose a2 b2 && isclose a3 b3.

(** ** What a caller passes for a quantity *)

(** An element of a list: a number, text, or an object on which [float()]
    raises [TypeError] ([None], a list, a dict). *)
Inductive pyval : Type :=
| VNum (q : Q)
| VStr (s : string)
| VObj.

(** The data of an argument: a number (not list-like), text, or a list or
    tuple. *)
Inductive pydata : Type :=
| Number (q : Q)
| Text (s : string)
| ListLike (l : list pyval).

(** An argument other than [None]: plain data, or an xarray [DataArray]
    of data, whose [units] attribute may be missing. *)
Inductive pyarg : Type :=
| Plain (d : pydata)
| DataArray (d : pydata) (units : option string).

(** A verified quantity: a tuple of floats, or a [DataArray] of floats that
    carries its units. *)
Inductive quantity (A : Type) : Type :=
| Tuple (v : A)
| UnitArray (v : A) (units : string).
Arguments Tuple {A} v.
Arguments UnitArray {A} v units.

(** The ambient units: text, or an object that is no [str]. *)
Inductive units_t : Type :=
| UnitStr (s : string)
| UnitOther.

(** pyproj's [Proj] object: [transform x y radians inverse errcheck] is the
    call [p(x, y, radians=.., inverse=.., errcheck=..)]. *)
Record Proj : Type := {
  is_latlong : bool;
  transform : Q -> Q -> bool -> bool -> bool -> result vec2
}.

(** The degree sign, U+00B0. *)
Definition degree_sign : string :=
  String (ascii_of_nat 194) (String (ascii_of_nat 176) EmptyString).

Definition viable_units : list string :=
  [degree_sign; "deg"; "degrees"; "rad"; "radians"; "m"; "meters"]%string.

(** [name in ('radius', 'resolution')]. *)
Definition is_radius_or_resolution (name : string) : bool :=
  existsb (String.eqb name) ["radius"; "resolution"]%string.

(** ** The unit converter *)

(** utils.py 736-740. *)
Definition _sign (num : Q) : Q := if Qltb num 0 then -1 else 1.

(** utils.py 743-758. *)
Definition _round_poles (center : vec2) (units : string) (p : Proj) : result vec2 :=
  let error := 1 # 10000 in
  center <-
    (if PyStr.contains "m" units then
       center <- transform p (fst center) (snd center) false true true ;;
       let center :=
         if Qltb (Qabs (Qabs (snd center) - 90)) error
         then (fst center, _sign (snd center) * 90)
         else center in
       transform p (fst center) (snd center) false false true
     else Ok center) ;;
  let center :=
    if PyStr.contains "deg" units || PyStr.contains degree_sign units then
      if Qltb (Qabs (Qabs (snd center) - 90)) error
      then (fst center, _sign (snd center) * 90)
      else center
    else center in
  let center :=
    if PyStr.contains "rad" units then
      if Qltb (Qabs (Qabs (snd center) - math_pi / 2)) (error * math_pi / 180)
      then (fst center, _sign (snd center) * math_pi / 2)
      else center
    else center in
  Ok center.

(** ['m' in units]: a [TypeError] when [units] is no text. *)
Definition m_in (units : units_t) : result bool :=
  match units with
  | UnitStr u => Ok (PyStr.contains "m" u)
  | UnitOther => Raise TypeError
  end.

(** The loop over the viable units: the text of [units] when it is one. *)
Definition viable (units : units_t) : option string :=
  match units with
  | UnitStr u => if existsb (String.eqb u) viable_units then Some u else None
  | UnitOther => None
  end.

(** utils.py 761-814. *)
Definition _convert_units (var : option (quantity vec2)) (name : string)
    (units : units_t) (p : Proj) (inverse : bool) (center : option vec2) :
    result (option vec2) :=
  match var with
  | None => Ok None
  | Some var =>
      let '(units, var) :=
        match var with
        | UnitArray v u => (UnitStr u, v)
        | Tuple v => (units, v)
        end in
      meters <- (if is_latlong p then m_in units else Ok false) ;;
      if meters then Raise (ValueError (LatlongMeters name))
      else
        match viable units with
        | None => Raise (ValueError (InvalidUnits name))
        | Some units =>
            var <- (if (name =? "center")%string then _round_poles var units p
                    else Ok var) ;;
            let radians := PyStr.contains "rad" units in
            var <-
              (if (PyStr.contains degree_sign units || PyStr.contains "deg" units || radians)
                  && negb inverse then
                 if is_radius_or_resolution name then
                   match center with
                   | None => Raise (ValueError MissingCenter)
                   | Some center =>
                       center_as_angle <-
                         transform p (fst center) (snd center) radians true true ;;
                       pole <- transform p (fst center) (snd center) false true false ;;
                       if Qltb (Qabs (Qabs (snd pole) - 90)) (1 # 10000000000) then
                         a <- transform p 0
                                (snd center_as_angle
                                 - _sign (snd center_as_angle) * Qabs (fst var))
                                radians false true ;;
                         b <- transform p 0
                                (snd center_as_angle
                                 - _sign (snd center_as_angle) * Qabs (snd var))
                                radians false true ;;
                         Ok (Qabs (snd a + snd center), Qabs (snd b + snd center))
                       else
                         a <- transform p (fst center_as_angle - fst var)
                                (snd center_as_angle) radians false true ;;
                         b <- transform p (fst center_as_angle)
                                (snd center_as_angle - snd var) radians false true ;;
                         Ok (Qabs (fst center - fst a), Qabs (snd center - snd b))
                   end
                 else transform p (fst var) (snd var) radians false true
               else if inverse && PyStr.contains "m" units then
                 transform p (fst var) (snd var) false true true
               else Ok var) ;;
            Ok (Some (if is_radius_or_resolution name
                      then (Qabs (fst var), Qabs (snd var))
                      else var))
        end
  end.

(** ** The validator *)

(** utils.py 817-823. *)
Definition _validate_variable {A : Type} `{AllClose A} (var : option A) (new_var : A)
    (var_name : string) (input_list : list string) : result A :=
  match var with
  | Some v =>
      if negb (allclose v new_var)
      then Raise (ValueError (ConflictingData var_name input_list))
      else Ok new_var
  | None => Ok new_var
  end.

(** ** The normalizer *)

Section Normalizer.

(** [float(s)] on text; [None] is the [ValueError]. *)
Variable float_of_string : string -> option Q.

(** [float(v)]. *)
Definition py_float (v : pyval) : result Q :=
  match v with
  | VNum q => Ok q
  | VStr s =>
      match float_of_string s with
      | Some q => Ok q
      | None => Raise (ValueError FloatOfText)
      end
  | VObj => Raise TypeError
  end.

(** The characters of a text, as iteration over it yields them. *)
Fixpoint chars (s : string) : list pyval :=
  match s with
  | EmptyString => []
  | String c t => VStr (String c EmptyString) :: chars t
  end.

(** utils.py 875-882. *)
Definition _format_list (var : pydata) (name : string) : result (list Q) :=
  match var with
  | ListLike l => mapM py_float l
  | Number q =>
      if is_radius_or_resolution name then Ok [q; q]
      else Raise TypeError
  | Text s =>
      if is_radius_or_resolution name
      then x <- py_float (VStr s) ;; y <- py_float (VStr s) ;; Ok [x; y]
      else mapM py_float (chars s)
  end.

(** The two [except] clauses of [_verify_list]. *)
Definition list_like_errors {A : Type} (name : string) (c : result A) : result A :=
  match c with
  | Raise TypeError => Raise (ValueError (NotListLike name))
  | Raise (ValueError _) => Raise (ValueError (NotNumeric name))
  | _ => c
  end.

(** utils.py 885-907. *)
Definition _verify_list (name : string) (var : option pyarg) (length : nat) :
    result (option (quantity (list Q))) :=
  match var with
  | None => Ok None
  | Some var =>
      var <- list_like_errors name
               (match var with
                | DataArray d (Some units) =>
                    if negb (name =? "shape")%string
                    then l <- _format_list d name ;; Ok (UnitArray l units)
                    else l <- _format_list d name ;; Ok (Tuple l)
                | DataArray d None => l <- _format_list d name ;; Ok (Tuple l)
                | Plain d => l <- _format_list d name ;; Ok (Tuple l)
                end) ;;
      let len := match var with Tuple l => List.length l | UnitArray l _ => List.length l end in
      if negb (len =? length)%nat
      then Raise (ValueError (WrongLength name length len))
      else Ok (Some var)
  end.

End Normalizer.

(** ** The inference engine *)

Definition quantity_map {A B : Type} (f : A -> B) (q : quantity A) : quantity B :=
  match q with
  | Tuple v => Tuple (f v)
  | UnitArray v u => UnitArray (f v) u
  end.

(** A verified list read by index: [(var[0], var[1])] and
    [(var[0], var[1], var[2], var[3])]. *)
Definition vec2_of_list (l : list Q) : vec2 := (nth 0 l 0, nth 1 l 0).
Definition vec4_of_list (l : list Q) : vec4 := (nth 0 l 0, nth 1 l 0, nth 2 l 0, nth 3 l 0).

(** utils.py 715-733.  [area_extent[:2]] and [area_extent[2:]] keep the
    units of a [DataArray]; the two converted points are joined again. *)
Definition _get_converted_lists (center top_left_extent : option (quantity vec2))
    (area_extent : option (quantity vec4)) (units : units_t) (p : Proj) :
    result (option vec2 * option vec2 * option vec4) :=
  let area_extent_ll :=
    option_map (quantity_map (fun e : vec4 => let '(x0, y0, _, _) := e in (x0, y0))) area_extent in
  let area_extent_ur :=
    option_map (quantity_map (fun e : vec4 => let '(_, _, x1, y1) := e in (x1, y1))) area_extent in
  center <- _convert_units center "center" units p false None ;;
  top_left_extent <- _convert_units top_left_extent "top_left_extent" units p false None ;;
  area_extent_ll <- _convert_units area_extent_ll "area_extent" units p false None ;;
  area_extent_ur <- _convert_units area_extent_ur "area_extent" units p false None ;;
  let area_extent :=
    match area_extent_ll, area_extent_ur with
    | Some ll, Some ur => Some (fst ll, snd ll, fst ur, snd ur)
    | _, _ => None
    end in
  Ok (center, top_left_extent, area_extent).

(** utils.py 831-849, Functions 1-A and 1-B and the [else]: the center, the
    radius in meters and the top left corner that the extent or the corner
    and the center give. *)
Definition extrapolate_radius (area_extent : option vec4) (center : option vec2)
    (radius : option (quantity vec2)) (top_left_extent : option vec2)
    (units : units_t) (p : Proj) :
    result (option vec2 * option vec2 * option vec2) :=
  match area_extent with
  | Some (x0, y0, x1, y1) =>
      let new_center := ((x1 + x0) / 2, (y1 + y0) / 2) in
      center <- _validate_variable center new_center "center" ["area_extent"%string] ;;
      radius <- _convert_units radius "radius" units p false (Some center) ;;
      let new_radius := ((x1 - x0) / 2, (y1 - y0) / 2) in
      radius <- _validate_variable radius new_radius "radius" ["area_extent"%string] ;;
      let new_top_left_extent := (x0, y1) in
      top_left_extent <-
        _validate_variable top_left_extent new_top_left_extent "top_left_extent"
          ["area_extent"%string] ;;
      Ok (Some center, Some radius, Some top_left_extent)
  | None =>
      match top_left_extent, center with
      | Some tle, Some c =>
          radius <- _convert_units radius "radius" units p false center ;;
          let new_radius := (fst c - fst tle, snd tle - snd c) in
          radius <-
            _validate_variable radius new_radius "radius"
              ["top_left_extent"; "center"]%string ;;
          Ok (center, Some radius, top_left_extent)
      | _, _ =>
          radius <- _convert_units radius "radius" units p false center ;;
          Ok (center, radius, top_left_extent)
      end
  end.

(** utils.py 852-859, Functions 2-A and 2-B: the shape from radius and
    resolution, or else the radius from resolution and shape. *)
Definition extrapolate_shape (radius resolution shape : option vec2) :
    result (option vec2 * option vec2) :=
  match radius, resolution with
  | Some r, Some res =>
      rows <- pydiv (2 * snd r) (snd res) ;;
      cols <- pydiv (2 * fst r) (fst res) ;;
      let new_shape := (rows, cols) in
      shape <- _validate_variable shape new_shape "shape" ["radius"; "resolution"]%string ;;
      Ok (Some shape, radius)
  | _, _ =>
      match resolution, shape with
      | Some res, Some sh =>
          let new_radius := (fst res * snd sh / 2, snd res * fst sh / 2) in
          radius <- _validate_variable radius new_radius "radius" ["shape"; "resolution"]%string ;;
          Ok (shape, Some radius)
      | _, _ => Ok (shape, radius)
      end
  end.

(** utils.py 862-871, Functions 1-C and 1-D: the extent from the center or
    the top left corner and the radius. *)
Definition extrapolate_area_extent (area_extent : option vec4)
    (center radius top_left_extent : option vec2) : result (option vec4) :=
  match center, radius with
  | Some c, Some r =>
      let new_area_extent :=
        (fst c - fst r, snd c - snd r, fst c + fst r, snd c + snd r) in
      area_extent <-
        _validate_variable area_extent new_area_extent "area_extent"
          ["center"; "radius"]%string ;;
      Ok (Some area_extent)
  | _, _ =>
      match top_left_extent, radius with
      | Some tle, Some r =>
          let new_area_extent :=
            (fst tle, snd tle - 2 * snd r, fst tle + 2 * fst r, snd tle) in
          area_extent <-
            _validate_variable area_extent new_area_extent "area_extent"
              ["top_left_extent"; "radius"]%string ;;
          Ok (Some area_extent)
      | _, _ => Ok area_extent
      end
  end.

(** utils.py 826-872: the four steps in their order. *)
Definition _extrapolate_information (area_extent : option vec4) (shape center : option vec2)
    (radius resolution : option (quantity vec2)) (top_left_extent : option vec2)
    (units : units_t) (p : Proj) : result (option vec4 * option vec2) :=
  '(center, radius, top_left_extent) <-
    extrapolate_radius area_extent center radius top_left_extent units p ;;
  resolution <- _convert_units resolution "resolution" units p false center ;;
  '(shape, radius) <- extrapolate_shape radius resolution shape ;;
  area_extent <- extrapolate_area_extent area_extent center radius top_left_extent ;;
  Ok (area_extent, shape).

(** ** The factory *)

(** A keyword argument handed on to the constructors. *)
Inductive kwval : Type :=
| KNum (q : Q)
| KBool (b : bool)
| KStr (s : string)
| KObj.

(** The two classes of [pyresample.geometry], by the arguments of their
    constructors. *)
Inductive area_def : Type :=
| AreaDefinition (area_id description : string) (proj_id : option string)
    (proj_dict : proj_dict) (width height : Z) (area_extent : vec4)
    (kwargs : PyDict.dict kwval)
| DynamicAreaDefinition (area_id description : string) (proj_dict : proj_dict)
    (width height : option Z) (area_extent : option vec4)
    (rotation : option kwval) (optimize_projection : kwval).

(** utils.py 680-689: an axis of the shape as an integer: the nearest one
    when it is less than .01 away, else the next one above (with a logged
    warning, which has no effect on the result). *)
Definition round_axis (x : Q) : Z :=
  if Qltb (x - inject_Z (Qfloor x)) (1 # 100) || Qltb (inject_Z (Qceiling x) - x) (1 # 100)
  then py_round x
  else Qceiling x.

(** utils.py 671-698. *)
Definition _make_area (area_id description : string) (proj_id : option string)
    (proj_dict : proj_dict) (shape : option vec2) (area_extent : option vec4)
    (kwargs : PyDict.dict kwval) : result area_def :=
  let '(width, height) :=
    match shape with
    | Some sh => (Some (round_axis (snd sh)), Some (round_axis (fst sh)))
    | None => (None, None)
    end in
  match area_extent, width, height with
  | Some extent, Some w, Some h =>
      Ok (AreaDefinition area_id description proj_id proj_dict w h extent kwargs)
  | _, _, _ =>
      match area_extent, shape with
      | None, None =>
          Raise (ValueError NotEnoughInformation)
      | _, _ =>
          Ok (DynamicAreaDefinition area_id description proj_dict width height area_extent
                (PyDict.get "rotation" kwargs)
                (match PyDict.get "optimize_projection" kwargs with
                 | Some v => v
                 | None => KBool false
                 end))
      end
  end.

(** The [projection] argument: text, a dict, or another object. *)
Inductive projection_arg : Type :=
| ProjString (s : string)
| ProjDict (d : proj_dict)
| ProjObject.

(** The arguments of [from_params] other than [area_id] and [projection];
    [description] and [proj_id] are the two keywords it pops from
    [kwargs]. *)
Record params : Type := {
  shape : option pyarg;
  top_left_extent : option pyarg;
  center : option pyarg;
  area_extent : option pyarg;
  resolution : option pyarg;
  radius : option pyarg;
  units : option string;
  description : option string;
  proj_id : option string;
  kwargs : PyDict.dict kwval
}.

Section FromParams.

Variable float_of_string : string -> option Q.

(** pyproj's [Proj(proj_dict)]. *)
Variable Proj_init : proj_dict -> result Proj.

(** utils.py 701-712. *)
Definition _get_proj_data (projection : projection_arg) : result (proj_dict * Proj) :=
  match projection with
  | ProjString s =>
      let proj_dict := proj4_str_to_dict float_of_string s in
      p <- Proj_init proj_dict ;; Ok (proj_dict, p)
  | ProjDict proj_dict => p <- Proj_init proj_dict ;; Ok (proj_dict, p)
  | ProjObject => Raise (ValueError BadProjection)
  end.

(** utils.py 645-667: [from_params] up to its call of [_make_area]: the
    projection dict and the shape and extent that are found. *)
Definition from_params_inference (projection : projection_arg) (a : params) :
    result (proj_dict * option vec2 * option vec4) :=
  '(proj_dict, p) <- _get_proj_data projection ;;
  let units :=
    match units a with
    | Some u => UnitStr u
    | None =>
        match PyDict.get "units" proj_dict with
        | None => UnitStr "meters"
        | Some (PStr u) => UnitStr u
        | Some _ => UnitOther
        end
    end in
  center <- _verify_list float_of_string "center" (center a) 2 ;;
  radius <- _verify_list float_of_string "radius" (radius a) 2 ;;
  top_left_extent <- _verify_list float_of_string "top_left_extent" (top_left_extent a) 2 ;;
  resolution <- _verify_list float_of_string "resolution" (resolution a) 2 ;;
  shape <- _verify_list float_of_string "shape" (shape a) 2 ;;
  area_extent <- _verify_list float_of_string "area_extent" (area_extent a) 4 ;;
  let center := option_map (quantity_map vec2_of_list) center in
  let radius := option_map (quantity_map vec2_of_list) radius in
  let top_left_extent := option_map (quantity_map vec2_of_list) top_left_extent in
  let resolution := option_map (quantity_map vec2_of_list) resolution in
  let shape :=
    option_map (fun q => match q with Tuple l | UnitArray l _ => vec2_of_list l end) shape in
  let area_extent := option_map (quantity_map vec4_of_list) area_extent in
  '(center, top_left_extent, area_extent) <-
    _get_converted_lists center top_left_extent area_extent units p ;;
  '(area_extent, shape) <-
    (match area_extent, shape with
     | Some _, Some _ => Ok (area_extent, shape)
     | _, _ =>
         _extrapolate_information area_extent shape center radius resolution
           top_left_extent units p
     end) ;;
  Ok (proj_dict, shape, area_extent).

(** utils.py 588-668. *)
Definition from_params (area_id : string) (projection : projection_arg) (a : params) :
    result area_def :=
  let description := match description a with Some d => d | None => area_id end in
  '(proj_dict, shape, area_extent) <- from_params_inference projection a ;;
  _make_area area_id description (proj_id a) proj_dict shape area_extent (kwargs a).

End FromParams.

(** ** Catalog files *)

(** A value that [yaml.load] returns. *)
Inductive yaml : Type :=
| YNull
| YBool (b : bool)
| YNum (q : Q)
| YStr (s : string)
| YList (l : list yaml)
| YMap (m : list (string * yaml)).

(** A value of the [params] dict of one area: a value of the file, or the
    [DataArray(list_of_values, attrs={'units': units})] of [_get_list]. *)
Inductive param_value : Type :=
| PValue (v : yaml)
| PDataArray (data : yaml) (units : yaml).

(** The [area_file_name] argument: one text or a list of texts, each the
    name of a file or the content of one. *)
Inductive source : Type :=
| One (s : string)
| Several (l : list string).

Definition quoted (s : string) : string :=
  (String (ascii_of_nat 34) s ++ String (ascii_of_nat 34) EmptyString)%string.

(** [list_of_values.append(values)] and [list_of_values.extend(values)]:
    [None] is the [AttributeError] of an object that is no list. *)
Definition list_append (list_of_values values : yaml) : option yaml :=
  match list_of_values with
  | YList l => Some (YList (l ++ [values]))
  | _ => None
  end.

Definition list_extend (list_of_values : yaml) (values : list yaml) : option yaml :=
  match list_of_values with
  | YList l => Some (YList (l ++ values))
  | _ => None
  end.

(** utils.py 153-184.  [default] is [None]. *)
Definition _get_list (params : PyDict.dict param_value) (var : string)
    (arg_list : list string) : result param_value :=
  match PyDict.get var params with
  | None => Ok (PValue YNull)
  | Some (PValue (YMap variable)) =>
      let arg_list := var :: arg_list in
      list_of_values <-
        fold_left
          (fun acc arg =>
             list_of_values <- acc ;;
             match PyDict.get arg variable with
             | None => Ok list_of_values
             | Some values =>
                 if (arg =? var)%string then Ok values
                 else
                   let added :=
                     match values with
                     | YList vs =>
                         if existsb (String.eqb arg) ["lower_left_xy"; "upper_right_xy"]%string
                         then list_extend list_of_values vs
                         else list_append list_of_values values
                     | _ => list_append list_of_values values
                     end in
                   match added with
                   | Some l => Ok l
                   | None => Raise (ValueError (TooManyArguments var arg))
                   end
             end)
          arg_list (Ok (YList [])) ;;
      match PyDict.get "units"%string variable with
      | None | Some YNull => Ok (PValue list_of_values)
      | Some units => Ok (PDataArray list_of_values units)
      end
  | Some variable => Ok variable
  end.

(** utils.py 571-585.  [d.get(k, {})] and [d[k] = r] need a dict [d], and
    [u.items()] a dict [u]. *)
Fixpoint recursive_dict_update (d u : yaml) {struct u} : result yaml :=
  match u with
  | YMap items =>
      (fix loop (items : list (string * yaml)) (d : yaml) {struct items} : result yaml :=
         match items with
         | [] => Ok d
         | (k, v) :: rest =>
             d <-
               match v with
               | YMap _ =>
                   match d with
                   | YMap dm =>
                       r <- recursive_dict_update
                              (match PyDict.get k dm with Some x => x | None => YMap [] end) v ;;
                       Ok (YMap (PyDict.set k r dm))
                   | _ => Raise AttributeError
                   end
               | _ =>
                   match d with
                   | YMap dm => Ok (YMap (PyDict.set k v dm))
                   | _ => Raise TypeError
                   end
               end ;;
             loop rest d
         end) items d
  | _ => Raise AttributeError
  end.

Section Catalogs.

(** The file system: the lines of a file as [readlines()] gives them, or
    [None] when [os.path.isfile] is false. *)
Variable file_lines : string -> option (list string).

(** [yaml.load] on text; it raises [ScannerError] on text that is no YAML. *)
Variable yaml_load : string -> result yaml.

(** [from_params] called with the dict [params] as its keywords and, for
    the legacy format, [_create_area]
    (utils.py 247-277, which reads the block with ConfigObj). *)
Variable from_params_kwargs : PyDict.dict param_value -> result area_def.
Variable _create_area : string -> string -> result area_def.

(** The text of a list of texts, as [%s] and [{}] write it. *)
Variable list_repr : list string -> string.

Definition sources (area_file_name : source) : list string :=
  match area_file_name with
  | One s => [s]
  | Several l => l
  end.

Definition source_text (area_file_name : source) : string :=
  match area_file_name with
  | One s => s
  | Several l => list_repr l
  end.

(** ['Area "%s" not found in file "%s"']. *)
Definition not_found_message (area_name : string) (area_file_name : source) : string :=
  ("Area " ++ quoted area_name ++ " not found in file "
   ++ quoted (source_text area_file_name))%string.

(** utils.py 103-118. *)
Definition _read_yaml_area_file_content (area_file_name : source) : result yaml :=
  fold_left
    (fun acc area_file_obj =>
       area_dict <- acc ;;
       tmp_dict <-
         match file_lines area_file_obj with
         | Some lines => yaml_load (concat EmptyString lines)
         | None => yaml_load area_file_obj
         end ;;
       recursive_dict_update area_dict tmp_dict)
    (sources area_file_name) (Ok (YMap [])).

(** utils.py 121-150. *)
Definition _parse_yaml_area_file (area_file_name : source) (regions : list string) :
    result (list area_def) :=
  area_dict <- _read_yaml_area_file_content area_file_name ;;
  match area_dict with
  | YMap area_dict =>
      let area_list :=
        match regions with
        | [] => PyDict.keys area_dict
        | _ => regions
        end in
      mapM
        (fun area_name =>
           match PyDict.get area_name area_dict with
           | None => Raise (AreaNotFound (not_found_message area_name area_file_name))
           | Some (YMap params) =>
               let params := map (fun kv => (fst kv, PValue (snd kv))) params in
               let params :=
                 if PyDict.mem "area_id" params then params
                 else PyDict.set "area_id"%string (PValue (YStr area_name)) params in
               v <- _get_list params "shape" ["height"; "width"]%string ;;
               let params := PyDict.set "shape"%string v params in
               v <- _get_list params "top_left_extent" ["x"; "y"]%string ;;
               let params := PyDict.set "top_left_extent"%string v params in
               v <- _get_list params "center" ["center_x"; "center_y"]%string ;;
               let params := PyDict.set "center"%string v params in
               v <- _get_list params "area_extent" ["lower_left_xy"; "upper_right_xy"]%string ;;
               let params := PyDict.set "area_extent"%string v params in
               v <- _get_list params "resolution" ["dx"; "dy"]%string ;;
               let params := PyDict.set "resolution"%string v params in
               v <- _get_list params "radius" ["dx"; "dy"]%string ;;
               let params := PyDict.set "radius"%string v params in
               from_params_kwargs params
           | Some _ => Raise AttributeError
           end)
        area_list
  | _ => Raise AttributeError
  end.

(** utils.py 187-203. *)
Definition _read_legacy_area_file_lines (area_file_name : source) : list string :=
  flat_map
    (fun area_file_obj =>
       match file_lines area_file_obj with
       | None => PyStr.splitlines area_file_obj
       | Some lines => lines
       end)
    (sources area_file_name).

(** The variables of the scan of [_parse_legacy_area_file]. *)
Record scan : Type := {
  in_area : bool;
  area_id : string;
  area_content : string;
  area_defs : list (option area_def)
}.

(** [area_list.index(area_id)]. *)
Fixpoint index (area_id : string) (area_list : list string) : option nat :=
  match area_list with
  | [] => None
  | a :: l =>
      if (a =? area_id)%string then Some O
      else option_map S (index area_id l)
  end.

(** [area_defs[i] = area]. *)
Fixpoint assign {A : Type} (i : nat) (a : A) (l : list A) : list A :=
  match l, i with
  | [], _ => []
  | _ :: l', O => a :: l'
  | x :: l', S i' => x :: assign i' a l'
  end.

(** utils.py 220-236: the body of the loop, for one line. *)
Definition scan_line (area_list : list string) (select_all_areas : bool)
    (st : scan) (line : string) : result scan :=
  if negb (in_area st) then
    if PyStr.contains "REGION" line then
      let area_id :=
        PyStr.strip (PyStr.replace "{" EmptyString (PyStr.replace "REGION:" EmptyString line)) in
      if existsb (String.eqb area_id) area_list || select_all_areas
      then Ok {| in_area := true; area_id := area_id;
                 area_content := EmptyString; area_defs := area_defs st |}
      else Ok {| in_area := false; area_id := area_id;
                 area_content := area_content st; area_defs := area_defs st |}
    else Ok st
  else if PyStr.contains "};" line then
    area <- _create_area (area_id st) (area_content st) ;;
    if select_all_areas then
      Ok {| in_area := false; area_id := area_id st; area_content := area_content st;
            area_defs := area_defs st ++ [Some area] |}
    else
      match index (area_id st) area_list with
      | Some i =>
          Ok {| in_area := false; area_id := area_id st; area_content := area_content st;
                area_defs := assign i (Some area) (area_defs st) |}
      | None => Raise (ValueError NotInList)
      end
  else
    Ok {| in_area := true; area_id := area_id st;
          area_content := (area_content st ++ line)%string; area_defs := area_defs st |}.

Fixpoint scan_lines (area_list : list string) (select_all_areas : bool)
    (st : scan) (lines : list string) : result scan :=
  match lines with
  | [] => Ok st
  | line :: rest =>
      st <- scan_line area_list select_all_areas st line ;;
      scan_lines area_list select_all_areas st rest
  end.

(** utils.py 238-244: the check that every area was found, and the list
    that is returned. *)
Fixpoint found_areas (area_file_name : source) (area_list : list string)
    (area_defs : list (option area_def)) : result (list area_def) :=
  match area_defs with
  | [] => Ok []
  | None :: _ =>
      Raise (AreaNotFound (not_found_message (hd EmptyString area_list) area_file_name))
  | Some area :: rest =>
      areas <- found_areas area_file_name (tl area_list) rest ;;
      Ok (area :: areas)
  end.

(** The entries of [area_defs] when none is [None]. *)
Fixpoint all_areas (area_defs : list (option area_def)) : list area_def :=
  match area_defs with
  | [] => []
  | Some area :: rest => area :: all_areas rest
  | None :: rest => all_areas rest
  end.

(** utils.py 206-244. *)
Definition _parse_legacy_area_file (area_file_name : source) (regions : list string) :
    result (list area_def) :=
  let area_file := _read_legacy_area_file_lines area_file_name in
  let area_list := regions in
  let select_all_areas := (List.length area_list =? 0)%nat in
  st <- scan_lines area_list select_all_areas
          {| in_area := false; area_id := EmptyString; area_content := EmptyString;
             area_defs := if select_all_areas then [] else map (fun _ => None) area_list |}
          area_file ;;
  if negb select_all_areas
  then found_areas area_file_name area_list (area_defs st)
  else Ok (all_areas (area_defs st)).

(** utils.py 75-100. *)
Definition parse_area_file (area_file_name : source) (regions : list string) :
    result (list area_def) :=
  match _parse_yaml_area_file area_file_name regions with
  | Raise ScannerError => _parse_legacy_area_file area_file_name regions
  | r => r
  end.

(** What [load_area] returns: one definition or a list of them. *)
Inductive loaded : Type :=
| OneArea (area : area_def)
| AreaList (areas : list area_def).

(** utils.py 45-72. *)
Definition load_area (area_file_name : source) (regions : list string) : result loaded :=
  area_list <- parse_area_file area_file_name regions ;;
  match area_list with
  | [area] => Ok (OneArea area)        (* len(area_list) == 1 *)
  | _ => Ok (AreaList area_list)
  end.

End Catalogs.

(** ** Radii of the ellipsoid *)

Section RadiusParameters.

Variable float_of_string : string -> option Q.

(** pyproj's [Geod] called with the entries of a dict as its keywords: the
    radii [a] and [b] of the object. *)
Variable Geod : proj_dict -> result (Q * Q).

(** [float(v)] on a value of a PROJ.4 dict. *)
Definition float_of_value (v : proj_value) : result Q :=
  match v with
  | PTrue => Ok 1
  | PFloat x => Ok x
  | PStr s =>
      match float_of_string s with
      | Some x => Ok x
      | None => Raise (ValueError FloatOfText)
      end
  end.

(** [float(new_info[k])]. *)
Definition float_item (k : string) (new_info : proj_dict) : result Q :=
  match PyDict.get k new_info with
  | Some v => float_of_value v
  | None => Raise (KeyError k)
  end.

(** utils.py 476-512. *)
Definition proj4_radius_parameters (proj4_dict : projection_arg) : result (Q * Q) :=
  new_info <-
    match proj4_dict with
    | ProjString s => Ok (proj4_str_to_dict float_of_string s)
    | ProjDict d => Ok d
    | ProjObject => Raise AttributeError
    end ;;
  new_info <-
    (if PyDict.mem "ellps" new_info then
       geod <- Geod new_info ;;
       Ok (PyDict.set "b" (PFloat (snd geod)) (PyDict.set "a" (PFloat (fst geod)) new_info))
     else if negb (PyDict.mem "a" new_info) || negb (PyDict.mem "b" new_info) then
       new_info <-
         (if PyDict.mem "rf" new_info && negb (PyDict.mem "f" new_info) then
            rf <- float_item "rf" new_info ;;
            f <- pydiv 1 rf ;;
            Ok (PyDict.set "f" (PFloat f) new_info)
          else Ok new_info) ;;
       if PyDict.mem "a" new_info && PyDict.mem "f" new_info then
         a <- float_item "a" new_info ;;
         f <- float_item "f" new_info ;;
         Ok (PyDict.set "b" (PFloat (a * (1 - f))) new_info)
       else if PyDict.mem "b" new_info && PyDict.mem "f" new_info then
         b <- float_item "b" new_info ;;
         f <- float_item "f" new_info ;;
         a <- pydiv b (1 - f) ;;
         Ok (PyDict.set "a" (PFloat a) new_info)
       else
         geod <- Geod [("ellps", PStr "WGS84")]%string ;;
         Ok (PyDict.set "b" (PFloat (snd geod)) (PyDict.set "a" (PFloat (fst geod)) new_info))
     else Ok new_info) ;;
  a <- float_item "a" new_info ;;
  b <- float_item "b" new_info ;;
  Ok (a, b).

End RadiusParameters.

(** ** Index arrays *)

(** [np.iinfo(np.uint16).max]. *)
Definition uint16_max : Z := 65535.

(** utils.py 515-523, on an array of integers: with a size that fits
    [uint16], the indices outside [0, size) become [size] and the array is
    cast to [uint16], which keeps an integer modulo 2^16. *)
Definition _downcast_index_array (index_array : list Z) (size : Z) : list Z :=
  if (size <=? uint16_max)%Z then
    map (fun i => ((if (i <? 0)%Z || (size <=? i)%Z then size else i) mod 65536)%Z)
      index_array
  else index_array.

(** ** Longitudes and latitudes *)

(** [x % m] on floats, for a positive [m]: the remainder has the sign of
    [m]. *)
Definition py_mod (x m : Q) : Q := x - m * inject_Z (Qfloor (x / m)).

(** utils.py 526-540, on an array of floats. *)
Definition wrap_longitudes (lons : list Q) : list Q :=
  map (fun lon => py_mod (lon + 180) 360 - 180) lons.

(** [a.min()] and [a.max()]: [None] is numpy's [ValueError] on an array
    without elements. *)
Definition array_min (a : list Q) : option Q :=
  match a with
  | [] => None
  | x :: a' => Some (fold_left (fun m y => if Qltb y m then y else m) a' x)
  end.

Definition array_max (a : list Q) : option Q :=
  match a with
  | [] => None
  | x :: a' => Some (fold_left (fun m y => if Qltb m y then y else m) a' x)
  end.

(** The two [ValueError]s of [check_and_wrap]: its own, and numpy's for an
    array without elements. *)
Inductive wrap_error : Type :=
| LatitudesOutside
    (* 'Some latitudes are outside the [-90.:+90] validity range' *)
| ZeroSizeArray.

(** utils.py 543-568. *)
Definition check_and_wrap (lons lats : list Q) : wrap_error + (list Q * list Q) :=
  match array_min lats, array_max lats with
  | Some lat_min, Some lat_max =>
      if Qltb lat_min (-(90)) || Qltb 90 lat_max then inl LatitudesOutside
      else
        match array_min lons, array_max lons with
        | Some lon_min, Some lon_max =>
            if Qltb lon_min (-(180)) || Qle_bool 180 lon_max
            then inr (wrap_longitudes lons, lats)
            else inr (lons, lats)
        | _, _ => inl ZeroSizeArray
        end
  | _, _ => inl ZeroSizeArray
  end.

(** * Definitions for the statements *)

(** ** Instances used by the examples *)

(** A projection that maps a point to itself. *)
Definition identity_proj : Proj :=
  {| is_latlong := false; transform := fun x y _ _ _ => Ok (x, y) |}.

Definition no_params : params :=
  {| shape := None; top_left_extent := None; center := None; area_extent := None;
     resolution := None; radius := None; units := None; description := None;
     proj_id := None; kwargs := [] |}.

(** A file system without files, so that every text is file content. *)
Definition no_files : string -> option (list string) := fun _ => None.

Definition center_radius_resolution : params :=
  {| shape := None; top_left_extent := None;
     center := Some (Plain (ListLike [VNum 0; VNum 0]));
     area_extent := None;
     resolution := Some (Plain (Number 500));
     radius := Some (Plain (Number 1000));
     units := None; description := None; proj_id := None; kwargs := [] |}.

Definition shape_only : params :=
  {| shape := Some (Plain (ListLike [VNum 20; VNum 10])); top_left_extent := None;
     center := None; area_extent := None; resolution := None; radius := None;
     units := None; description := None; proj_id := None; kwargs := [] |}.

(** A YAML loader that knows one document, with the single area [euro]. *)
Definition one_area_yaml (text : string) : result yaml :=
  Ok (YMap [("euro",
             YMap [("projection", YStr "+proj=stere");
                   ("shape", YMap [("height", YNum 20); ("width", YNum 10)]);
                   ("area_extent",
                    YMap [("lower_left_xy", YList [YNum 0; YNum 0]);
                          ("upper_right_xy", YList [YNum 100; YNum 200])])])]%string).

(** A stand-in for [from_params] that keeps the area name only. *)
Definition named_area (params : PyDict.dict param_value) : result area_def :=
  match PyDict.get "area_id" params with
  | Some (PValue (YStr area_id)) =>
      Ok (DynamicAreaDefinition area_id area_id [] None None None None (KBool false))
  | _ => Raise TypeError
  end.

(** A stand-in for [_create_area] that keeps the name and the block. *)
Definition block_area (area_id area_content : string) : result area_def :=
  Ok (DynamicAreaDefinition area_id area_content [] None None None None (KBool false)).

Definition line_feed : string := String (ascii_of_nat 10) EmptyString.

(** A source with the closed block [a] and the block [b] that is never
    closed. *)
Definition unterminated_source : source :=
  One ("REGION: a {" ++ line_feed ++ "XSIZE: 10" ++ line_feed ++ "};" ++ line_feed
       ++ "REGION: b {" ++ line_feed ++ "XSIZE: 20")%string.

(** The entry of an area whose [area_extent] mapping holds the bare name
    with a list of two and the component [upper_right_xy]. *)
Definition both_keys_params : PyDict.dict param_value :=
  [("area_extent",
    PValue (YMap [("area_extent", YList [YNum 0; YNum 0]);
                  ("upper_right_xy", YList [YNum 100; YNum 200])]))]%string.

(** ** The loop of [_get_list] *)

Definition is_list (v : yaml) : bool :=
  match v with
  | YList _ => true
  | _ => false
  end.

(** The body of the loop of [_get_list], and the loop over [arg_list] from
    the value [acc] of [list_of_values]. *)
Definition collect_step (var : string) (variable : list (string * yaml))
    (acc : result yaml) (arg : string) : result yaml :=
  list_of_values <- acc ;;
  match PyDict.get arg variable with
  | None => Ok list_of_values
  | Some values =>
      if (arg =? var)%string then Ok values
      else
        let added :=
          match values with
          | YList vs =>
              if existsb (String.eqb arg) ["lower_left_xy"; "upper_right_xy"]%string
              then list_extend list_of_values vs
              else list_append list_of_values values
          | _ => list_append list_of_values values
          end in
        match added with
        | Some l => Ok l
        | None => Raise (ValueError (TooManyArguments var arg))
        end
  end.

Definition collect (var : string) (variable : list (string * yaml))
    (arg_list : list string) (acc : result yaml) : result yaml :=
  fold_left (collect_step var variable) arg_list acc.

(** ** Characters of strings, and dicts built by assignments *)

(** The character [c] occurs in [s]. *)
Fixpoint has_char (c : ascii) (s : string) : bool :=
  match s with
  | EmptyString => false
  | String a t => (a =? c)%char || has_char c t
  end.

(** [s] without its occurrences of [c]. *)
Fixpoint remove_char (c : ascii) (s : string) : string :=
  match s with
  | EmptyString => EmptyString
  | String a t => if (a =? c)%char then remove_char c t else String a (remove_char c t)
  end.

(** The dict that successive assignments of the entries [es] build. *)
Definition build {V : Type} (es : list (string * V)) (acc : PyDict.dict V) : PyDict.dict V :=
  fold_left (fun acc e => PyDict.set (fst e) (snd e) acc) es acc.

(** ** The round trip of PROJ.4 strings *)

(** The keys that [proj4_dict_to_str] writes without a value. *)
Definition is_flag_key (k : string) : bool :=
  existsb (String.eqb k) ["no_defs"; "no_off"; "no_rot"]%string.

(** In [d], the keys with the value [True] are the keys that
    [proj4_dict_to_str] writes as flags. *)
Definition flags_as_written (d : proj_dict) : Prop :=
  forall k v, In (k, v) d -> (v = PTrue <-> is_flag_key k = true).

Section RoundTripDefinitions.

Variable float_of_string : string -> option Q.
Variable float_repr : Q -> string.

(** The floats of [d] are read back from their text, which holds no
    space. *)
Definition floats_reread (d : proj_dict) : Prop :=
  forall k x, In (k, PFloat x) d ->
    float_of_string (PyStr.replace "+" EmptyString (float_repr x)) = Some x
    /\ PyStr.contains " " (float_repr x) = false.

(** The entry that [convert_proj_floats] assigns for a pair. *)
Definition entry_of (x : string * option string) : string * proj_value :=
  (fst x,
   match snd x with
   | None => PTrue
   | Some v =>
       match float_of_string v with
       | Some f => PFloat f
       | None => PStr v
       end
   end).

(** An entry as [proj4_str_to_dict] makes it: no space, plus or equals
    sign in the key, and a text value without space or plus that is no
    float. *)
Definition entry_ok (e : string * proj_value) : Prop :=
  has_char " " (fst e) = false
  /\ has_char "+" (fst e) = false
  /\ has_char "=" (fst e) = false
  /\ match snd e with
     | PStr v => has_char " " v = false /\ has_char "+" v = false
                 /\ float_of_string v = None
     | _ => True
     end.

End RoundTripDefinitions.

(** ** Tactics *)

(** Case analysis on the scrutinee of the first [match] or [bind] of the
    goal or of a hypothesis. *)
Ltac break_match :=
  match goal with
  | |- context [match ?x with _ => _ end] => destruct x eqn:?
  | |- context [bind ?c _] => destruct c eqn:?; cbn [bind]
  end.

Ltac break_match_in H :=
  match type of H with
  | context [match ?x with _ => _ end] => destruct x eqn:?
  | context [bind ?c _] => destruct c eqn:?; cbn [bind] in H
  end.

(** ** Instances for the radii of the ellipsoid *)

(** A [Geod] that knows the ellipsoid WGS84, by its radii as rationals. *)
Definition wgs84_geod (kwargs : proj_dict) : result (Q * Q) :=
  match PyDict.get "ellps" kwargs with
  | Some (PStr "WGS84") => Ok (6378137, 6356752314245179 # 1000000000)
  | _ => Raise (External "Geod")
  end.

(** ** The update of nested dicts *)

Definition is_map (v : yaml) : bool :=
  match v with
  | YMap _ => true
  | _ => false
  end.

(** One round of the loop of [recursive_dict_update], for the item
    [(k, v)] of [u]. *)
Definition update_item (d : yaml) (k : string) (v : yaml) : result yaml :=
  match v with
  | YMap _ =>
      match d with
      | YMap dm =>
          r <- recursive_dict_update
                 (match PyDict.get k dm with Some x => x | None => YMap [] end) v ;;
          Ok (YMap (PyDict.set k r dm))
      | _ => Raise AttributeError
      end
  | _ =>
      match d with
      | YMap dm => Ok (YMap (PyDict.set k v dm))
      | _ => Raise TypeError
      end
  end.

(** The keys of every dict in [y], at any depth of nested dicts, are
    distinct, as the keys of a dict are. *)
Fixpoint distinct_keys (y : yaml) : Prop :=
  match y with
  | YMap m =>
      NoDup (map fst m)
      /\ (fix all (m : list (string * yaml)) : Prop :=
            match m with
            | [] => True
            | kv :: m' => distinct_keys (snd kv) /\ all m'
            end) m
  | _ => True
  end.

(** Induction on the dicts nested in a value. *)
Section YamlInduction.

Variable P : yaml -> Prop.
Hypothesis P_leaf : forall y, is_map y = false -> P y.
Hypothesis P_map : forall m, Forall (fun kv => P (snd kv)) m -> P (YMap m).

Fixpoint yaml_map_induction (y : yaml) : P y :=
  match y with
  | YMap m =>
      P_map m
        ((fix go (m : list (string * yaml)) : Forall (fun kv => P (snd kv)) m :=
            match m with
            | [] => Forall_nil _
            | kv :: m' => Forall_cons kv (yaml_map_induction (snd kv)) (go m')
            end) m)
  | YNull => P_leaf YNull eq_refl
  | YBool b => P_leaf (YBool b) eq_refl
  | YNum q => P_leaf (YNum q) eq_refl
  | YStr s => P_leaf (YStr s) eq_refl
  | YList l => P_leaf (YList l) eq_refl
  end.

End YamlInduction.

(** The catalogs of two files: the second file changes the description of
    the area [euro] and adds the area [afro]. *)
Definition base_catalog : list (string * yaml) :=
  [("euro", YMap [("description", YStr "Europe"); ("shape", YList [YNum 20; YNum 10])])]%string.

Definition override_catalog : list (string * yaml) :=
  [("euro", YMap [("description", YStr "Europe 3km")]);
   ("afro", YMap [("description", YStr "Africa")])]%string.

(** ** The components of a quantity in a catalog *)

(** What the loop of [_get_list] adds for the key [arg] of the mapping
    [variable]: nothing when the key is missing, the elements of a list
    under [lower_left_xy] or [upper_right_xy], and the value otherwise. *)
Definition component (variable : list (string * yaml)) (arg : string) : list yaml :=
  match PyDict.get arg variable with
  | None => []
  | Some (YList vs) =>
      if existsb (String.eqb arg) ["lower_left_xy"; "upper_right_xy"]%string
      then vs else [YList vs]
  | Some v => [v]
  end.

(** The entry of an area whose extent is given by its two corner points,
    in degrees. *)
Definition corner_params : PyDict.dict param_value :=
  [("area_extent",
    PValue (YMap [("lower_left_xy", YList [YNum 0; YNum 0]);
                  ("upper_right_xy", YList [YNum 100; YNum 200]);
                  ("units", YStr "deg")]))]%string.

(** ** Blocks of a legacy file *)

(** A block of a legacy file with the lines before it: [leading] lines
    without the REGION marker, the [header] line with the marker, [body]
    lines without the closing marker, and the [closing] line with it. *)
Record legacy_block : Type := {
  leading : list string;
  header : string;
  body : list string;
  closing : string
}.

Definition block_lines (b : legacy_block) : list string :=
  leading b ++ header b :: body b ++ [closing b].

Definition block_ok (b : legacy_block) : Prop :=
  (forall line, In line (leading b) -> PyStr.contains "REGION" line = false)
  /\ PyStr.contains "REGION" (header b) = true
  /\ (forall line, In line (body b) -> PyStr.contains "};" line = false)
  /\ PyStr.contains "};" (closing b) = true.

(** The area name that the scan reads off a header line. *)
Definition region_id (line : string) : string :=
  PyStr.strip (PyStr.replace "{" EmptyString (PyStr.replace "REGION:" EmptyString line)).

(** Two blocks with a comment line between them. *)
Definition two_blocks : list legacy_block :=
  [{| leading := []; header := "REGION: a {"; body := ["XSIZE: 10"; "YSIZE: 20"];
      closing := "};" |};
   {| leading := ["# second"]; header := "REGION: b {"; body := ["XSIZE: 30"];
      closing := "};" |}]%string.

Definition two_blocks_source : source :=
  One ("REGION: a {" ++ line_feed ++ "XSIZE: 10" ++ line_feed ++ "YSIZE: 20" ++ line_feed
       ++ "};" ++ line_feed ++ "# second" ++ line_feed ++ "REGION: b {" ++ line_feed
       ++ "XSIZE: 30" ++ line_feed ++ "};" ++ line_feed)%string.

(** An entry of [area_defs] at the place of the requested name [name]:
    empty, or a definition that [_create_area] has made under [name]. *)
Definition made_under (_create_area : string -> string -> result area_def)
    (name : string) (entry : option area_def) : Prop :=
  match entry with
  | None => True
  | Some area => exists content, _create_area name content = Ok area
  end.

(** ** Verified quantities *)

(** The data of a verified quantity. *)
Definition payload {A : Type} (q : quantity A) : A :=
  match q with
  | Tuple v => v
  | UnitArray v _ => v
  end.

(** * Properties *)


(** ** The validator *)

(** C3.  The validator raises the conflicting-data error exactly when the
    existing value is not [None] and is not close to the derived value, and
    it returns the derived value exactly in the other cases: the existing
    value is [None], or it is close to the derived one. *)
Theorem validate_variable_conflict_or_derived :
  forall (A : Type) (close : AllClose A) (var : option A) (new_var : A)
         (var_name : string) (input_list : list string),
    (_validate_variable var new_var var_name input_list
       = Raise (ValueError (ConflictingData var_name input_list))
     <-> exists v, var = Some v /\ allclose v new_var = false)
    /\ (_validate_variable var new_var var_name input_list = Ok new_var
        <-> var = None \/ exists v, var = Some v /\ allclose v new_var = true).
Proof.
  intros A close var new_var var_name input_list.
  unfold _validate_variable.
  destruct var as [v|].
  - destruct (allclose v new_var) eqn:E; cbn; split; split.
    + discriminate.
    + intros (v' & Hv & Hc). injection Hv as <-. congruence.
    + intros _. right. exists v. split; [reflexivity | exact E].
    + reflexivity.
    + intros _. exists v. split; [reflexivity | exact E].
    + reflexivity.
    + discriminate.
    + intros [Hn | (v' & Hv & Hc)]; [discriminate | ].
      injection Hv as <-. congruence.
  - split; split.
    + discriminate.
    + intros (v & Hv & _). discriminate.
    + intros _. left. reflexivity.
    + reflexivity.
Qed.

(** C3 on a center of (0, 0): against the derived (0, 1) it is a conflict,
    against the derived (0, 1e-9) it is replaced by the derived value. *)
Lemma validate_variable_conflict_or_derived_witness :
  _validate_variable (Some (0, 0)) (0, 1) "center" ["area_extent"%string]
    = Raise (ValueError (ConflictingData "center" ["area_extent"%string]))
  /\ _validate_variable (Some (0, 0)) (0, 1 # 1000000000) "center" ["area_extent"%string]
     = Ok (0, 1 # 1000000000).
Proof.
  split.
  - apply (validate_variable_conflict_or_derived vec2 allclose_vec2 (Some (0, 0)) (0, 1)
             "center" ["area_extent"%string]).
    exists (0, 0). split; reflexivity.
  - apply (validate_variable_conflict_or_derived vec2 allclose_vec2 (Some (0, 0))
             (0, 1 # 1000000000) "center" ["area_extent"%string]).
    right. exists (0, 0). split; reflexivity.
Defined.

(** ** The normalizer *)

(** C7.  A number that is not list-like becomes a pair of two equal floats
    when the name is [radius] or [resolution], plain or in a [DataArray]
    with units; under every other name it raises the not-list-like
    [ValueError], whatever the expected length. *)
Theorem verify_list_scalar :
  forall (float_of_string : string -> option Q) (name : string) (q : Q),
    ((name = "radius" \/ name = "resolution")%string ->
       _verify_list float_of_string name (Some (Plain (Number q))) 2
         = Ok (Some (Tuple [q; q]))
       /\ forall u, _verify_list float_of_string name (Some (DataArray (Number q) (Some u))) 2
                    = Ok (Some (UnitArray [q; q] u)))
    /\ (name <> "radius"%string -> name <> "resolution"%string ->
        forall (length : nat) (u : option string),
          _verify_list float_of_string name (Some (Plain (Number q))) length
            = Raise (ValueError (NotListLike name))
          /\ _verify_list float_of_string name (Some (DataArray (Number q) u)) length
            = Raise (ValueError (NotListLike name))).
Proof.
  intros fos name q. split.
  - intros [-> | ->]; split; reflexivity.
  - intros Hrad Hres length u.
    assert (Hn : is_radius_or_resolution name = false).
    { unfold is_radius_or_resolution. cbn.
      apply String.eqb_neq in Hrad, Hres. rewrite Hrad, Hres. reflexivity. }
    unfold _verify_list, _format_list. rewrite Hn.
    split; [reflexivity | ].
    destruct u as [u|]; [ | reflexivity].
    destruct (negb (name =? "shape")%string); reflexivity.
Qed.

(** C7 on the number 500: as a resolution it is the pair (500, 500), as a
    center it is not list-like. *)
Lemma verify_list_scalar_witness :
  _verify_list SampleFloat.float_of_string "resolution" (Some (Plain (Number 500))) 2
    = Ok (Some (Tuple [500; 500]))
  /\ _verify_list SampleFloat.float_of_string "center" (Some (Plain (Number 500))) 2
     = Raise (ValueError (NotListLike "center")).
Proof.
  split.
  - apply (verify_list_scalar SampleFloat.float_of_string "resolution" 500).
    right. reflexivity.
  - apply (verify_list_scalar SampleFloat.float_of_string "center" 500);
      [discriminate | discriminate | exact None].
Defined.

(** ** The unit converter *)

Lemma Qabs_pair_nonneg :
  forall v : vec2, 0 <= fst (Qabs (fst v), Qabs (snd v)) /\ 0 <= snd (Qabs (fst v), Qabs (snd v)).
Proof.
  intros v. split; apply Qabs_nonneg.
Qed.

(** C8.  When the conversion of a radius or a resolution returns, whatever
    the vector, its units, the projection, the [inverse] flag and the
    center, both components of the result are at least zero. *)
Theorem convert_units_radius_resolution_nonnegative :
  forall (var : quantity vec2) (name : string) (units : units_t) (p : Proj)
         (inverse : bool) (center : option vec2) (v : vec2),
    (name = "radius" \/ name = "resolution")%string ->
    _convert_units (Some var) name units p inverse center = Ok (Some v) ->
    0 <= fst v /\ 0 <= snd v.
Proof.
  intros var name units p inverse center v Hname H.
  assert (Hn : is_radius_or_resolution name = true)
    by (destruct Hname as [-> | ->]; reflexivity).
  unfold _convert_units in H. rewrite Hn in H.
  destruct (match var with
            | Tuple v0 => (units, v0)
            | UnitArray v0 u => (UnitStr u, v0)
            end) as [units' var'].
  repeat (break_match_in H; try discriminate).
  all: injection H as <-; apply Qabs_pair_nonneg.
Qed.

(** ** The factory *)

(** C1.  When [from_params] gets as far as [_make_area]: with both the shape
    and the extent found it returns an [AreaDefinition], with one of the two
    a [DynamicAreaDefinition], and with neither it raises the [ValueError]
    for not enough information. *)
Theorem from_params_factory_decision :
  forall (float_of_string : string -> option Q) (Proj_init : proj_dict -> result Proj)
         (area_id : string) (projection : projection_arg) (a : params)
         (pd : proj_dict) (found_shape : option vec2) (found_extent : option vec4),
    from_params_inference float_of_string Proj_init projection a
      = Ok (pd, found_shape, found_extent) ->
    let descr := match description a with Some d => d | None => area_id end in
    match found_shape, found_extent with
    | Some _, Some extent =>
        exists w h,
          from_params float_of_string Proj_init area_id projection a
            = Ok (AreaDefinition area_id descr (proj_id a) pd w h extent (kwargs a))
    | None, None =>
        from_params float_of_string Proj_init area_id projection a
          = Raise (ValueError NotEnoughInformation)
    | _, _ =>
        exists w h rotation optimize,
          from_params float_of_string Proj_init area_id projection a
            = Ok (DynamicAreaDefinition area_id descr pd w h found_extent rotation optimize)
    end.
Proof.
  intros fos init area_id projection a pd sh ae H descr.
  unfold from_params. rewrite H. cbn [bind].
  unfold _make_area.
  destruct sh as [sh|], ae as [ae|].
  - eexists _, _. reflexivity.
  - eexists _, _, _, _. reflexivity.
  - eexists _, _, _, _. reflexivity.
  - reflexivity.
Qed.

(** The three outcomes of C1 on calls with the projection [+proj=stere]:
    center, radius and resolution give a static definition, a shape alone a
    dynamic one, and no quantity at all the error. *)
Lemma from_params_factory_decision_witness :
  (exists w h,
     from_params SampleFloat.float_of_string (fun _ => Ok identity_proj) "a"
       (ProjString "+proj=stere") center_radius_resolution
     = Ok (AreaDefinition "a" "a" None [("proj", PStr "stere")]%string w h
             (0 - 1000, 0 - 1000, 0 + 1000, 0 + 1000) []))
  /\ (exists w h rotation optimize,
        from_params SampleFloat.float_of_string (fun _ => Ok identity_proj) "a"
          (ProjString "+proj=stere") shape_only
        = Ok (DynamicAreaDefinition "a" "a" [("proj", PStr "stere")]%string w h None
                rotation optimize))
  /\ from_params SampleFloat.float_of_string (fun _ => Ok identity_proj) "a"
       (ProjString "+proj=stere") no_params
     = Raise (ValueError NotEnoughInformation).
Proof.
  split; [ | split].
  - exact (from_params_factory_decision SampleFloat.float_of_string
             (fun _ => Ok identity_proj) "a" (ProjString "+proj=stere")
             center_radius_resolution _ (Some _) (Some _) eq_refl).
  - exact (from_params_factory_decision SampleFloat.float_of_string
             (fun _ => Ok identity_proj) "a" (ProjString "+proj=stere")
             shape_only _ (Some _) None eq_refl).
  - exact (from_params_factory_decision SampleFloat.float_of_string
             (fun _ => Ok identity_proj) "a" (ProjString "+proj=stere")
             no_params _ None None eq_refl).
Defined.

(** C8 at a radius of (-5, 3) degrees around the center (0, 0). *)
Lemma convert_units_radius_resolution_nonnegative_witness :
  _convert_units (Some (UnitArray (-(5), 3) "deg")) "radius" (UnitStr "m") identity_proj
    false (Some (0, 0)) = Ok (Some (Qabs (Qabs (0 - (0 - -(5)))), Qabs (Qabs (0 - (0 - 3)))))
  /\ 0 <= fst (Qabs (Qabs (0 - (0 - -(5)))), Qabs (Qabs (0 - (0 - 3))))
  /\ 0 <= snd (Qabs (Qabs (0 - (0 - -(5)))), Qabs (Qabs (0 - (0 - 3)))).
Proof.
  split; [reflexivity | ].
  apply (convert_units_radius_resolution_nonnegative
           (UnitArray (-(5), 3) "deg") "radius" (UnitStr "m") identity_proj false
           (Some (0, 0))).
  - left. reflexivity.
  - reflexivity.
Defined.

(** ** The inference engine *)

Lemma pydiv_nonzero :
  forall a b : Q, ~ b == 0 -> pydiv a b = Ok (a / b).
Proof.
  intros a b Hb. unfold pydiv.
  destruct (Qeq_bool b 0) eqn:E; [ | reflexivity].
  apply Qeq_bool_iff in E. contradiction.
Qed.

Lemma pydiv_returns :
  forall a b c : Q, pydiv a b = Ok c -> ~ b == 0 /\ c = a / b.
Proof.
  intros a b c. unfold pydiv.
  destruct (Qeq_bool b 0) eqn:E; [discriminate | ].
  intros H. injection H as <-. split; [ | reflexivity].
  intros Hb. apply Qeq_bool_iff in Hb. congruence.
Qed.

(** Function 2-A when it returns: the shape is the quotient of the doubled
    radius by the resolution, rows first, and a given shape is close to it. *)
Lemma extrapolate_shape_returns :
  forall (r res : vec2) (shape found_shape found_radius : option vec2),
    extrapolate_shape (Some r) (Some res) shape = Ok (found_shape, found_radius) ->
    found_shape = Some (2 * snd r / snd res, 2 * fst r / fst res)
    /\ found_radius = Some r
    /\ ~ snd res == 0 /\ ~ fst res == 0
    /\ (forall given, shape = Some given ->
          allclose given (2 * snd r / snd res, 2 * fst r / fst res) = true).
Proof.
  intros r res shape fs fr H. unfold extrapolate_shape in H.
  destruct (pydiv (2 * snd r) (snd res)) as [rows|] eqn:Hrows; [ | discriminate].
  destruct (pydiv (2 * fst r) (fst res)) as [cols|] eqn:Hcols; [ | discriminate].
  apply pydiv_returns in Hrows, Hcols.
  destruct Hrows as [Hy ->], Hcols as [Hx ->]. cbn [bind] in H.
  unfold _validate_variable in H.
  destruct shape as [given|].
  - destruct (allclose given _) eqn:Hc; cbn in H; [ | discriminate].
    injection H as <- <-. repeat split; try assumption.
    intros g Hg. injection Hg as <-. exact Hc.
  - cbn in H. injection H as <- <-. repeat split; try assumption.
    intros g Hg. discriminate.
Qed.

(** C2.  With radius [r] and resolution [res] in meters, [res] without a
    zero component, Function 2-A derives the shape
    [(2 * r_y / res_y, 2 * r_x / res_x)], rows (the height) first.  The
    validator checks it against a shape of the caller: without one, or with
    one close to it, the derived shape is the result; with one that is not
    close the conflicting-data error is raised.  And whenever the whole
    inference returns with such a radius and resolution, the shape it
    returns is the derived one. *)
Theorem shape_from_radius_and_resolution :
  forall (r res : vec2) (shape : option vec2),
    ~ fst res == 0 -> ~ snd res == 0 ->
    let new_shape := (2 * snd r / snd res, 2 * fst r / fst res) in
    (extrapolate_shape (Some r) (Some res) shape
       = (s <- _validate_variable shape new_shape "shape" ["radius"; "resolution"]%string ;;
          Ok (Some s, Some r)))
    /\ (shape = None \/ (exists given, shape = Some given /\ allclose given new_shape = true) ->
        extrapolate_shape (Some r) (Some res) shape = Ok (Some new_shape, Some r))
    /\ (forall given, shape = Some given -> allclose given new_shape = false ->
        extrapolate_shape (Some r) (Some res) shape
          = Raise (ValueError (ConflictingData "shape" ["radius"; "resolution"]%string)))
    /\ (forall area_extent center radius resolution top_left_extent units p c t
               found_extent found_shape,
          extrapolate_radius area_extent center radius top_left_extent units p
            = Ok (c, Some r, t) ->
          _convert_units resolution "resolution" units p false c = Ok (Some res) ->
          _extrapolate_information area_extent shape center radius resolution
            top_left_extent units p = Ok (found_extent, found_shape) ->
          found_shape = Some new_shape).
Proof.
  intros r res shape Hx Hy new_shape.
  assert (Hstep : extrapolate_shape (Some r) (Some res) shape
                  = (s <- _validate_variable shape new_shape "shape"
                            ["radius"; "resolution"]%string ;;
                     Ok (Some s, Some r))).
  { unfold extrapolate_shape.
    rewrite (pydiv_nonzero _ _ Hy), (pydiv_nonzero _ _ Hx). reflexivity. }
  split; [exact Hstep | ]. split; [ | split].
  - intros [-> | (given & -> & Hc)]; rewrite Hstep; unfold _validate_variable.
    + reflexivity.
    + rewrite Hc. reflexivity.
  - intros given -> Hc. rewrite Hstep. unfold _validate_variable.
    rewrite Hc. reflexivity.
  - intros area_extent center radius resolution top_left_extent units p c t
           found_extent found_shape Hrad Hres H.
    unfold _extrapolate_information in H.
    rewrite Hrad in H. cbn [bind] in H. rewrite Hres in H. cbn [bind] in H.
    destruct (extrapolate_shape (Some r) (Some res) shape) as [[s rad]|] eqn:Hs;
      [ | discriminate].
    cbn [bind] in H.
    apply extrapolate_shape_returns in Hs. destruct Hs as (-> & _).
    destruct (extrapolate_area_extent area_extent c rad t); [ | discriminate].
    cbn [bind] in H. injection H as _ <-. reflexivity.
Qed.

(** C2 at a radius of (1000, 2000) and a resolution of (500, 250): the
    shape is (16, 4), and the caller's shape (16, 4) agrees with it. *)
Lemma shape_from_radius_and_resolution_witness :
  extrapolate_shape (Some (1000, 2000)) (Some (500, 250)) (Some (16, 4))
    = Ok (Some (2 * 2000 / 250, 2 * 1000 / 500), Some (1000, 2000))
  /\ _extrapolate_information None (Some (16, 4)) (Some (0, 0)) (Some (Tuple (1000, 2000)))
       (Some (Tuple (500, 250))) None (UnitStr "m") identity_proj
     = Ok (Some (0 - Qabs 1000, 0 - Qabs 2000, 0 + Qabs 1000, 0 + Qabs 2000),
           Some (2 * Qabs 2000 / Qabs 250, 2 * Qabs 1000 / Qabs 500)).
Proof.
  split.
  - apply (shape_from_radius_and_resolution (1000, 2000) (500, 250) (Some (16, 4))).
    + discriminate.
    + discriminate.
    + right. exists (16, 4). split; reflexivity.
  - reflexivity.
Defined.

(** ** Loading areas *)

Section LoadArea.

Variable file_lines : string -> option (list string).
Variable yaml_load : string -> result yaml.
Variable from_params_kwargs : PyDict.dict param_value -> result area_def.
Variable _create_area : string -> string -> result area_def.
Variable list_repr : list string -> string.

(** C9.  When the parsers give the list [areas], [load_area] returns the
    definition itself if the list holds exactly one, whether or not names
    were requested, and the list if it is empty or holds two or more. *)
Theorem load_area_one_or_list :
  forall (area_file_name : source) (regions : list string) (areas : list area_def),
    parse_area_file file_lines yaml_load from_params_kwargs _create_area list_repr
      area_file_name regions = Ok areas ->
    (forall area, areas = [area] ->
       load_area file_lines yaml_load from_params_kwargs _create_area list_repr
         area_file_name regions = Ok (OneArea area))
    /\ (List.length areas <> 1%nat ->
        load_area file_lines yaml_load from_params_kwargs _create_area list_repr
          area_file_name regions = Ok (AreaList areas)).
Proof.
  intros area_file_name regions areas H. unfold load_area. rewrite H. cbn [bind].
  split.
  - intros area ->. reflexivity.
  - intros Hlen. destruct areas as [ | a [ | b rest]]; try reflexivity.
    cbn in Hlen. congruence.
Qed.

End LoadArea.

(** C9 on a catalog with one area and no requested name. *)
Lemma load_area_one_or_list_witness :
  load_area no_files one_area_yaml named_area block_area (fun _ => EmptyString)
    (One "areas.yaml") []
  = Ok (OneArea (DynamicAreaDefinition "euro" "euro" [] None None None None (KBool false))).
Proof.
  apply (load_area_one_or_list no_files one_area_yaml named_area block_area
           (fun _ => EmptyString) (One "areas.yaml") []
           [DynamicAreaDefinition "euro" "euro" [] None None None None (KBool false)]).
  - reflexivity.
  - reflexivity.
Defined.

(** ** The legacy parser *)

Section LegacyScan.

Variable file_lines : string -> option (list string).
Variable _create_area : string -> string -> result area_def.
Variable list_repr : list string -> string.

Lemma scan_lines_app :
  forall (area_list : list string) (select_all_areas : bool) (l1 l2 : list string) (st : scan),
    scan_lines _create_area area_list select_all_areas st (l1 ++ l2)
    = (st1 <- scan_lines _create_area area_list select_all_areas st l1 ;;
       scan_lines _create_area area_list select_all_areas st1 l2).
Proof.
  intros area_list select_all_areas l1. induction l1 as [ | line l1 IH]; intros l2 st.
  - reflexivity.
  - cbn [app scan_lines].
    destruct (scan_line _create_area area_list select_all_areas st line) as [st1|e].
    + cbn [bind]. apply IH.
    + reflexivity.
Qed.

(** Inside a block, lines without the closing marker only grow the block:
    the scan goes on to the end of the lines, stays inside the block and
    leaves the definitions as they are. *)
Lemma scan_lines_inside_block :
  forall (area_list : list string) (select_all_areas : bool) (rest : list string) (st : scan),
    in_area st = true ->
    (forall line, In line rest -> PyStr.contains "};" line = false) ->
    exists st',
      scan_lines _create_area area_list select_all_areas st rest = Ok st'
      /\ in_area st' = true
      /\ area_defs st' = area_defs st.
Proof.
  intros area_list select_all_areas rest.
  induction rest as [ | line rest IH]; intros st Hin Hrest.
  - exists st. repeat split. exact Hin.
  - cbn [scan_lines]. unfold scan_line. rewrite Hin. cbn [negb].
    rewrite (Hrest line (or_introl eq_refl)). cbn [bind].
    destruct (IH {| in_area := true; area_id := area_id st;
                    area_content := (area_content st ++ line)%string;
                    area_defs := area_defs st |})
      as (st' & Hscan & Hin' & Hdefs).
    + reflexivity.
    + intros l Hl. apply Hrest. right. exact Hl.
    + exists st'. repeat split; assumption.
Qed.

(** C10.  No names are requested.  The lines of the source are [closed],
    after which the scan is outside a block, then a line with the REGION
    marker, then lines of which none holds the closing marker.  Then the
    parser raises nothing and returns the definitions that the scan of
    [closed] has made: the block that is never closed adds none. *)
Theorem legacy_unterminated_block_adds_nothing :
  forall (area_file_name : source) (closed : list string) (opening : string)
         (rest : list string) (st : scan),
    _read_legacy_area_file_lines file_lines area_file_name = closed ++ opening :: rest ->
    scan_lines _create_area [] true
      {| in_area := false; area_id := EmptyString; area_content := EmptyString;
         area_defs := [] |} closed = Ok st ->
    in_area st = false ->
    PyStr.contains "REGION" opening = true ->
    (forall line, In line rest -> PyStr.contains "};" line = false) ->
    _parse_legacy_area_file file_lines _create_area list_repr area_file_name []
    = Ok (all_areas (area_defs st)).
Proof.
  intros area_file_name closed opening rest st Hlines Hclosed Hout Hopen Hrest.
  unfold _parse_legacy_area_file. rewrite Hlines. cbn [List.length Nat.eqb negb].
  rewrite scan_lines_app, Hclosed. cbn [bind scan_lines].
  unfold scan_line at 1. rewrite Hout, Hopen. cbn [negb existsb orb bind].
  match goal with
  | |- context [scan_lines _ _ _ ?s rest] =>
      destruct (scan_lines_inside_block [] true rest s eq_refl Hrest)
        as (st' & Hscan & _ & Hdefs)
  end.
  rewrite Hscan. cbn [bind]. rewrite Hdefs. reflexivity.
Qed.

Lemma found_areas_first_missing :
  forall (area_file_name : source) (found : list area_def)
         (later : list (option area_def)) (area_list : list string),
    found_areas list_repr area_file_name area_list (map Some found ++ None :: later)
    = Raise (AreaNotFound
               (not_found_message list_repr
                  (nth (List.length found) area_list EmptyString) area_file_name)).
Proof.
  intros area_file_name found later. induction found as [ | a found IH]; intros area_list.
  - cbn. destruct area_list; reflexivity.
  - cbn [map app found_areas List.length]. rewrite IH. cbn [bind].
    destruct area_list; [ | reflexivity].
    cbn. destruct (List.length found); reflexivity.
Qed.

(** C4, amended.  Names are requested and the scan of the whole source
    ends.  If a request is left unmatched, the parser raises [AreaNotFound]
    with the message for the first unmatched request, in the order of the
    requests: the entries of [found] before it were matched, and what
    follows it, matched or not, is not in the message. *)
Theorem legacy_reports_first_unmatched :
  forall (area_file_name : source) (regions : list string) (st : scan)
         (found : list area_def) (later : list (option area_def)),
    regions <> [] ->
    scan_lines _create_area regions false
      {| in_area := false; area_id := EmptyString; area_content := EmptyString;
         area_defs := map (fun _ => None) regions |}
      (_read_legacy_area_file_lines file_lines area_file_name) = Ok st ->
    area_defs st = map Some found ++ None :: later ->
    _parse_legacy_area_file file_lines _create_area list_repr area_file_name regions
    = Raise (AreaNotFound
               (not_found_message list_repr
                  (nth (List.length found) regions EmptyString) area_file_name)).
Proof.
  intros area_file_name regions st found later Hne Hscan Hdefs.
  unfold _parse_legacy_area_file.
  destruct regions as [ | r regions]; [contradiction | ].
  cbn [List.length Nat.eqb negb]. rewrite Hscan. cbn [bind].
  rewrite Hdefs. apply found_areas_first_missing.
Qed.

End LegacyScan.

(** C10 on that source: the definition of [a] alone is returned. *)
Lemma legacy_unterminated_block_adds_nothing_witness :
  _parse_legacy_area_file no_files block_area (fun _ => EmptyString) unterminated_source []
  = Ok [DynamicAreaDefinition "a" "XSIZE: 10" [] None None None None (KBool false)].
Proof.
  apply (legacy_unterminated_block_adds_nothing no_files block_area (fun _ => EmptyString)
           unterminated_source ["REGION: a {"; "XSIZE: 10"; "};"]%string "REGION: b {"
           ["XSIZE: 20"]%string
           {| in_area := false; area_id := "a"; area_content := "XSIZE: 10";
              area_defs := [Some (DynamicAreaDefinition "a" "XSIZE: 10" [] None None None
                                    None (KBool false))] |}).
  - reflexivity.
  - reflexivity.
  - reflexivity.
  - reflexivity.
  - intros line [<- | []]. reflexivity.
Defined.

(** C4 as stated fails on an empty source with the requests [alpha] and
    [beta]: both are unmatched, the parser raises [AreaNotFound] with the
    message for [alpha], and [beta] does not occur in that message. *)
Lemma legacy_message_names_one_request :
  scan_lines block_area ["alpha"; "beta"]%string false
    {| in_area := false; area_id := EmptyString; area_content := EmptyString;
       area_defs := [None; None] |}
    (_read_legacy_area_file_lines no_files (One EmptyString))
  = Ok {| in_area := false; area_id := EmptyString; area_content := EmptyString;
          area_defs := [None; None] |}
  /\ _parse_legacy_area_file no_files block_area (fun _ => EmptyString) (One EmptyString)
       ["alpha"; "beta"]%string
     = Raise (AreaNotFound
                (not_found_message (fun _ => EmptyString) "alpha" (One EmptyString)))
  /\ PyStr.contains "beta"
       (not_found_message (fun _ => EmptyString) "alpha" (One EmptyString)) = false.
Proof.
  repeat split.
Qed.

(** The amended C4 on the same call. *)
Lemma legacy_reports_first_unmatched_witness :
  _parse_legacy_area_file no_files block_area (fun _ => EmptyString) (One EmptyString)
    ["alpha"; "beta"]%string
  = Raise (AreaNotFound (not_found_message (fun _ => EmptyString) "alpha" (One EmptyString))).
Proof.
  apply (legacy_reports_first_unmatched no_files block_area (fun _ => EmptyString)
           (One EmptyString) ["alpha"; "beta"]%string
           {| in_area := false; area_id := EmptyString; area_content := EmptyString;
              area_defs := [None; None] |} [] [None]).
  - discriminate.
  - reflexivity.
  - reflexivity.
Defined.

(** ** The hierarchical parser: [_get_list] *)

Lemma get_list_collect :
  forall (params : PyDict.dict param_value) (var : string) (arg_list : list string)
         (variable : list (string * yaml)),
    PyDict.get var params = Some (PValue (YMap variable)) ->
    _get_list params var arg_list
    = (list_of_values <- collect var variable (var :: arg_list) (Ok (YList [])) ;;
       match PyDict.get "units"%string variable with
       | None | Some YNull => Ok (PValue list_of_values)
       | Some units => Ok (PDataArray list_of_values units)
       end).
Proof.
  intros params var arg_list variable H. unfold _get_list. rewrite H. reflexivity.
Qed.

Lemma collect_cons :
  forall var variable arg arg_list acc,
    collect var variable (arg :: arg_list) acc
    = collect var variable arg_list (collect_step var variable acc arg).
Proof.
  reflexivity.
Qed.

Lemma collect_raise :
  forall var variable arg_list e,
    collect var variable arg_list (Raise e) = Raise e.
Proof.
  intros var variable arg_list e. induction arg_list as [ | arg arg_list IH].
  - reflexivity.
  - rewrite collect_cons. exact IH.
Qed.

(** The first round of the loop, for the bare name itself. *)
Lemma collect_bare :
  forall var variable bare,
    PyDict.get var variable = Some bare ->
    collect_step var variable (Ok (YList [])) var = Ok bare.
Proof.
  intros var variable bare H. unfold collect_step. cbn [bind].
  rewrite H, String.eqb_refl. reflexivity.
Qed.

(** From a list, the loop ends with a list when the value under the bare
    name is a list: [append] and [extend] never fail. *)
Lemma collect_list :
  forall var variable bare arg_list l,
    PyDict.get var variable = Some (YList bare) ->
    exists l', collect var variable arg_list (Ok (YList l)) = Ok (YList l').
Proof.
  intros var variable bare arg_list. induction arg_list as [ | arg arg_list IH]; intros l Hbare.
  - exists l. reflexivity.
  - rewrite collect_cons. unfold collect_step. cbn [bind].
    destruct (PyDict.get arg variable) as [values|] eqn:Hget.
    + destruct (arg =? var)%string eqn:Harg.
      * apply String.eqb_eq in Harg. subst arg.
        rewrite Hbare in Hget. injection Hget as <-. apply IH. exact Hbare.
      * destruct values;
          try (cbn [list_append]; apply IH; exact Hbare).
        destruct (existsb (String.eqb arg) _); cbn; apply IH; exact Hbare.
    + apply IH. exact Hbare.
Qed.

(** The defect behind C5: when the value under the bare name is a list,
    [_get_list] raises nothing, whichever component keys stand beside it. *)
Lemma get_list_bare_list_never_raises :
  forall (params : PyDict.dict param_value) (var : string) (arg_list : list string)
         (variable : list (string * yaml)) (bare : list yaml),
    PyDict.get var params = Some (PValue (YMap variable)) ->
    PyDict.get var variable = Some (YList bare) ->
    exists v, _get_list params var arg_list = Ok v.
Proof.
  intros params var arg_list variable bare Hvar Hbare.
  rewrite (get_list_collect _ _ _ _ Hvar).
  rewrite collect_cons, (collect_bare _ _ _ Hbare).
  destruct (collect_list var variable bare arg_list bare Hbare) as (l' & ->).
  cbn [bind]. destruct (PyDict.get "units"%string variable) as [[ | | | | | ]|]; eexists; reflexivity.
Qed.

(** From a value that is no list, the loop raises at the first component
    key that the mapping holds. *)
Lemma collect_not_list :
  forall var variable arg_list bare,
    is_list bare = false ->
    ~ In var arg_list ->
    (exists arg, In arg arg_list /\ PyDict.get arg variable <> None) ->
    exists arg,
      In arg arg_list
      /\ collect var variable arg_list (Ok bare) = Raise (ValueError (TooManyArguments var arg)).
Proof.
  intros var variable arg_list bare Hbare.
  induction arg_list as [ | arg arg_list IH]; intros Hvar (a & Ha & Hget).
  - destruct Ha.
  - rewrite collect_cons. unfold collect_step. cbn [bind].
    assert (Hneq : (arg =? var)%string = false).
    { apply String.eqb_neq. intros ->. apply Hvar. left. reflexivity. }
    destruct (PyDict.get arg variable) as [values|] eqn:Harg.
    + rewrite Hneq. exists arg. split; [left; reflexivity | ].
      assert (Happ : forall x, list_append bare x = None)
        by (intros x; destruct bare; try reflexivity; discriminate).
      assert (Hext : forall x, list_extend bare x = None)
        by (intros x; destruct bare; try reflexivity; discriminate).
      destruct values; try (rewrite Happ; apply collect_raise).
      destruct (existsb (String.eqb arg) _);
        [rewrite Hext | rewrite Happ]; apply collect_raise.
    + destruct IH as (arg' & Hin & Hres).
      * intros Hin. apply Hvar. right. exact Hin.
      * destruct Ha as [<- | Ha]; [congruence | ]. exists a. split; assumption.
      * exists arg'. split; [right; exact Hin | exact Hres].
Qed.

(** The part of C5 that the code fulfils: a bare value that is no list,
    beside a component key, is the too-many-arguments [ValueError]. *)
Lemma get_list_bare_scalar_raises :
  forall (params : PyDict.dict param_value) (var : string) (arg_list : list string)
         (variable : list (string * yaml)) (bare : yaml),
    PyDict.get var params = Some (PValue (YMap variable)) ->
    PyDict.get var variable = Some bare ->
    is_list bare = false ->
    ~ In var arg_list ->
    (exists arg, In arg arg_list /\ PyDict.get arg variable <> None) ->
    exists arg,
      In arg arg_list
      /\ _get_list params var arg_list = Raise (ValueError (TooManyArguments var arg)).
Proof.
  intros params var arg_list variable bare Hvar Hbare Hlist Hnot Hcomp.
  rewrite (get_list_collect _ _ _ _ Hvar).
  rewrite collect_cons, (collect_bare _ _ _ Hbare).
  destruct (collect_not_list var variable arg_list bare Hlist Hnot Hcomp) as (arg & Hin & ->).
  exists arg. split; [exact Hin | reflexivity].
Qed.

(** C5 fails on the code.  The mapping of [both_keys_params] holds the
    bare name and a component key, and [_get_list] raises nothing: it
    returns the two lists joined into an extent. *)
Theorem get_list_accepts_bare_list_with_component :
  _get_list both_keys_params "area_extent" ["lower_left_xy"; "upper_right_xy"]%string
  = Ok (PValue (YList [YNum 0; YNum 0; YNum 100; YNum 200])).
Proof.
  reflexivity.
Qed.

(** ** Facts on strings *)

Lemma prefix_empty : forall s, prefix EmptyString s = true.
Proof.
  intros [ | a s]; reflexivity.
Qed.

Lemma prefix_single :
  forall c a t, prefix (String c EmptyString) (String a t) = (a =? c)%char.
Proof.
  intros c a t. cbn. destruct (ascii_dec c a) as [-> | Hne].
  - rewrite prefix_empty, Ascii.eqb_refl. reflexivity.
  - symmetry. apply Ascii.eqb_neq. congruence.
Qed.

Lemma contains_single :
  forall c s, PyStr.contains (String c EmptyString) s = has_char c s.
Proof.
  intros c s. induction s as [ | a t IH].
  - reflexivity.
  - cbn [PyStr.contains has_char]. rewrite prefix_single, IH. reflexivity.
Qed.

Lemma replace_single :
  forall c s, PyStr.replace (String c EmptyString) EmptyString s = remove_char c s.
Proof.
  intros c s. unfold PyStr.replace. induction s as [ | a t IH].
  - reflexivity.
  - cbn [PyStr.replace_from remove_char]. rewrite prefix_single.
    destruct (a =? c)%char; cbn; rewrite IH; reflexivity.
Qed.

Lemma has_char_app :
  forall c s t, has_char c (s ++ t) = has_char c s || has_char c t.
Proof.
  intros c s t. induction s as [ | a s IH]; cbn.
  - reflexivity.
  - rewrite IH. apply orb_assoc.
Qed.

Lemma remove_char_app :
  forall c s t, remove_char c (s ++ t)%string = (remove_char c s ++ remove_char c t)%string.
Proof.
  intros c s t. induction s as [ | a s IH]; cbn.
  - reflexivity.
  - destruct (a =? c)%char; cbn; rewrite IH; reflexivity.
Qed.

Lemma remove_char_absent :
  forall c s, has_char c s = false -> remove_char c s = s.
Proof.
  intros c s. induction s as [ | a s IH]; cbn; intros H.
  - reflexivity.
  - apply orb_false_iff in H. destruct H as [Ha Hs].
    rewrite Ha, (IH Hs). reflexivity.
Qed.

Lemma remove_char_has_char :
  forall c s, has_char c (remove_char c s) = false.
Proof.
  intros c s. induction s as [ | a s IH]; cbn.
  - reflexivity.
  - destruct (a =? c)%char eqn:E; cbn; [exact IH | ].
    rewrite E, IH. reflexivity.
Qed.

Lemma remove_char_keeps_absent :
  forall c b s, has_char b s = false -> has_char b (remove_char c s) = false.
Proof.
  intros c b s. induction s as [ | a s IH]; cbn; intros H.
  - reflexivity.
  - apply orb_false_iff in H. destruct H as [Ha Hs].
    destruct (a =? c)%char; cbn; [exact (IH Hs) | ].
    rewrite Ha, (IH Hs). reflexivity.
Qed.

Lemma remove_char_concat :
  forall c sep l,
    has_char c sep = false ->
    remove_char c (concat sep l) = concat sep (map (remove_char c) l).
Proof.
  intros c sep l Hsep. induction l as [ | w l IH].
  - reflexivity.
  - destruct l as [ | w' l].
    + reflexivity.
    + change (concat sep (w :: w' :: l)) with (w ++ sep ++ concat sep (w' :: l))%string.
      rewrite !remove_char_app, IH, (remove_char_absent _ _ Hsep). reflexivity.
Qed.

Lemma split_not_nil : forall sep s, PyStr.split sep s <> [].
Proof.
  intros sep s. destruct s as [ | a s]; cbn; [discriminate | ].
  destruct (a =? sep)%char; [discriminate | ].
  destruct (PyStr.split sep s); discriminate.
Qed.

(** No word of a split holds the separator, and a character that [s] does
    not hold is in none of them. *)
Lemma split_words :
  forall sep b s,
    has_char b s = false ->
    Forall (fun w => has_char sep w = false /\ has_char b w = false) (PyStr.split sep s).
Proof.
  intros sep b s. induction s as [ | a s IH]; cbn; intros H.
  - repeat constructor.
  - apply orb_false_iff in H. destruct H as [Ha Hs]. specialize (IH Hs).
    destruct (a =? sep)%char eqn:E.
    + constructor; [split; reflexivity | exact IH].
    + destruct (PyStr.split sep s) as [ | w ws].
      * repeat constructor; cbn; [rewrite E | rewrite Ha]; reflexivity.
      * inversion IH as [ | ? ? [Hw1 Hw2] Hws]; subst.
        constructor; [ | exact Hws].
        cbn. rewrite E, Ha, Hw1, Hw2. split; reflexivity.
Qed.

Lemma split_word :
  forall sep w, has_char sep w = false -> PyStr.split sep w = [w].
Proof.
  intros sep w. induction w as [ | a w IH]; cbn; intros H.
  - reflexivity.
  - apply orb_false_iff in H. destruct H as [Ha Hw].
    rewrite Ha, (IH Hw). reflexivity.
Qed.

Lemma split_app_sep :
  forall sep w s,
    has_char sep w = false ->
    PyStr.split sep (w ++ String sep s) = w :: PyStr.split sep s.
Proof.
  intros sep w s. induction w as [ | a w IH]; cbn; intros H.
  - rewrite Ascii.eqb_refl. reflexivity.
  - apply orb_false_iff in H. destruct H as [Ha Hw].
    rewrite Ha, (IH Hw). reflexivity.
Qed.

(** Joining words that do not hold the separator and splitting again gives
    the words back. *)
Lemma split_concat :
  forall sep l,
    l <> [] ->
    Forall (fun w => has_char sep w = false) l ->
    PyStr.split sep (concat (String sep EmptyString) l) = l.
Proof.
  intros sep l Hne Hall. induction l as [ | w l IH]; [contradiction | ].
  inversion Hall as [ | ? ? Hw Hl]; subst.
  destruct l as [ | w' l].
  - cbn. apply split_word. exact Hw.
  - change (concat (String sep EmptyString) (w :: w' :: l))
      with (w ++ String sep (concat (String sep EmptyString) (w' :: l)))%string.
    rewrite (split_app_sep _ _ _ Hw), IH; [reflexivity | discriminate | exact Hl].
Qed.

Lemma split_once_absent :
  forall sep s, has_char sep s = false -> PyStr.split_once sep s = (s, None).
Proof.
  intros sep s. induction s as [ | a s IH]; cbn; intros H.
  - reflexivity.
  - apply orb_false_iff in H. destruct H as [Ha Hs].
    rewrite Ha, (IH Hs). reflexivity.
Qed.

Lemma split_once_app_sep :
  forall sep k v,
    has_char sep k = false ->
    PyStr.split_once sep (k ++ String sep v) = (k, Some v).
Proof.
  intros sep k v. induction k as [ | a k IH]; cbn; intros H.
  - rewrite Ascii.eqb_refl. reflexivity.
  - apply orb_false_iff in H. destruct H as [Ha Hk].
    rewrite Ha, (IH Hk). reflexivity.
Qed.

(** The first word of [split_once] does not hold the separator, and a
    character that [s] does not hold is in neither word. *)
Lemma split_once_words :
  forall sep b s,
    has_char b s = false ->
    has_char sep (fst (PyStr.split_once sep s)) = false
    /\ has_char b (fst (PyStr.split_once sep s)) = false
    /\ (forall v, snd (PyStr.split_once sep s) = Some v -> has_char b v = false).
Proof.
  intros sep b s. induction s as [ | a s IH]; cbn; intros H.
  - repeat split. discriminate.
  - apply orb_false_iff in H. destruct H as [Ha Hs]. specialize (IH Hs).
    destruct (a =? sep)%char eqn:E.
    + cbn. repeat split. intros v Hv. injection Hv as <-. exact Hs.
    + destruct (PyStr.split_once sep s) as [w r]. cbn in *.
      destruct IH as (H1 & H2 & H3).
      rewrite E, Ha, H1, H2. repeat split. exact H3.
Qed.

(** ** Facts on dicts *)

Section DictFacts.
Context {V : Type}.

Lemma set_not_nil : forall k (v : V) d, PyDict.set k v d <> [].
Proof.
  intros k v [ | [k' v'] d]; cbn; [discriminate | ].
  destruct (k' =? k)%string; discriminate.
Qed.

Lemma set_keys_in :
  forall k (v : V) d k', In k' (PyDict.keys (PyDict.set k v d)) -> k' = k \/ In k' (PyDict.keys d).
Proof.
  intros k v d k'. induction d as [ | [k0 v0] d IH]; cbn.
  - intros [<- | []]. left. reflexivity.
  - destruct (k0 =? k)%string eqn:E; cbn.
    + apply String.eqb_eq in E. subst k0. intros [<- | H]; auto.
    + intros [<- | H]; auto. destruct (IH H); auto.
Qed.

Lemma set_keys_nodup :
  forall k (v : V) d, NoDup (PyDict.keys d) -> NoDup (PyDict.keys (PyDict.set k v d)).
Proof.
  intros k v d. induction d as [ | [k0 v0] d IH]; cbn; intros H.
  - constructor; [intros [] | constructor].
  - inversion H as [ | ? ? Hnot Hd]; subst.
    destruct (k0 =? k)%string eqn:E; cbn.
    + apply String.eqb_eq in E. subst k0. constructor; assumption.
    + constructor; [ | exact (IH Hd)].
      intros Hin. apply set_keys_in in Hin. destruct Hin as [-> | Hin].
      * rewrite String.eqb_refl in E. discriminate.
      * contradiction.
Qed.

Lemma set_Forall :
  forall (P : string * V -> Prop) k v d,
    Forall P d -> P (k, v) -> Forall P (PyDict.set k v d).
Proof.
  intros P k v d Hd Hkv. induction Hd as [ | [k0 v0] d H0 Hd IH]; cbn.
  - repeat constructor. exact Hkv.
  - destruct (k0 =? k)%string; constructor; assumption.
Qed.

Lemma set_fresh :
  forall k (v : V) d, ~ In k (PyDict.keys d) -> PyDict.set k v d = d ++ [(k, v)].
Proof.
  intros k v d. induction d as [ | [k0 v0] d IH]; cbn; intros H.
  - reflexivity.
  - destruct (k0 =? k)%string eqn:E.
    + apply String.eqb_eq in E. subst k0. exfalso. apply H. left. reflexivity.
    + rewrite IH; [reflexivity | ]. intros Hin. apply H. right. exact Hin.
Qed.

Lemma build_cons :
  forall (e : string * V) (es : list (string * V)) acc,
    build (e :: es) acc = build es (PyDict.set (fst e) (snd e) acc).
Proof.
  reflexivity.
Qed.

Lemma build_invariant :
  forall (P : string * V -> Prop) (es : list (string * V)) acc,
    Forall P es -> Forall P acc -> NoDup (PyDict.keys acc) ->
    Forall P (build es acc) /\ NoDup (PyDict.keys (build es acc)).
Proof.
  intros P es. induction es as [ | [k v] es IH]; intros acc Hes Hacc Hnd.
  - split; assumption.
  - rewrite build_cons. inversion Hes; subst. apply IH.
    + assumption.
    + apply set_Forall; assumption.
    + apply set_keys_nodup. exact Hnd.
Qed.

Lemma build_not_nil :
  forall (es : list (string * V)) acc, (es <> [] \/ acc <> []) -> build es acc <> [].
Proof.
  intros es. induction es as [ | [k v] es IH]; intros acc H.
  - destruct H as [H | H]; [contradiction | exact H].
  - rewrite build_cons. apply IH. right. apply set_not_nil.
Qed.

(** Entries with distinct keys build themselves. *)
Lemma build_distinct :
  forall (es : list (string * V)) acc, NoDup (PyDict.keys (acc ++ es)) -> build es acc = acc ++ es.
Proof.
  intros es. induction es as [ | [k v] es IH]; intros acc H.
  - symmetry. apply app_nil_r.
  - rewrite build_cons. cbn [fst snd]. rewrite set_fresh.
    + rewrite IH; rewrite <- app_assoc; [reflexivity | exact H].
    + unfold PyDict.keys in *. rewrite map_app in H. cbn in H.
      apply NoDup_remove_2 in H. intros Hin. apply H. apply in_or_app. left. exact Hin.
Qed.

End DictFacts.

(** ** PROJ.4 strings: the round trip *)

Section RoundTrip.

Variable float_of_string : string -> option Q.
Variable float_repr : Q -> string.

Lemma convert_proj_floats_build :
  forall pairs, convert_proj_floats float_of_string pairs = build (map (entry_of float_of_string) pairs) [].
Proof.
  intros pairs. unfold convert_proj_floats, build. generalize (@nil (string * proj_value)).
  induction pairs as [ | [k [v|]] pairs IH]; intros acc; cbn.
  - reflexivity.
  - destruct (float_of_string v); apply IH.
  - apply IH.
Qed.

Lemma entry_of_token_ok :
  forall w,
    has_char " " w = false -> has_char "+" w = false ->
    entry_ok float_of_string (entry_of float_of_string (PyStr.split_once "=" w)).
Proof.
  intros w Hsp Hpl.
  destruct (split_once_words "=" " " w Hsp) as (Heq & Hk1 & Hv1).
  destruct (split_once_words "=" "+" w Hpl) as (_ & Hk2 & Hv2).
  destruct (PyStr.split_once "=" w) as [k [v|]]; cbn in *; unfold entry_ok; cbn.
  - repeat split; try assumption.
    destruct (float_of_string v) eqn:E; [exact I | ].
    repeat split; [apply Hv1; reflexivity | apply Hv2; reflexivity | exact E].
  - repeat split; assumption.
Qed.

Lemma str_to_dict_invariant :
  forall s,
    let d := proj4_str_to_dict float_of_string s in
    Forall (entry_ok float_of_string) d /\ NoDup (PyDict.keys d) /\ d <> [].
Proof.
  intros s d. subst d. unfold proj4_str_to_dict.
  rewrite convert_proj_floats_build, replace_single.
  pose proof (split_words " " "+" (remove_char "+" s) (remove_char_has_char "+" s)) as Hw.
  pose proof (split_not_nil " " (remove_char "+" s)) as Hne.
  set (tokens := PyStr.split " " (remove_char "+" s)) in *.
  assert (Hes : Forall (entry_ok float_of_string)
                  (map (entry_of float_of_string) (map (PyStr.split_once "=") tokens))).
  { rewrite map_map. apply Forall_map.
    eapply Forall_impl; [ | exact Hw].
    intros w [H1 H2]. apply entry_of_token_ok; assumption. }
  destruct (build_invariant (entry_ok float_of_string) _ [] Hes (Forall_nil _) (NoDup_nil _))
    as [Hall Hnd].
  repeat split; try assumption.
  apply build_not_nil. left. destruct tokens; [contradiction | discriminate].
Qed.

Lemma flag_param_key :
  forall k, existsb (String.eqb (String "+" k)) flag_params = is_flag_key k.
Proof.
  reflexivity.
Qed.

Lemma startswith_absent :
  forall c k, has_char c k = false -> PyStr.startswith (String c EmptyString) k = false.
Proof.
  intros c [ | a k]; cbn [has_char]; intros H.
  - reflexivity.
  - unfold PyStr.startswith. rewrite prefix_single.
    apply orb_false_iff in H. apply H.
Qed.

(** The parameter written for an entry holds no space, and reading it
    gives the entry back. *)
Lemma param_reread :
  forall k v,
    entry_ok float_of_string (k, v) ->
    (v = PTrue <-> is_flag_key k = true) ->
    (forall x, v = PFloat x ->
       float_of_string (PyStr.replace "+" EmptyString (float_repr x)) = Some x
       /\ PyStr.contains " " (float_repr x) = false) ->
    has_char " " (remove_char "+" (proj4_param float_repr (k, v))) = false
    /\ entry_of float_of_string
         (PyStr.split_once "=" (remove_char "+" (proj4_param float_repr (k, v))))
       = (k, v).
Proof.
  intros k v (Hsp & Hpl & Heq & Hval) Hflag Hfloat. cbn [fst snd] in *.
  unfold proj4_param. rewrite (startswith_absent _ _ Hpl).
  change ("+" ++ k)%string with (String "+" k). rewrite flag_param_key.
  destruct (is_flag_key k) eqn:Hk.
  - assert (v = PTrue) by (apply Hflag; reflexivity). subst v.
    cbn [remove_char Ascii.eqb]. cbn. rewrite (remove_char_absent _ _ Hpl).
    split; [exact Hsp | ].
    rewrite (split_once_absent _ _ Heq). reflexivity.
  - change (String "+" k ++ "=" ++ format_value float_repr v)%string
      with (String "+" (k ++ String "=" (format_value float_repr v))).
    assert (Hrm : remove_char "+" (String "+" (k ++ String "=" (format_value float_repr v)))
                  = (k ++ String "=" (remove_char "+" (format_value float_repr v)))%string).
    { cbn [remove_char]. change ("+" =? "+")%char with true. cbn iota.
      rewrite remove_char_app, (remove_char_absent _ _ Hpl). reflexivity. }
    rewrite Hrm. rewrite (split_once_app_sep _ _ _ Heq).
    rewrite has_char_app, Hsp. cbn [has_char orb]. change ("=" =? " ")%char with false.
    cbn [orb]. unfold entry_of. cbn [fst snd].
    destruct v as [ | x | t].
    + destruct Hflag as [Hf _]. discriminate (Hf eq_refl).
    + destruct (Hfloat x eq_refl) as [Hread Hnosp].
      rewrite replace_single in Hread. rewrite contains_single in Hnosp.
      cbn [format_value]. rewrite Hread. split; [ | reflexivity].
      apply remove_char_keeps_absent. exact Hnosp.
    + destruct Hval as (Ht1 & Ht2 & Ht3). cbn [format_value].
      rewrite (remove_char_absent _ _ Ht2), Ht3. split; [exact Ht1 | reflexivity].
Qed.

(** C6, amended.  Let [d] be the dict of a PROJ.4 string [s].  If the
    keys of [d] with the value [True] are exactly those among [no_defs],
    [no_off] and [no_rot], and the floats of [d] are read back from their
    text, then the string written for [d] is read as [d] again: the same
    keys with the same values, in the same order. *)
Theorem proj4_round_trip :
  forall s : string,
    let d := proj4_str_to_dict float_of_string s in
    flags_as_written d ->
    floats_reread float_of_string float_repr d ->
    proj4_str_to_dict float_of_string (proj4_dict_to_str float_repr d false) = d.
Proof.
  intros s d Hflags Hfloats.
  destruct (str_to_dict_invariant s) as (Hok & Hnd & Hne). fold d in Hok, Hnd, Hne.
  assert (Hre : forall e, In e d ->
            has_char " " (remove_char "+" (proj4_param float_repr e)) = false
            /\ entry_of float_of_string
                 (PyStr.split_once "=" (remove_char "+" (proj4_param float_repr e))) = e).
  { intros [k v] Hin. apply param_reread.
    - rewrite Forall_forall in Hok. apply Hok. exact Hin.
    - apply Hflags. exact Hin.
    - intros x ->. apply (Hfloats k). exact Hin. }
  clearbody d.
  unfold proj4_str_to_dict at 1, proj4_dict_to_str, PyStr.join.
  rewrite replace_single, remove_char_concat by reflexivity.
  rewrite split_concat.
  - rewrite convert_proj_floats_build, !map_map.
    rewrite (map_ext_in _ (fun e => e)), map_id.
    + apply (build_distinct d []). exact Hnd.
    + intros e Hin. apply Hre. exact Hin.
  - destruct d; [contradiction | discriminate].
  - rewrite map_map. apply Forall_forall. intros w Hw.
    apply in_map_iff in Hw. destruct Hw as (e & <- & Hin). apply Hre. exact Hin.
Qed.

End RoundTrip.

(** C6 as stated fails on [+proj=utm +zone=33 +south].  The flag [south]
    is read as [True] and written back as [+south=True], which is read as
    the text [True]: the pair of [south] is not the one of the string. *)
Lemma proj4_round_trip_loses_flag :
  proj4_str_to_dict SampleFloat.float_of_string "+proj=utm +zone=33 +south"
    = [("proj", PStr "utm"); ("zone", PFloat (inject_Z 33)); ("south", PTrue)]%string
  /\ proj4_dict_to_str SampleFloat.float_repr
       (proj4_str_to_dict SampleFloat.float_of_string "+proj=utm +zone=33 +south") false
     = "+proj=utm +zone=33.0 +south=True"%string
  /\ proj4_str_to_dict SampleFloat.float_of_string "+proj=utm +zone=33.0 +south=True"
     = [("proj", PStr "utm"); ("zone", PFloat (inject_Z 33)); ("south", PStr "True")]%string
  /\ PyDict.get "south"
       (proj4_str_to_dict SampleFloat.float_of_string "+proj=utm +zone=33 +south")
     = Some PTrue
  /\ PyDict.get "south"
       (proj4_str_to_dict SampleFloat.float_of_string
          (proj4_dict_to_str SampleFloat.float_repr
             (proj4_str_to_dict SampleFloat.float_of_string "+proj=utm +zone=33 +south")
             false))
     = Some (PStr "True").
Proof.
  repeat split.
Qed.

(** The amended C6 on [+proj=stere +lat_0=90 +no_defs]. *)
Lemma proj4_round_trip_witness :
  proj4_str_to_dict SampleFloat.float_of_string
    (proj4_dict_to_str SampleFloat.float_repr
       (proj4_str_to_dict SampleFloat.float_of_string "+proj=stere +lat_0=90 +no_defs")
       false)
  = proj4_str_to_dict SampleFloat.float_of_string "+proj=stere +lat_0=90 +no_defs".
Proof.
  apply (proj4_round_trip SampleFloat.float_of_string SampleFloat.float_repr
           "+proj=stere +lat_0=90 +no_defs").
  - intros k v [H | [H | [H | []]]]; injection H as <- <-;
      split; (reflexivity || discriminate).
  - intros k x [H | [H | [H | []]]]; try discriminate.
    injection H as <- <-. split; reflexivity.
Defined.

(** * Further properties *)

From Stdlib Require Import Permutation.

(** ** Lookups in dicts *)

Section DictLookup.
Context {V : Type}.

Lemma get_set_same :
  forall k (v : V) d, PyDict.get k (PyDict.set k v d) = Some v.
Proof.
  intros k v d. induction d as [ | [k0 v0] d IH]; cbn.
  - rewrite String.eqb_refl. reflexivity.
  - destruct (k0 =? k)%string eqn:E; cbn.
    + rewrite String.eqb_refl. reflexivity.
    + rewrite E. exact IH.
Qed.

Lemma get_set_other :
  forall k k' (v : V) d, k <> k' -> PyDict.get k' (PyDict.set k v d) = PyDict.get k' d.
Proof.
  intros k k' v d Hne. induction d as [ | [k0 v0] d IH]; cbn.
  - apply String.eqb_neq in Hne. rewrite Hne. reflexivity.
  - destruct (k0 =? k)%string eqn:E; cbn.
    + apply String.eqb_eq in E. subst k0.
      apply String.eqb_neq in Hne. rewrite Hne. reflexivity.
    + destruct (k0 =? k')%string; [reflexivity | exact IH].
Qed.

Lemma get_none_keys :
  forall k (d : PyDict.dict V), PyDict.get k d = None <-> ~ In k (PyDict.keys d).
Proof.
  intros k d. induction d as [ | [k0 v0] d IH]; cbn.
  - split; [intros _ [] | reflexivity].
  - destruct (k0 =? k)%string eqn:E.
    + apply String.eqb_eq in E. subst k0. split; [discriminate | ].
      intros H. exfalso. apply H. left. reflexivity.
    + apply String.eqb_neq in E. rewrite IH. split.
      * intros H [H1 | H1]; [congruence | contradiction].
      * intros H H1. apply H. right. exact H1.
Qed.

Lemma mem_get :
  forall k (d : PyDict.dict V), PyDict.mem k d = true <-> exists v, PyDict.get k d = Some v.
Proof.
  intros k d. unfold PyDict.mem. destruct (PyDict.get k d) as [v|].
  - split; [intros _; exists v; reflexivity | reflexivity].
  - split; [discriminate | intros (v & H); discriminate].
Qed.

(** With distinct keys, the lookups are the entries. *)
Lemma get_in :
  forall k (v : V) d, NoDup (PyDict.keys d) -> (PyDict.get k d = Some v <-> In (k, v) d).
Proof.
  intros k v d. induction d as [ | [k0 v0] d IH]; cbn; intros Hnd.
  - split; [discriminate | intros []].
  - inversion Hnd as [ | ? ? Hnot Hd]; subst.
    destruct (k0 =? k)%string eqn:E.
    + apply String.eqb_eq in E. subst k0. split.
      * intros H. injection H as <-. left. reflexivity.
      * intros [H | H]; [congruence | ].
        exfalso. apply Hnot. apply (in_map fst) in H. exact H.
    + apply String.eqb_neq in E. rewrite (IH Hd). split.
      * intros H. right. exact H.
      * intros [H | H]; [congruence | exact H].
Qed.

Lemma get_permutation :
  forall (d d' : PyDict.dict V) k,
    Permutation d d' -> NoDup (PyDict.keys d) -> PyDict.get k d' = PyDict.get k d.
Proof.
  intros d d' k Hp Hnd.
  assert (Hnd' : NoDup (PyDict.keys d')).
  { unfold PyDict.keys. eapply Permutation_NoDup; [ | exact Hnd].
    apply Permutation_map. exact Hp. }
  destruct (PyDict.get k d) as [v|] eqn:E.
  - apply get_in; [exact Hnd' | ]. apply get_in in E; [ | exact Hnd].
    eapply Permutation_in; eassumption.
  - apply get_none_keys. apply get_none_keys in E. intros H. apply E.
    unfold PyDict.keys in *. eapply Permutation_in; [ | exact H].
    apply Permutation_map. apply Permutation_sym. exact Hp.
Qed.

(** After the assignments of [es], a key that [es] assigns has the value
    of its last assignment. *)
Lemma get_build_last :
  forall (es1 es2 : list (string * V)) k v acc,
    ~ In k (PyDict.keys es2) ->
    PyDict.get k (build (es1 ++ (k, v) :: es2) acc) = Some v.
Proof.
  intros es1 es2 k v acc Hnot. unfold build. rewrite fold_left_app. cbn [fold_left fst snd].
  generalize (fold_left (fun acc e => PyDict.set (fst e) (snd e) acc) es1 acc). intros acc'.
  assert (H : forall (es : list (string * V)) (a : PyDict.dict V), ~ In k (PyDict.keys es) ->
            PyDict.get k (fold_left (fun acc e => PyDict.set (fst e) (snd e) acc) es a)
            = PyDict.get k a).
  { induction es as [ | [k1 v1] es IH]; intros a Hn; cbn.
    - reflexivity.
    - rewrite IH.
      + apply get_set_other. intros ->. apply Hn. left. reflexivity.
      + intros Hin. apply Hn. right. exact Hin. }
  rewrite H by exact Hnot. apply get_set_same.
Qed.

End DictLookup.

(** ** PROJ.4 strings *)

Section ProjStringFacts.

Variable float_of_string : string -> option Q.
Variable float_repr : Q -> string.

(** X1.  The dict of a PROJ.4 string is never empty, its keys are distinct
    and hold no space, plus or equals sign, and a value that is text holds
    no space and no plus and is no float. *)
Theorem proj4_str_to_dict_well_formed :
  forall s : string,
    proj4_str_to_dict float_of_string s <> []
    /\ NoDup (PyDict.keys (proj4_str_to_dict float_of_string s))
    /\ (forall k v, In (k, v) (proj4_str_to_dict float_of_string s) ->
          has_char " " k = false /\ has_char "+" k = false /\ has_char "=" k = false
          /\ (forall t, v = PStr t ->
                has_char " " t = false /\ has_char "+" t = false
                /\ float_of_string t = None)).
Proof.
  intros s. destruct (str_to_dict_invariant float_of_string s) as (Hok & Hnd & Hne).
  repeat split; try assumption;
    rewrite Forall_forall in Hok; specialize (Hok (k, v) H);
    destruct Hok as (H1 & H2 & H3 & H4); cbn [fst snd] in *; try assumption;
    subst v; apply H4.
Qed.

(** X2.  A key that occurs in several parameters has the value of the last
    one: if the parameters of [s] are [before], then [w] with the key [k],
    then [after] without the key [k], the value of [k] is the one of [w]. *)
Theorem proj4_str_to_dict_last_wins :
  forall (s w : string) (before after : list string),
    PyStr.split " " (PyStr.replace "+" EmptyString s) = before ++ w :: after ->
    (forall w', In w' after -> fst (PyStr.split_once "=" w') <> fst (PyStr.split_once "=" w)) ->
    PyDict.get (fst (PyStr.split_once "=" w)) (proj4_str_to_dict float_of_string s)
    = Some (snd (entry_of float_of_string (PyStr.split_once "=" w))).
Proof.
  intros s w before after Hsplit Hafter.
  unfold proj4_str_to_dict. rewrite Hsplit, convert_proj_floats_build.
  rewrite !map_app. cbn [map].
  change (entry_of float_of_string (PyStr.split_once "=" w))
    with (fst (PyStr.split_once "=" w),
          snd (entry_of float_of_string (PyStr.split_once "=" w))) at 1.
  apply get_build_last.
  unfold PyDict.keys. rewrite !map_map. intros Hin.
  apply in_map_iff in Hin. destruct Hin as (w' & Hk & Hw').
  apply (Hafter w' Hw'). exact Hk.
Qed.

End ProjStringFacts.

(** X2 on [+a=1 +b=x +a=2]: the value of [a] is 2. *)
Lemma proj4_str_to_dict_last_wins_witness :
  PyDict.get "a" (proj4_str_to_dict SampleFloat.float_of_string "+a=1 +b=x +a=2")
  = Some (PFloat (inject_Z 2)).
Proof.
  apply (proj4_str_to_dict_last_wins SampleFloat.float_of_string "+a=1 +b=x +a=2" "a=2"
           ["a=1"; "b=x"]%string []).
  - reflexivity.
  - intros w' [].
Defined.

Section ProjSortedRoundTrip.

Variable float_of_string : string -> option Q.
Variable float_repr : Q -> string.

Lemma insert_item_permutation :
  forall x l, Permutation (insert_item x l) (x :: l).
Proof.
  intros x l. induction l as [ | y l IH]; cbn.
  - apply Permutation_refl.
  - destruct (String.leb (fst x) (fst y)).
    + apply Permutation_refl.
    + eapply Permutation_trans; [apply perm_skip; exact IH | apply perm_swap].
Qed.

Lemma sorted_permutation :
  forall items, Permutation (sorted items) items.
Proof.
  intros items. induction items as [ | x items IH]; cbn.
  - apply Permutation_refl.
  - eapply Permutation_trans; [apply insert_item_permutation | ].
    apply perm_skip. exact IH.
Qed.

(** A dict with the invariant of [proj4_str_to_dict] is read back from the
    string written for its items in their order. *)
Lemma written_items_reread :
  forall items : list (string * proj_value),
    items <> [] ->
    NoDup (PyDict.keys items) ->
    Forall (entry_ok float_of_string) items ->
    flags_as_written items ->
    floats_reread float_of_string float_repr items ->
    proj4_str_to_dict float_of_string (PyStr.join " " (map (proj4_param float_repr) items))
    = items.
Proof.
  intros d Hne Hnd Hok Hflags Hfloats.
  assert (Hre : forall e, In e d ->
            has_char " " (remove_char "+" (proj4_param float_repr e)) = false
            /\ entry_of float_of_string
                 (PyStr.split_once "=" (remove_char "+" (proj4_param float_repr e))) = e).
  { intros [k v] Hin. apply param_reread.
    - rewrite Forall_forall in Hok. apply Hok. exact Hin.
    - apply Hflags. exact Hin.
    - intros x ->. apply (Hfloats k). exact Hin. }
  unfold proj4_str_to_dict, PyStr.join.
  rewrite replace_single, remove_char_concat by reflexivity.
  rewrite split_concat.
  - rewrite convert_proj_floats_build, !map_map.
    rewrite (map_ext_in _ (fun e => e)), map_id.
    + apply (build_distinct d []). exact Hnd.
    + intros e Hin. apply Hre. exact Hin.
  - destruct d; [contradiction | discriminate].
  - rewrite map_map. apply Forall_forall. intros w Hw.
    apply in_map_iff in Hw. destruct Hw as (e & <- & Hin). apply Hre. exact Hin.
Qed.

(** X3.  The round trip of C6 with either value of [sort]: under the same
    two conditions on the dict [d] of a string, the string written for [d],
    sorted or not, is read as a dict with the same value for every key and
    with the same keys. *)
Theorem proj4_round_trip_sorted_or_not :
  forall (s : string) (sort : bool),
    let d := proj4_str_to_dict float_of_string s in
    flags_as_written d ->
    floats_reread float_of_string float_repr d ->
    forall k,
      PyDict.get k (proj4_str_to_dict float_of_string (proj4_dict_to_str float_repr d sort))
      = PyDict.get k d.
Proof.
  intros s sort d Hflags Hfloats k.
  destruct (str_to_dict_invariant float_of_string s) as (Hok & Hnd & Hne).
  fold d in Hok, Hnd, Hne. clearbody d.
  unfold proj4_dict_to_str.
  set (items := if sort then sorted d else d).
  assert (Hp : Permutation items d).
  { subst items. destruct sort; [apply sorted_permutation | apply Permutation_refl]. }
  rewrite written_items_reread.
  - apply get_permutation; [apply Permutation_sym; exact Hp | exact Hnd].
  - intros ->. apply Permutation_nil in Hp. contradiction.
  - unfold PyDict.keys. eapply Permutation_NoDup; [ | exact Hnd].
    apply Permutation_map. apply Permutation_sym. exact Hp.
  - eapply Permutation_Forall; [apply Permutation_sym; exact Hp | exact Hok].
  - intros k0 v Hin. apply Hflags. eapply Permutation_in; eassumption.
  - intros k0 x Hin. apply (Hfloats k0). eapply Permutation_in; eassumption.
Qed.

(** X4.  A key-only parameter whose key is not [no_defs], [no_off] or
    [no_rot] does not survive the round trip: with [float('True')] the
    error that it is, the key comes back with the text [True]. *)
Theorem proj4_round_trip_flag_becomes_text :
  forall k : string,
    has_char " " k = false -> has_char "+" k = false -> has_char "=" k = false ->
    is_flag_key k = false ->
    float_of_string "True" = None ->
    proj4_str_to_dict float_of_string (String "+" k) = [(k, PTrue)]
    /\ proj4_dict_to_str float_repr [(k, PTrue)] false = (String "+" k ++ "=True")%string
    /\ proj4_str_to_dict float_of_string (String "+" k ++ "=True") = [(k, PStr "True")].
Proof.
  intros k Hsp Hpl Heq Hflag Htrue.
  assert (Hrm : forall t, remove_char "+" (String "+" t) = remove_char "+" t) by reflexivity.
  split; [ | split].
  - unfold proj4_str_to_dict. rewrite replace_single, Hrm, (remove_char_absent _ _ Hpl).
    rewrite (split_word _ _ Hsp). cbn [map].
    rewrite (split_once_absent _ _ Heq). reflexivity.
  - unfold proj4_dict_to_str, proj4_param. cbn [map].
    rewrite (startswith_absent _ _ Hpl).
    change ("+" ++ k)%string with (String "+" k). rewrite flag_param_key, Hflag.
    reflexivity.
  - change (String "+" k ++ "=True")%string with (String "+" (k ++ "=True")).
    unfold proj4_str_to_dict. rewrite replace_single, Hrm.
    rewrite remove_char_app, (remove_char_absent _ _ Hpl).
    change (remove_char "+" "=True") with "=True"%string.
    rewrite split_word.
    + cbn [map]. change (k ++ "=True")%string with (k ++ String "=" "True")%string.
      rewrite (split_once_app_sep _ _ _ Heq). cbn. rewrite Htrue. reflexivity.
    + rewrite has_char_app, Hsp. reflexivity.
Qed.

End ProjSortedRoundTrip.

(** X3 on [+proj=stere +lat_0=90 +no_defs], written in sorted order. *)
Lemma proj4_round_trip_sorted_or_not_witness :
  PyDict.get "lat_0"
    (proj4_str_to_dict SampleFloat.float_of_string
       (proj4_dict_to_str SampleFloat.float_repr
          (proj4_str_to_dict SampleFloat.float_of_string "+proj=stere +lat_0=90 +no_defs")
          true))
  = PyDict.get "lat_0"
      (proj4_str_to_dict SampleFloat.float_of_string "+proj=stere +lat_0=90 +no_defs").
Proof.
  apply (proj4_round_trip_sorted_or_not SampleFloat.float_of_string SampleFloat.float_repr
           "+proj=stere +lat_0=90 +no_defs" true).
  - intros k v [H | [H | [H | []]]]; injection H as <- <-;
      split; (reflexivity || discriminate).
  - intros k x [H | [H | [H | []]]]; try discriminate.
    injection H as <- <-. split; reflexivity.
Defined.

(** X4 on the flag [south]. *)
Lemma proj4_round_trip_flag_becomes_text_witness :
  proj4_str_to_dict SampleFloat.float_of_string "+south" = [("south", PTrue)]%string
  /\ proj4_dict_to_str SampleFloat.float_repr [("south", PTrue)]%string false
     = "+south=True"%string
  /\ proj4_str_to_dict SampleFloat.float_of_string "+south=True"
     = [("south", PStr "True")]%string.
Proof.
  apply (proj4_round_trip_flag_becomes_text SampleFloat.float_of_string
           SampleFloat.float_repr "south"); reflexivity.
Defined.

(** ** Radii of the ellipsoid *)

Section RadiusFacts.

Variable float_of_string : string -> option Q.
Variable Geod : proj_dict -> result (Q * Q).

Lemma float_item_set_same :
  forall k x d, float_item float_of_string k (PyDict.set k (PFloat x) d) = Ok x.
Proof.
  intros k x d. unfold float_item. rewrite get_set_same. reflexivity.
Qed.

Lemma float_item_set_other :
  forall k k' v d,
    k <> k' ->
    float_item float_of_string k' (PyDict.set k v d) = float_item float_of_string k' d.
Proof.
  intros k k' v d Hne. unfold float_item. rewrite (get_set_other _ _ _ _ Hne). reflexivity.
Qed.

Lemma mem_set_same :
  forall k (v : proj_value) d, PyDict.mem k (PyDict.set k v d) = true.
Proof.
  intros k v d. unfold PyDict.mem. rewrite get_set_same. reflexivity.
Qed.

Lemma mem_set_other :
  forall k k' (v : proj_value) d,
    k <> k' -> PyDict.mem k' (PyDict.set k v d) = PyDict.mem k' d.
Proof.
  intros k k' v d Hne. unfold PyDict.mem. rewrite (get_set_other _ _ _ _ Hne). reflexivity.
Qed.

Lemma float_item_mem :
  forall k d x, float_item float_of_string k d = Ok x -> PyDict.mem k d = true.
Proof.
  intros k d x. unfold float_item, PyDict.mem.
  destruct (PyDict.get k d); [reflexivity | discriminate].
Qed.

(** X5.  With the key [ellps] in the dict, the radii are those of the
    [Geod] object made from the dict: [a], [b], [f] and [rf] of the dict
    itself are not read. *)
Theorem radius_parameters_ellps_first :
  forall (d : proj_dict) (a b : Q),
    PyDict.mem "ellps" d = true ->
    Geod d = Ok (a, b) ->
    proj4_radius_parameters float_of_string Geod (ProjDict d) = Ok (a, b).
Proof.
  intros d a b Hell Hgeod. unfold proj4_radius_parameters. cbn [bind].
  rewrite Hell, Hgeod. cbn [bind fst snd].
  rewrite float_item_set_other by discriminate.
  rewrite !float_item_set_same. reflexivity.
Qed.

(** X6.  Without [ellps], radii [a] and [b] that are both in the dict are
    returned as floats, whatever [f] and [rf] say. *)
Theorem radius_parameters_given :
  forall (d : proj_dict) (a b : Q),
    PyDict.mem "ellps" d = false ->
    float_item float_of_string "a" d = Ok a ->
    float_item float_of_string "b" d = Ok b ->
    proj4_radius_parameters float_of_string Geod (ProjDict d) = Ok (a, b).
Proof.
  intros d a b Hell Ha Hb. unfold proj4_radius_parameters. cbn [bind].
  rewrite Hell, (float_item_mem _ _ _ Ha), (float_item_mem _ _ _ Hb). cbn [negb orb bind].
  rewrite Ha, Hb. reflexivity.
Qed.

(** X7.  Without [ellps] and [b], the radius [a] and a flattening give
    [b = a * (1 - f)].  The flattening is [f] when the dict has it, and
    [1 / rf] otherwise; an [rf] beside an [f] is not read. *)
Theorem radius_parameters_flattening :
  forall (d : proj_dict) (a : Q),
    PyDict.mem "ellps" d = false ->
    PyDict.mem "b" d = false ->
    float_item float_of_string "a" d = Ok a ->
    (forall f, float_item float_of_string "f" d = Ok f ->
       proj4_radius_parameters float_of_string Geod (ProjDict d) = Ok (a, a * (1 - f)))
    /\ (forall rf, PyDict.mem "f" d = false ->
          float_item float_of_string "rf" d = Ok rf -> ~ rf == 0 ->
          proj4_radius_parameters float_of_string Geod (ProjDict d) = Ok (a, a * (1 - 1 / rf)))
    /\ (forall rf, PyDict.mem "f" d = false ->
          float_item float_of_string "rf" d = Ok rf -> rf == 0 ->
          proj4_radius_parameters float_of_string Geod (ProjDict d) = Raise ZeroDivisionError).
Proof.
  intros d a Hell Hb Ha.
  pose proof (float_item_mem _ _ _ Ha) as Hma.
  split; [ | split].
  - intros f Hf. pose proof (float_item_mem _ _ _ Hf) as Hmf.
    unfold proj4_radius_parameters. cbn [bind].
    rewrite Hell, Hma, Hb, Hmf. cbn [negb]. rewrite andb_false_r.
    cbn [orb andb bind]. rewrite Hma, Hmf. cbn [andb]. rewrite Ha, Hf. cbn [bind].
    rewrite float_item_set_other by discriminate.
    rewrite Ha, float_item_set_same. reflexivity.
  - intros rf Hmf Hrf Hnz. pose proof (float_item_mem _ _ _ Hrf) as Hmrf.
    unfold proj4_radius_parameters. cbn [bind].
    rewrite Hell, Hma, Hb, Hmf, Hmrf. cbn [negb orb andb bind].
    rewrite Hrf. cbn [bind]. rewrite (pydiv_nonzero _ _ Hnz). cbn [bind].
    rewrite mem_set_other by discriminate. rewrite Hma, mem_set_same. cbn [andb].
    rewrite float_item_set_other by discriminate.
    rewrite Ha, float_item_set_same. cbn [bind].
    rewrite float_item_set_other by discriminate.
    rewrite float_item_set_other by discriminate.
    rewrite Ha, float_item_set_same. reflexivity.
  - intros rf Hmf Hrf Hz. pose proof (float_item_mem _ _ _ Hrf) as Hmrf.
    unfold proj4_radius_parameters. cbn [bind].
    rewrite Hell, Hma, Hb, Hmf, Hmrf. cbn [negb orb andb bind].
    rewrite Hrf. cbn [bind]. unfold pydiv.
    apply Qeq_bool_iff in Hz. rewrite Hz. reflexivity.
Qed.

(** X8.  Without [ellps], [f] and [rf], a dict that lacks [a] or [b] gets
    the radii of the ellipsoid WGS84: a radius [a] or [b] that stands
    alone in the dict is not returned. *)
Theorem radius_parameters_default_wgs84 :
  forall (d : proj_dict) (a b : Q),
    PyDict.mem "ellps" d = false ->
    PyDict.mem "f" d = false ->
    PyDict.mem "rf" d = false ->
    PyDict.mem "a" d = false \/ PyDict.mem "b" d = false ->
    Geod [("ellps", PStr "WGS84")]%string = Ok (a, b) ->
    proj4_radius_parameters float_of_string Geod (ProjDict d) = Ok (a, b).
Proof.
  intros d a b Hell Hf Hrf Hab Hgeod. unfold proj4_radius_parameters. cbn [bind].
  assert (Hor : negb (PyDict.mem "a" d) || negb (PyDict.mem "b" d) = true).
  { destruct Hab as [-> | ->]; [reflexivity | apply orb_true_r]. }
  rewrite Hell, Hrf, Hor. cbn [andb bind]. rewrite Hf, !andb_false_r.
  rewrite Hgeod. cbn [bind fst snd].
  rewrite float_item_set_other by discriminate.
  rewrite !float_item_set_same. reflexivity.
Qed.

End RadiusFacts.

(** X5 on a dict with [ellps] and an [a] of its own. *)
Lemma radius_parameters_ellps_first_witness :
  proj4_radius_parameters SampleFloat.float_of_string wgs84_geod
    (ProjDict [("ellps", PStr "WGS84"); ("a", PFloat 1)]%string)
  = Ok (6378137, 6356752314245179 # 1000000000).
Proof.
  apply (radius_parameters_ellps_first SampleFloat.float_of_string wgs84_geod
           [("ellps", PStr "WGS84"); ("a", PFloat 1)]%string); reflexivity.
Defined.

(** X6 on a dict with [a], [b] and an [rf] that does not fit them. *)
Lemma radius_parameters_given_witness :
  proj4_radius_parameters SampleFloat.float_of_string wgs84_geod
    (ProjDict [("a", PFloat 6378137); ("b", PFloat 6356752); ("rf", PFloat 2)]%string)
  = Ok (6378137, 6356752).
Proof.
  apply (radius_parameters_given SampleFloat.float_of_string wgs84_geod
           [("a", PFloat 6378137); ("b", PFloat 6356752); ("rf", PFloat 2)]%string);
    reflexivity.
Defined.

(** X7 on [a = 100] with [rf = 4]: [b] is [100 * (1 - 1 / 4)]. *)
Lemma radius_parameters_flattening_witness :
  proj4_radius_parameters SampleFloat.float_of_string wgs84_geod
    (ProjDict [("a", PFloat 100); ("rf", PFloat 4)]%string)
  = Ok (100, 100 * (1 - 1 / 4)).
Proof.
  apply (radius_parameters_flattening SampleFloat.float_of_string wgs84_geod
           [("a", PFloat 100); ("rf", PFloat 4)]%string 100);
    try reflexivity.
  discriminate.
Defined.

(** X8 on a dict with the radius [a] alone. *)
Lemma radius_parameters_default_wgs84_witness :
  proj4_radius_parameters SampleFloat.float_of_string wgs84_geod
    (ProjDict [("proj", PStr "stere"); ("a", PFloat 6370000)]%string)
  = Ok (6378137, 6356752314245179 # 1000000000).
Proof.
  apply (radius_parameters_default_wgs84 SampleFloat.float_of_string wgs84_geod
           [("proj", PStr "stere"); ("a", PFloat 6370000)]%string);
    try reflexivity.
  right. reflexivity.
Defined.

(** ** Index arrays *)

(** X9.  With a size from 0 to 65535, every index from 0 below the size is
    kept, every other index becomes the size, and all indices of the result
    are from 0 to the size: the cast to [uint16] changes no value.  With a
    greater size the array is returned as it is, invalid indices
    included. *)
Theorem downcast_index_array_marks_invalid :
  forall (index_array : list Z) (size : Z),
    ((0 <= size <= 65535)%Z ->
       _downcast_index_array index_array size
         = map (fun i => if (0 <=? i)%Z && (i <? size)%Z then i else size) index_array
       /\ Forall (fun e => (0 <= e <= size)%Z) (_downcast_index_array index_array size))
    /\ ((65535 < size)%Z -> _downcast_index_array index_array size = index_array).
Proof.
  intros index_array size. split.
  - intros Hsize. unfold _downcast_index_array, uint16_max.
    destruct (Z.leb_spec size 65535) as [_ | H]; [ | lia].
    assert (Heq : forall i,
              ((if (i <? 0)%Z || (size <=? i)%Z then size else i) mod 65536)%Z
              = if (0 <=? i)%Z && (i <? size)%Z then i else size).
    { intros i.
      destruct (Z.ltb_spec i 0), (Z.leb_spec size i), (Z.leb_spec 0 i), (Z.ltb_spec i size);
        cbn; try lia; apply Z.mod_small; lia. }
    split.
    + apply map_ext. exact Heq.
    + apply Forall_map, Forall_forall. intros i _. rewrite Heq.
      destruct (Z.leb_spec 0 i), (Z.ltb_spec i size); cbn; lia.
  - intros Hsize. unfold _downcast_index_array, uint16_max.
    destruct (Z.leb_spec size 65535) as [H | _]; [lia | reflexivity].
Qed.

(** X9 on the indices 0, 5, -1 and 12 with the size 10. *)
Lemma downcast_index_array_marks_invalid_witness :
  _downcast_index_array [0; 5; -1; 12]%Z 10 = [0; 5; 10; 10]%Z
  /\ Forall (fun e => (0 <= e <= 10)%Z) (_downcast_index_array [0; 5; -1; 12]%Z 10).
Proof.
  apply (downcast_index_array_marks_invalid [0; 5; -1; 12]%Z 10). lia.
Defined.

(** ** Longitudes and latitudes *)

Lemma Qltb_lt : forall a b, Qltb a b = true <-> a < b.
Proof.
  intros a b. unfold Qltb. rewrite negb_true_iff. split.
  - intros H. apply Qnot_le_lt. intros Hle. apply Qle_bool_iff in Hle. congruence.
  - intros H. destruct (Qle_bool b a) eqn:E; [ | reflexivity].
    apply Qle_bool_iff in E. exfalso. exact (Qlt_not_le _ _ H E).
Qed.

Lemma Qltb_ge : forall a b, Qltb a b = false <-> b <= a.
Proof.
  intros a b. unfold Qltb. rewrite negb_false_iff. apply Qle_bool_iff.
Qed.

(** The least element of an array is one of its elements and is at most
    every element; the greatest likewise. *)
Lemma array_min_spec :
  forall a m, array_min a = Some m -> In m a /\ forall x, In x a -> m <= x.
Proof.
  intros [ | x0 a] m; cbn; [discriminate | ]. intros H. injection H as <-.
  revert x0. induction a as [ | y a IH]; intros x0; cbn.
  - split; [left; reflexivity | ]. intros x [<- | []]. apply Qle_refl.
  - destruct (Qltb y x0) eqn:E.
    + destruct (IH y) as [Hin Hle]. split.
      * destruct Hin as [<- | Hin]; [right; left; reflexivity | right; right; exact Hin].
      * intros x [<- | [<- | Hx]].
        -- apply Qltb_lt in E. apply Qle_trans with y; [ | apply Qlt_le_weak; exact E].
           apply Hle. left. reflexivity.
        -- apply Hle. left. reflexivity.
        -- apply Hle. right. exact Hx.
    + destruct (IH x0) as [Hin Hle]. split.
      * destruct Hin as [<- | Hin]; [left; reflexivity | right; right; exact Hin].
      * intros x [<- | [<- | Hx]].
        -- apply Hle. left. reflexivity.
        -- apply Qltb_ge in E. apply Qle_trans with x0; [ | exact E].
           apply Hle. left. reflexivity.
        -- apply Hle. right. exact Hx.
Qed.

Lemma array_max_spec :
  forall a m, array_max a = Some m -> In m a /\ forall x, In x a -> x <= m.
Proof.
  intros [ | x0 a] m; cbn; [discriminate | ]. intros H. injection H as <-.
  revert x0. induction a as [ | y a IH]; intros x0; cbn.
  - split; [left; reflexivity | ]. intros x [<- | []]. apply Qle_refl.
  - destruct (Qltb x0 y) eqn:E.
    + destruct (IH y) as [Hin Hle]. split.
      * destruct Hin as [<- | Hin]; [right; left; reflexivity | right; right; exact Hin].
      * intros x [<- | [<- | Hx]].
        -- apply Qltb_lt in E. apply Qle_trans with y; [apply Qlt_le_weak; exact E | ].
           apply Hle. left. reflexivity.
        -- apply Hle. left. reflexivity.
        -- apply Hle. right. exact Hx.
    + destruct (IH x0) as [Hin Hle]. split.
      * destruct Hin as [<- | Hin]; [left; reflexivity | right; right; exact Hin].
      * intros x [<- | [<- | Hx]].
        -- apply Hle. left. reflexivity.
        -- apply Qltb_ge in E. apply Qle_trans with x0; [exact E | ].
           apply Hle. left. reflexivity.
        -- apply Hle. right. exact Hx.
Qed.

Lemma array_min_some : forall a, a <> [] -> exists m, array_min a = Some m.
Proof.
  intros [ | x a] H; [contradiction | eexists; reflexivity].
Qed.

Lemma array_max_some : forall a, a <> [] -> exists m, array_max a = Some m.
Proof.
  intros [ | x a] H; [contradiction | eexists; reflexivity].
Qed.

(** X10.  On arrays with elements: a latitude below -90 or above 90 is the
    latitude error, whatever the longitudes; with all latitudes from -90 to
    90 and all longitudes from -180 below 180 both arrays are returned as
    they are, no arithmetic done on them. *)
Theorem check_and_wrap_valid_arrays_unchanged :
  forall lons lats : list Q,
    lats <> [] ->
    ((exists lat, In lat lats /\ (lat < -(90) \/ 90 < lat)) ->
       check_and_wrap lons lats = inl LatitudesOutside)
    /\ (lons <> [] ->
        (forall lat, In lat lats -> -(90) <= lat /\ lat <= 90) ->
        (forall lon, In lon lons -> -(180) <= lon /\ lon < 180) ->
        check_and_wrap lons lats = inr (lons, lats)).
Proof.
  intros lons lats Hlats.
  destruct (array_min_some lats Hlats) as (lo & Hlo).
  destruct (array_max_some lats Hlats) as (hi & Hhi).
  destruct (array_min_spec _ _ Hlo) as [Hlo_in Hlo_le].
  destruct (array_max_spec _ _ Hhi) as [Hhi_in Hhi_le].
  unfold check_and_wrap. rewrite Hlo, Hhi. split.
  - intros (lat & Hin & [Hlt | Hgt]).
    + assert (H : Qltb lo (-(90)) = true).
      { apply Qltb_lt. apply Qle_lt_trans with lat; [apply Hlo_le; exact Hin | exact Hlt]. }
      rewrite H. reflexivity.
    + assert (H : Qltb 90 hi = true).
      { apply Qltb_lt. apply Qlt_le_trans with lat; [exact Hgt | apply Hhi_le; exact Hin]. }
      rewrite H, orb_true_r. reflexivity.
  - intros Hlons Hlat Hlon.
    destruct (array_min_some lons Hlons) as (wlo & Hwlo).
    destruct (array_max_some lons Hlons) as (whi & Hwhi).
    destruct (array_min_spec _ _ Hwlo) as [Hwlo_in _].
    destruct (array_max_spec _ _ Hwhi) as [Hwhi_in _].
    assert (H1 : Qltb lo (-(90)) = false) by (apply Qltb_ge; apply Hlat; exact Hlo_in).
    assert (H2 : Qltb 90 hi = false) by (apply Qltb_ge; apply Hlat; exact Hhi_in).
    assert (H3 : Qltb wlo (-(180)) = false) by (apply Qltb_ge; apply Hlon; exact Hwlo_in).
    assert (H4 : Qle_bool 180 whi = false).
    { destruct (Qle_bool 180 whi) eqn:E; [ | reflexivity].
      apply Qle_bool_iff in E. exfalso.
      exact (Qlt_not_le _ _ (proj2 (Hlon whi Hwhi_in)) E). }
    rewrite H1, H2, Hwlo, Hwhi, H3, H4. reflexivity.
Qed.

(** X10 on two longitudes and two latitudes in their ranges. *)
Lemma check_and_wrap_valid_arrays_unchanged_witness :
  check_and_wrap [-(180); 179] [-(90); 90] = inr ([-(180); 179], [-(90); 90]).
Proof.
  apply (check_and_wrap_valid_arrays_unchanged [-(180); 179] [-(90); 90]).
  - discriminate.
  - discriminate.
  - intros lat [<- | [<- | []]]; split; discriminate.
  - intros lon [<- | [<- | []]]; split; (discriminate || reflexivity).
Defined.

(** ** The update of nested dicts *)

Lemma recursive_dict_update_nil :
  forall d, recursive_dict_update d (YMap []) = Ok d.
Proof.
  reflexivity.
Qed.

Lemma recursive_dict_update_cons :
  forall d k v rest,
    recursive_dict_update d (YMap ((k, v) :: rest))
    = (d' <- update_item d k v ;; recursive_dict_update d' (YMap rest)).
Proof.
  intros d k v rest. destruct v, d; reflexivity.
Qed.

Lemma update_item_returns :
  forall dm k v d',
    update_item (YMap dm) k v = Ok d' ->
    exists x,
      d' = YMap (PyDict.set k x dm)
      /\ (is_map v = false -> x = v)
      /\ (is_map v = true ->
          recursive_dict_update
            (match PyDict.get k dm with Some y => y | None => YMap [] end) v = Ok x).
Proof.
  intros dm k v d' H.
  assert (Hleaf : is_map v = false -> update_item (YMap dm) k v = Ok (YMap (PyDict.set k v dm)))
    by (destruct v; intros Hv; (reflexivity || discriminate Hv)).
  destruct (is_map v) eqn:Hv.
  - destruct v; try discriminate Hv. unfold update_item in H.
    destruct (recursive_dict_update _ (YMap m)) as [r|] eqn:E; [ | discriminate].
    cbn [bind] in H. injection H as <-. exists r.
    split; [reflexivity | split]; [discriminate | intros _; reflexivity].
  - rewrite (Hleaf eq_refl) in H. injection H as <-. exists v.
    split; [reflexivity | split]; [reflexivity | discriminate].
Qed.

Lemma recursive_dict_update_items :
  forall (um dm : list (string * yaml)) (r : yaml),
    NoDup (PyDict.keys um) ->
    recursive_dict_update (YMap dm) (YMap um) = Ok r ->
    exists rm,
      r = YMap rm
      /\ (forall k, ~ In k (PyDict.keys um) -> PyDict.get k rm = PyDict.get k dm)
      /\ (forall k v, In (k, v) um ->
            (is_map v = false -> PyDict.get k rm = Some v)
            /\ (is_map v = true ->
                exists x,
                  recursive_dict_update
                    (match PyDict.get k dm with Some y => y | None => YMap [] end) v = Ok x
                  /\ PyDict.get k rm = Some x)).
Proof.
  intros um. induction um as [ | [k0 v0] um IH]; intros dm r Hnd H.
  - rewrite recursive_dict_update_nil in H. injection H as <-.
    exists dm. split; [reflexivity | split].
    + intros k _. reflexivity.
    + intros k v [].
  - rewrite recursive_dict_update_cons in H.
    destruct (update_item (YMap dm) k0 v0) as [d1|] eqn:E; [ | discriminate].
    cbn [bind] in H.
    apply update_item_returns in E. destruct E as (x & -> & Hleaf & Hmap).
    cbn [PyDict.keys map fst] in Hnd. inversion Hnd as [ | ? ? Hnot Hnd']; subst.
    destruct (IH _ _ Hnd' H) as (rm & -> & Hother & Hitems).
    assert (Hk0 : PyDict.get k0 rm = Some x).
    { rewrite (Hother k0 Hnot). apply get_set_same. }
    exists rm. split; [reflexivity | ]. split.
    + intros k Hk. rewrite Hother.
      * apply get_set_other. intros ->. apply Hk. left. reflexivity.
      * intros Hin. apply Hk. right. exact Hin.
    + intros k v [Hkv | Hin].
      * injection Hkv as <- <-. split.
        -- intros Hl. rewrite Hk0, (Hleaf Hl). reflexivity.
        -- intros Hm. exists x. split; [apply Hmap; exact Hm | exact Hk0].
      * assert (Hne : k0 <> k).
        { intros <-. apply Hnot. apply (in_map fst) in Hin. exact Hin. }
        destruct (Hitems k v Hin) as [H1 H2]. split; [exact H1 | ].
        intros Hm. destruct (H2 Hm) as (y & Hy & Hget).
        rewrite (get_set_other _ _ _ _ Hne) in Hy. exists y. split; assumption.
Qed.

(** X11.  The update of a dict [d] by a dict [u] (with distinct keys),
    when it returns a value, returns a dict in which a key that [u] lacks
    has the value of [d], a key of [u] with a value that is no dict has the
    value of [u], and a key of [u] with a dict has the update of the value
    of [d], or of an empty dict, by the dict of [u]. *)
Theorem recursive_dict_update_lookup :
  forall (dm um : list (string * yaml)) (r : yaml),
    NoDup (PyDict.keys um) ->
    recursive_dict_update (YMap dm) (YMap um) = Ok r ->
    exists rm,
      r = YMap rm
      /\ forall k,
           match PyDict.get k um with
           | None => PyDict.get k rm = PyDict.get k dm
           | Some (YMap m) =>
               exists x,
                 recursive_dict_update
                   (match PyDict.get k dm with Some y => y | None => YMap [] end) (YMap m)
                 = Ok x
                 /\ PyDict.get k rm = Some x
           | Some v => PyDict.get k rm = Some v
           end.
Proof.
  intros dm um r Hnd H.
  destruct (recursive_dict_update_items um dm r Hnd H) as (rm & -> & Hother & Hitems).
  exists rm. split; [reflexivity | ]. intros k.
  destruct (PyDict.get k um) as [v|] eqn:E.
  - apply get_in in E; [ | exact Hnd]. destruct (Hitems k v E) as [H1 H2].
    destruct v; try (apply H1; reflexivity). apply H2. reflexivity.
  - apply Hother. apply get_none_keys. exact E.
Qed.

(** X11 on the catalogs of two files: the area [euro] keeps its shape and
    has the later description, and the area [afro] is added. *)
Lemma recursive_dict_update_lookup_witness :
  exists rm,
    YMap [("euro", YMap [("description", YStr "Europe 3km");
                         ("shape", YList [YNum 20; YNum 10])]);
          ("afro", YMap [("description", YStr "Africa")])]%string = YMap rm
    /\ forall k,
         match PyDict.get k override_catalog with
         | None => PyDict.get k rm = PyDict.get k base_catalog
         | Some (YMap m) =>
             exists x,
               recursive_dict_update
                 (match PyDict.get k base_catalog with Some y => y | None => YMap [] end)
                 (YMap m)
               = Ok x
               /\ PyDict.get k rm = Some x
         | Some v => PyDict.get k rm = Some v
         end.
Proof.
  apply (recursive_dict_update_lookup base_catalog override_catalog).
  - repeat constructor; cbn; intuition discriminate.
  - reflexivity.
Defined.

Lemma distinct_keys_cons :
  forall kv m,
    distinct_keys (YMap (kv :: m)) ->
    distinct_keys (snd kv) /\ distinct_keys (YMap m).
Proof.
  intros kv m [Hnd [Hkv Hall]]. cbn [map] in Hnd. inversion Hnd; subst.
  split; [exact Hkv | ]. split; assumption.
Qed.

(** The update of the dict [acc] by items with other, distinct keys, whose
    dicts are copied by the update of an empty dict, adds the items. *)
Lemma recursive_dict_update_adds :
  forall (items acc : list (string * yaml)),
    NoDup (PyDict.keys (acc ++ items)) ->
    Forall (fun kv => is_map (snd kv) = true ->
                      recursive_dict_update (YMap []) (snd kv) = Ok (snd kv)) items ->
    recursive_dict_update (YMap acc) (YMap items) = Ok (YMap (acc ++ items)).
Proof.
  intros items. induction items as [ | [k v] items IH]; intros acc Hnd Hall.
  - rewrite recursive_dict_update_nil, app_nil_r. reflexivity.
  - inversion Hall as [ | ? ? Hv Hitems]; subst. cbn [snd] in Hv.
    assert (Hfresh : ~ In k (PyDict.keys acc)).
    { unfold PyDict.keys in *. rewrite map_app in Hnd. cbn in Hnd.
      apply NoDup_remove_2 in Hnd. intros Hin. apply Hnd. apply in_or_app. left. exact Hin. }
    assert (Hstep : update_item (YMap acc) k v = Ok (YMap (acc ++ [(k, v)]))).
    { destruct (is_map v) eqn:Hm.
      - destruct v; try discriminate Hm. unfold update_item.
        apply get_none_keys in Hfresh. rewrite Hfresh, (Hv eq_refl). cbn [bind].
        rewrite set_fresh; [reflexivity | apply get_none_keys; exact Hfresh].
      - destruct v; try discriminate Hm; cbn [update_item];
          rewrite set_fresh by exact Hfresh; reflexivity. }
    rewrite recursive_dict_update_cons, Hstep. cbn [bind].
    rewrite IH.
    + rewrite <- app_assoc. reflexivity.
    + rewrite <- app_assoc. exact Hnd.
    + exact Hitems.
Qed.

Lemma recursive_dict_update_copies :
  forall u,
    is_map u = true -> distinct_keys u -> recursive_dict_update (YMap []) u = Ok u.
Proof.
  intros u. induction u as [y Hleaf | m IH] using yaml_map_induction.
  - intros Hm. congruence.
  - intros _ Hd. apply (recursive_dict_update_adds m []).
    + destruct Hd as [Hnd _]. exact Hnd.
    + induction IH as [ | kv m Hkv _ IHm]; constructor.
      * intros Hm. apply Hkv; [exact Hm | ]. apply (distinct_keys_cons _ _ Hd).
      * apply IHm. apply (distinct_keys_cons _ _ Hd).
Qed.

Section SingleSource.

Variable file_lines : string -> option (list string).
Variable yaml_load : string -> result yaml.

(** X12.  One source, a file or a text, whose YAML is a dict (with
    distinct keys at every depth of nested dicts) is read as that very
    dict: the update of the empty dict copies it. *)
Theorem read_yaml_single_source :
  forall (s : string) (catalog : list (string * yaml)),
    yaml_load (match file_lines s with
               | Some lines => concat EmptyString lines
               | None => s
               end) = Ok (YMap catalog) ->
    distinct_keys (YMap catalog) ->
    _read_yaml_area_file_content file_lines yaml_load (One s) = Ok (YMap catalog)
    /\ _read_yaml_area_file_content file_lines yaml_load (Several [s]) = Ok (YMap catalog).
Proof.
  intros s catalog Hload Hd.
  assert (H : forall src, sources src = [s] ->
            _read_yaml_area_file_content file_lines yaml_load src = Ok (YMap catalog)).
  { intros src Hsrc. unfold _read_yaml_area_file_content. rewrite Hsrc.
    cbn [fold_left bind].
    destruct (file_lines s); rewrite Hload; cbn [bind];
      apply recursive_dict_update_copies; (reflexivity || exact Hd). }
  split; apply H; reflexivity.
Qed.

End SingleSource.

(** X12 on a text that loads as [override_catalog]. *)
Lemma read_yaml_single_source_witness :
  _read_yaml_area_file_content no_files (fun _ => Ok (YMap override_catalog)) (One "areas")
    = Ok (YMap override_catalog)
  /\ _read_yaml_area_file_content no_files (fun _ => Ok (YMap override_catalog))
       (Several ["areas"%string])
     = Ok (YMap override_catalog).
Proof.
  apply (read_yaml_single_source no_files (fun _ => Ok (YMap override_catalog)) "areas"
           override_catalog).
  - reflexivity.
  - cbn. repeat split; repeat constructor; cbn; intuition discriminate.
Defined.

(** ** The hierarchical parser *)

Lemma collect_components :
  forall var variable arg_list l,
    PyDict.get var variable = None ->
    collect var variable arg_list (Ok (YList l))
    = Ok (YList (l ++ flat_map (component variable) arg_list)).
Proof.
  intros var variable arg_list. induction arg_list as [ | arg arg_list IH]; intros l Hbare.
  - cbn. rewrite app_nil_r. reflexivity.
  - rewrite collect_cons. cbn [flat_map]. unfold collect_step, component. cbn [bind].
    destruct (PyDict.get arg variable) as [values|] eqn:Hget.
    + assert (Hne : (arg =? var)%string = false).
      { apply String.eqb_neq. intros ->. congruence. }
      rewrite Hne.
      destruct values; cbn [list_append];
        try (rewrite (IH _ Hbare), <- app_assoc; reflexivity).
      destruct (existsb (String.eqb arg) _); cbn [list_append list_extend];
        rewrite (IH _ Hbare), <- app_assoc; reflexivity.
    + rewrite (IH _ Hbare). reflexivity.
Qed.



Lemma mapM_app :
  forall (A B : Type) (f : A -> result B) (l1 l2 : list A),
    mapM f (l1 ++ l2) = (a <- mapM f l1 ;; b <- mapM f l2 ;; Ok (a ++ b)).
Proof.
  intros A B f l1 l2. induction l1 as [ | x l1 IH]; cbn.
  - destruct (mapM f l2); reflexivity.
  - destruct (f x); cbn; [ | reflexivity].
    rewrite IH. destruct (mapM f l1); cbn; [ | reflexivity].
    destruct (mapM f l2); reflexivity.
Qed.

Lemma contains_prefix :
  forall sub t, PyStr.contains sub (sub ++ t) = true.
Proof.
  intros sub t.
  assert (H : prefix sub (sub ++ t) = true).
  { induction sub as [ | c sub IH]; cbn.
    - apply prefix_empty.
    - destruct (ascii_dec c c); [exact IH | contradiction]. }
  destruct (sub ++ t)%string; cbn [PyStr.contains]; rewrite H; reflexivity.
Qed.

Lemma contains_app_r :
  forall sub s t, PyStr.contains sub t = true -> PyStr.contains sub (s ++ t) = true.
Proof.
  intros sub s t H. induction s as [ | c s IH]; cbn.
  - exact H.
  - rewrite IH. apply orb_true_r.
Qed.

Lemma string_app_assoc :
  forall s t u : string, ((s ++ t) ++ u = s ++ (t ++ u))%string.
Proof.
  intros s t u. induction s as [ | c s IH]; cbn.
  - reflexivity.
  - rewrite IH. reflexivity.
Qed.

Section YamlNotFound.

Variable file_lines : string -> option (list string).
Variable yaml_load : string -> result yaml.
Variable from_params_kwargs : PyDict.dict param_value -> result area_def.
Variable list_repr : list string -> string.

Lemma not_found_message_names_area :
  forall area_name area_file_name,
    PyStr.contains area_name (not_found_message list_repr area_name area_file_name) = true.
Proof.
  intros area_name area_file_name. unfold not_found_message, quoted.
  apply contains_app_r. rewrite string_app_assoc.
  match goal with
  | |- PyStr.contains _ (_ ++ ?rest)%string = true =>
      apply (contains_app_r area_name (String (ascii_of_nat 34) EmptyString)
               (area_name ++ rest))
  end.
  apply contains_prefix.
Qed.

(** X14.  When the catalog is read and a requested name is not among its
    areas, while the requests before it are parsed, the parser raises
    [AreaNotFound]; the message is the one of the legacy parser and holds
    the name. *)
Theorem parse_yaml_area_not_found :
  forall (area_file_name : source) (area_dict : list (string * yaml))
         (before after : list string) (area_name : string),
    _read_yaml_area_file_content file_lines yaml_load area_file_name = Ok (YMap area_dict) ->
    PyDict.get area_name area_dict = None ->
    (before = [] \/
     exists areas,
       _parse_yaml_area_file file_lines yaml_load from_params_kwargs list_repr
         area_file_name before = Ok areas) ->
    _parse_yaml_area_file file_lines yaml_load from_params_kwargs list_repr
      area_file_name (before ++ area_name :: after)
    = Raise (AreaNotFound (not_found_message list_repr area_name area_file_name))
    /\ PyStr.contains area_name (not_found_message list_repr area_name area_file_name) = true.
Proof.
  intros area_file_name area_dict before after area_name Hread Hget Hbefore.
  split; [ | apply not_found_message_names_area].
  unfold _parse_yaml_area_file in *. rewrite Hread in *. cbn [bind] in *.
  assert (Hlist : match before ++ area_name :: after with
                  | [] => PyDict.keys area_dict
                  | _ :: _ => before ++ area_name :: after
                  end = before ++ area_name :: after)
    by (destruct before; reflexivity).
  rewrite Hlist. rewrite mapM_app.
  destruct Hbefore as [-> | (areas & Hareas)].
  - cbn [mapM bind]. rewrite Hget. reflexivity.
  - destruct before as [ | b before]; [ | rewrite Hareas]; cbn [mapM bind];
      rewrite Hget; reflexivity.
Qed.

End YamlNotFound.

(** X14 on the request of [euro] and [asia] from a catalog with [euro]
    and [afro]. *)
Lemma parse_yaml_area_not_found_witness :
  _parse_yaml_area_file no_files (fun _ => Ok (YMap override_catalog)) named_area
    (fun _ => EmptyString) (One "areas") ["euro"; "asia"]%string
  = Raise (AreaNotFound (not_found_message (fun _ => EmptyString) "asia" (One "areas")))
  /\ PyStr.contains "asia" (not_found_message (fun _ => EmptyString) "asia" (One "areas"))
     = true.
Proof.
  apply (parse_yaml_area_not_found no_files (fun _ => Ok (YMap override_catalog)) named_area
           (fun _ => EmptyString) (One "areas") override_catalog ["euro"%string] []
           "asia").
  - reflexivity.
  - reflexivity.
  - right. eexists. reflexivity.
Defined.

(** ** The legacy parser: whole files *)

Lemma string_app_nil_r : forall s : string, (s ++ EmptyString)%string = s.
Proof.
  intros s. induction s as [ | c s IH]; cbn; [reflexivity | rewrite IH; reflexivity].
Qed.

Lemma concat_empty_cons :
  forall line lines,
    concat EmptyString (line :: lines) = (line ++ concat EmptyString lines)%string.
Proof.
  intros line [ | l lines]; cbn.
  - rewrite string_app_nil_r. reflexivity.
  - reflexivity.
Qed.

Lemma all_areas_map_some :
  forall areas, all_areas (map Some areas) = areas.
Proof.
  intros areas. induction areas as [ | a areas IH]; cbn; [reflexivity | rewrite IH; reflexivity].
Qed.

Section LegacyFiles.

Variable file_lines : string -> option (list string).
Variable _create_area : string -> string -> result area_def.
Variable list_repr : list string -> string.

(** Outside a block, lines without the REGION marker change nothing. *)
Lemma scan_lines_outside :
  forall (area_list : list string) (select_all_areas : bool) (lines : list string) (st : scan),
    in_area st = false ->
    (forall line, In line lines -> PyStr.contains "REGION" line = false) ->
    scan_lines _create_area area_list select_all_areas st lines = Ok st.
Proof.
  intros area_list select_all_areas lines. induction lines as [ | line lines IH];
    intros st Hout Hlines.
  - reflexivity.
  - cbn [scan_lines]. unfold scan_line. rewrite Hout. cbn [negb].
    rewrite (Hlines line (or_introl eq_refl)). cbn [bind].
    apply IH; [exact Hout | ]. intros l Hl. apply Hlines. right. exact Hl.
Qed.

(** Inside a block, lines without the closing marker are joined to the
    content of the block. *)
Lemma scan_lines_body :
  forall (area_list : list string) (select_all_areas : bool) (lines : list string)
         (id content : string) (defs : list (option area_def)),
    (forall line, In line lines -> PyStr.contains "};" line = false) ->
    scan_lines _create_area area_list select_all_areas
      {| in_area := true; area_id := id; area_content := content; area_defs := defs |} lines
    = Ok {| in_area := true; area_id := id;
            area_content := (content ++ concat EmptyString lines)%string;
            area_defs := defs |}.
Proof.
  intros area_list select_all_areas lines. induction lines as [ | line lines IH];
    intros id content defs Hlines.
  - cbn. rewrite string_app_nil_r. reflexivity.
  - cbn [scan_lines]. unfold scan_line. cbn [in_area negb].
    rewrite (Hlines line (or_introl eq_refl)). cbn [bind area_id area_content area_defs].
    rewrite IH.
    + rewrite concat_empty_cons, string_app_assoc. reflexivity.
    + intros l Hl. apply Hlines. right. exact Hl.
Qed.

(** With all areas selected, a block adds the definition that
    [_create_area] makes of its name and its joined body, or raises what
    [_create_area] raises. *)
Lemma scan_lines_block :
  forall (b : legacy_block) (st : scan),
    block_ok b ->
    in_area st = false ->
    scan_lines _create_area [] true st (block_lines b)
    = (area <- _create_area (region_id (header b)) (concat EmptyString (body b)) ;;
       Ok {| in_area := false; area_id := region_id (header b);
             area_content := concat EmptyString (body b);
             area_defs := area_defs st ++ [Some area] |}).
Proof.
  intros b st (Hlead & Hhead & Hbody & Hclose) Hout. unfold block_lines.
  rewrite scan_lines_app, (scan_lines_outside _ _ _ _ Hout Hlead). cbn [bind scan_lines].
  unfold scan_line at 1. rewrite Hout, Hhead. cbn [negb existsb orb bind].
  fold (region_id (header b)).
  rewrite scan_lines_app, (scan_lines_body _ _ _ _ _ _ Hbody). cbn [bind scan_lines].
  unfold scan_line. cbn [in_area negb area_id area_content area_defs].
  rewrite Hclose. cbn [append].
  destruct (_create_area _ _); reflexivity.
Qed.

Lemma scan_lines_blocks :
  forall (blocks : list legacy_block) (trailing : list string) (st : scan),
    Forall block_ok blocks ->
    (forall line, In line trailing -> PyStr.contains "REGION" line = false) ->
    in_area st = false ->
    match mapM (fun b => _create_area (region_id (header b)) (concat EmptyString (body b)))
            blocks with
    | Ok areas =>
        exists st',
          scan_lines _create_area [] true st (flat_map block_lines blocks ++ trailing) = Ok st'
          /\ area_defs st' = area_defs st ++ map Some areas
    | Raise e =>
        scan_lines _create_area [] true st (flat_map block_lines blocks ++ trailing) = Raise e
    end.
Proof.
  intros blocks trailing. induction blocks as [ | b blocks IH]; intros st Hok Htrail Hout.
  - cbn. exists st. split; [apply scan_lines_outside; assumption | ].
    symmetry. apply app_nil_r.
  - inversion Hok as [ | ? ? Hb Hblocks]; subst.
    cbn [flat_map mapM]. rewrite <- app_assoc, scan_lines_app.
    rewrite (scan_lines_block b st Hb Hout).
    destruct (_create_area _ _) as [area|e]; cbn [bind]; [ | reflexivity].
    match goal with
    | |- context [scan_lines _ _ _ ?s _] =>
        specialize (IH s Hblocks Htrail eq_refl); cbn [area_defs] in IH
    end.
    destruct (mapM _ blocks) as [areas|e]; cbn [bind].
    + destruct IH as (st' & Hscan & Hdefs). exists st'. split; [exact Hscan | ].
      rewrite Hdefs, <- app_assoc. reflexivity.
    + exact IH.
Qed.

(** X15.  No names are requested, and the lines of the source are blocks,
    each after lines without the REGION marker, with lines without the
    marker at the end.  Then the parser returns the definitions that
    [_create_area] makes of the blocks, each from the name on the header
    line and the body lines joined without separator, in the order of the
    file; it raises what [_create_area] first raises. *)
Theorem legacy_select_all_blocks :
  forall (area_file_name : source) (blocks : list legacy_block) (trailing : list string),
    _read_legacy_area_file_lines file_lines area_file_name
      = flat_map block_lines blocks ++ trailing ->
    Forall block_ok blocks ->
    (forall line, In line trailing -> PyStr.contains "REGION" line = false) ->
    _parse_legacy_area_file file_lines _create_area list_repr area_file_name []
    = mapM (fun b => _create_area (region_id (header b)) (concat EmptyString (body b))) blocks.
Proof.
  intros area_file_name blocks trailing Hlines Hok Htrail.
  unfold _parse_legacy_area_file. rewrite Hlines. cbn [List.length Nat.eqb negb].
  pose proof (scan_lines_blocks blocks trailing
                {| in_area := false; area_id := EmptyString; area_content := EmptyString;
                   area_defs := [] |} Hok Htrail eq_refl) as H.
  destruct (mapM _ blocks) as [areas|e].
  - destruct H as (st' & -> & Hdefs). cbn [bind]. rewrite Hdefs. cbn [area_defs app].
    rewrite all_areas_map_some. reflexivity.
  - rewrite H. reflexivity.
Qed.

(** X16.  A source without a line that holds the REGION marker has no
    area: without requested names the parser returns the empty list, and
    with requested names it raises [AreaNotFound] for the first of them. *)
Theorem legacy_no_region_line :
  forall (area_file_name : source),
    (forall line, In line (_read_legacy_area_file_lines file_lines area_file_name) ->
                  PyStr.contains "REGION" line = false) ->
    _parse_legacy_area_file file_lines _create_area list_repr area_file_name [] = Ok []
    /\ forall name names,
         _parse_legacy_area_file file_lines _create_area list_repr area_file_name
           (name :: names)
         = Raise (AreaNotFound (not_found_message list_repr name area_file_name)).
Proof.
  intros area_file_name Hlines. unfold _parse_legacy_area_file. split.
  - cbn [List.length Nat.eqb negb]. rewrite scan_lines_outside by (reflexivity || exact Hlines).
    reflexivity.
  - intros name names. cbn [List.length Nat.eqb negb].
    rewrite scan_lines_outside by (reflexivity || exact Hlines).
    reflexivity.
Qed.

End LegacyFiles.

(** X15 on a file with two blocks and a comment line. *)
Lemma legacy_select_all_blocks_witness :
  _parse_legacy_area_file no_files block_area (fun _ => EmptyString) two_blocks_source []
  = mapM (fun b => block_area (region_id (header b)) (concat EmptyString (body b))) two_blocks.
Proof.
  apply (legacy_select_all_blocks no_files block_area (fun _ => EmptyString)
           two_blocks_source two_blocks []).
  - reflexivity.
  - repeat constructor; cbn;
      try (intros line H; repeat (destruct H as [<- | H]; [reflexivity | ]); destruct H).
  - intros line [].
Defined.

(** X16 on a source of two lines of comments. *)
Lemma legacy_no_region_line_witness :
  _parse_legacy_area_file no_files block_area (fun _ => EmptyString)
    (Several ["# areas"; "# none yet"]%string) [] = Ok []
  /\ forall name names,
       _parse_legacy_area_file no_files block_area (fun _ => EmptyString)
         (Several ["# areas"; "# none yet"]%string) (name :: names)
       = Raise (AreaNotFound
                  (not_found_message (fun _ => EmptyString) name
                     (Several ["# areas"; "# none yet"]%string))).
Proof.
  apply (legacy_no_region_line no_files block_area (fun _ => EmptyString)
           (Several ["# areas"; "# none yet"]%string)).
  intros line [<- | [<- | []]]; reflexivity.
Defined.

(** ** The legacy parser: requested names *)

Lemma index_nth_error :
  forall a l i, index a l = Some i -> nth_error l i = Some a.
Proof.
  intros a l. induction l as [ | x l IH]; intros i H; cbn in H.
  - discriminate.
  - destruct (x =? a)%string eqn:E.
    + injection H as <-. apply String.eqb_eq in E. subst x. reflexivity.
    + destruct (index a l) as [j|]; [ | discriminate].
      injection H as <-. cbn. apply IH. reflexivity.
Qed.

(** [index] finds the first place of a name. *)
Lemma index_first :
  forall a l1 l2 i, index a (l1 ++ a :: l2) = Some i -> (i <= List.length l1)%nat.
Proof.
  intros a l1 l2. induction l1 as [ | x l1 IH]; intros i H; cbn in H.
  - rewrite String.eqb_refl in H. injection H as <-. apply le_n.
  - destruct (x =? a)%string.
    + injection H as <-. apply Nat.le_0_l.
    + destruct (index a (l1 ++ a :: l2)) as [j|]; [ | discriminate].
      injection H as <-. cbn. apply le_n_S. apply IH. reflexivity.
Qed.

Lemma nth_error_assign_other :
  forall (A : Type) (i j : nat) (a : A) (l : list A),
    i <> j -> nth_error (assign i a l) j = nth_error l j.
Proof.
  intros A i j a l. revert i j. induction l as [ | x l IH]; intros i j Hne.
  - destruct i; reflexivity.
  - destruct i, j; cbn; try reflexivity; try congruence.
    apply IH. congruence.
Qed.

Lemma length_assign :
  forall (A : Type) (i : nat) (a : A) (l : list A),
    List.length (assign i a l) = List.length l.
Proof.
  intros A i a l. revert i. induction l as [ | x l IH]; intros i.
  - destruct i; reflexivity.
  - destruct i; cbn; [reflexivity | rewrite IH; reflexivity].
Qed.

Section LegacyRequests.

Variable file_lines : string -> option (list string).
Variable _create_area : string -> string -> result area_def.
Variable list_repr : list string -> string.

(** With requested names, a line of the scan keeps the number of entries
    of [area_defs], and keeps the entry at [j] empty when [j] is not the
    first place of its name in the requests. *)
Lemma scan_line_requests :
  forall (area_list : list string) (st st' : scan) (line : string) (j : nat) (name : string),
    nth_error area_list j = Some name ->
    index name area_list <> Some j ->
    scan_line _create_area area_list false st line = Ok st' ->
    List.length (area_defs st') = List.length (area_defs st)
    /\ (nth_error (area_defs st) j = Some None -> nth_error (area_defs st') j = Some None).
Proof.
  intros area_list st st' line j name Hj Hidx H. unfold scan_line in H.
  destruct (negb (in_area st)).
  - destruct (PyStr.contains "REGION" line); [ | injection H as <-; split; auto].
    destruct (existsb _ area_list || false); injection H as <-; split; auto.
  - destruct (PyStr.contains "};" line); [ | injection H as <-; split; auto].
    destruct (_create_area _ _) as [area|]; [ | discriminate]. cbn [bind] in H.
    destruct (index (area_id st) area_list) as [i|] eqn:Hi; [ | discriminate].
    injection H as <-. cbn [area_defs]. split; [apply length_assign | ].
    intros Hnone. rewrite nth_error_assign_other; [exact Hnone | ].
    intros ->. apply index_nth_error in Hi as Hnth. rewrite Hj in Hnth.
    injection Hnth as ->. contradiction.
Qed.

Lemma scan_lines_requests :
  forall (area_list : list string) (lines : list string) (st st' : scan)
         (j : nat) (name : string),
    nth_error area_list j = Some name ->
    index name area_list <> Some j ->
    scan_lines _create_area area_list false st lines = Ok st' ->
    List.length (area_defs st') = List.length (area_defs st)
    /\ (nth_error (area_defs st) j = Some None -> nth_error (area_defs st') j = Some None).
Proof.
  intros area_list lines. induction lines as [ | line lines IH];
    intros st st' j name Hj Hidx H; cbn [scan_lines] in H.
  - injection H as <-. split; auto.
  - destruct (scan_line _create_area area_list false st line) as [st1|] eqn:E;
      [ | discriminate].
    cbn [bind] in H.
    destruct (scan_line_requests _ _ _ _ _ _ Hj Hidx E) as [Hlen1 Hnone1].
    destruct (IH _ _ _ _ Hj Hidx H) as [Hlen2 Hnone2].
    split; [congruence | auto].
Qed.

(** The check of the entries returns only when no entry is empty, and
    then returns as many definitions as there are entries. *)
Lemma found_areas_returns :
  forall (area_file_name : source) (defs : list (option area_def))
         (area_list : list string) (areas : list area_def),
    found_areas list_repr area_file_name area_list defs = Ok areas ->
    List.length areas = List.length defs
    /\ forall j, nth_error defs j <> Some None.
Proof.
  intros area_file_name defs. induction defs as [ | [a|] defs IH];
    intros area_list areas H; cbn [found_areas] in H.
  - injection H as <-. split; [reflexivity | ]. intros [ | j]; discriminate.
  - destruct (found_areas list_repr area_file_name (tl area_list) defs) as [rest|] eqn:E;
      [ | discriminate].
    cbn [bind] in H. injection H as <-. destruct (IH _ _ E) as [Hlen Hnone].
    split; [cbn; congruence | ]. intros [ | j]; cbn; [discriminate | apply Hnone].
  - discriminate.
Qed.

(** X17.  A name that is requested twice makes the parser fail on every
    source: the entry of its second place is never filled, so that the
    call raises: the error of a block, or [AreaNotFound]. *)
Theorem legacy_duplicate_request_fails :
  forall (area_file_name : source) (name : string) (l1 l2 l3 : list string),
    exists e,
      _parse_legacy_area_file file_lines _create_area list_repr area_file_name
        (l1 ++ name :: l2 ++ name :: l3) = Raise e.
Proof.
  intros area_file_name name l1 l2 l3.
  set (regions := l1 ++ name :: l2 ++ name :: l3).
  set (j := (List.length l1 + S (List.length l2))%nat).
  assert (Hj : nth_error regions j = Some name).
  { subst regions j. rewrite nth_error_app2 by lia.
    replace (List.length l1 + S (List.length l2) - List.length l1)%nat
      with (S (List.length l2)) by lia.
    cbn. rewrite nth_error_app2 by lia. rewrite Nat.sub_diag. reflexivity. }
  assert (Hidx : index name regions <> Some j).
  { intros H. apply index_first in H. subst j. lia. }
  unfold _parse_legacy_area_file. fold regions.
  assert (Hlen : (List.length regions =? 0)%nat = false).
  { subst regions. rewrite length_app. cbn. apply Nat.eqb_neq. lia. }
  rewrite Hlen. cbn [negb].
  match goal with
  | |- context [scan_lines _ _ _ ?s ?lines] =>
      destruct (scan_lines _create_area regions false s lines) as [st|e] eqn:E
  end; [ | exists e; reflexivity].
  cbn [bind]. apply (scan_lines_requests _ _ _ _ _ _ Hj Hidx) in E.
  cbn [area_defs] in E. destruct E as [_ Hnone].
  destruct (found_areas list_repr area_file_name regions (area_defs st)) as [areas|e] eqn:F;
    [ | exists e; reflexivity].
  exfalso. apply found_areas_returns in F. destruct F as [_ F]. apply (F j).
  apply Hnone. rewrite nth_error_map, Hj. reflexivity.
Qed.

Lemma Forall2_assign :
  forall (A B : Type) (R : A -> B -> Prop) (l1 : list A) (l2 : list B) (i : nat) (x : A) (y : B),
    Forall2 R l1 l2 -> nth_error l1 i = Some x -> R x y -> Forall2 R l1 (assign i y l2).
Proof.
  intros A B R l1 l2 i x y H. revert i. induction H as [ | a b l1 l2 Hab H IH]; intros i Hi Hxy.
  - destruct i; constructor.
  - destruct i; cbn [assign].
    + injection Hi as <-. constructor; assumption.
    + constructor; [exact Hab | ]. apply IH; assumption.
Qed.

Lemma found_areas_map_some :
  forall (area_file_name : source) (defs : list (option area_def))
         (area_list : list string) (areas : list area_def),
    found_areas list_repr area_file_name area_list defs = Ok areas ->
    defs = map Some areas.
Proof.
  intros area_file_name defs. induction defs as [ | [a|] defs IH];
    intros area_list areas H; cbn [found_areas] in H.
  - injection H as <-. reflexivity.
  - destruct (found_areas list_repr area_file_name (tl area_list) defs) as [rest|] eqn:E;
      [ | discriminate].
    cbn [bind] in H. injection H as <-. cbn. rewrite (IH _ _ E). reflexivity.
  - discriminate.
Qed.

(** An entry of [area_defs] is empty or holds a definition that
    [_create_area] has made under the requested name of its place. *)
Lemma scan_lines_made_under_name :
  forall (area_list : list string) (lines : list string) (st st' : scan),
    Forall2 (made_under _create_area) area_list (area_defs st) ->
    scan_lines _create_area area_list false st lines = Ok st' ->
    Forall2 (made_under _create_area) area_list (area_defs st').
Proof.
  intros area_list lines. induction lines as [ | line lines IH];
    intros st st' Hinv H; cbn [scan_lines] in H.
  - injection H as <-. exact Hinv.
  - destruct (scan_line _create_area area_list false st line) as [st1|] eqn:E;
      [ | discriminate].
    cbn [bind] in H. apply (IH st1 st'); [ | exact H].
    clear H IH. unfold scan_line in E.
    destruct (negb (in_area st)).
    + destruct (PyStr.contains "REGION" line); [ | injection E as <-; exact Hinv].
      destruct (existsb _ area_list || false); injection E as <-; exact Hinv.
    + destruct (PyStr.contains "};" line); [ | injection E as <-; exact Hinv].
      destruct (_create_area (area_id st) (area_content st)) as [area|] eqn:Hmade;
        [ | discriminate].
      cbn [bind] in E.
      destruct (index (area_id st) area_list) as [i|] eqn:Hi; [ | discriminate].
      injection E as <-. cbn [area_defs].
      apply (Forall2_assign _ _ _ _ _ _ (area_id st)); [exact Hinv | | ].
      * apply index_nth_error. exact Hi.
      * exists (area_content st). exact Hmade.
Qed.

(** X18.  With requested names, a call that returns gives one definition
    for each name, in the order of the requests and not of the file: the
    definition at the place of a name is one that [_create_area] has made
    under that name. *)
Theorem legacy_definitions_follow_requests :
  forall (area_file_name : source) (regions : list string) (areas : list area_def),
    regions <> [] ->
    _parse_legacy_area_file file_lines _create_area list_repr area_file_name regions
      = Ok areas ->
    Forall2 (fun name area => exists content, _create_area name content = Ok area)
      regions areas.
Proof.
  intros area_file_name regions areas Hne H. unfold _parse_legacy_area_file in H.
  destruct regions as [ | r regions]; [contradiction | ].
  cbn [List.length Nat.eqb negb] in H.
  match type of H with
  | context [scan_lines _ _ _ ?s ?lines] =>
      destruct (scan_lines _create_area (r :: regions) false s lines) as [st|e] eqn:E
  end; [ | discriminate].
  cbn [bind] in H. apply found_areas_map_some in H.
  apply scan_lines_made_under_name in E.
  - rewrite H in E. clear H. revert E. generalize (r :: regions). intros names.
    revert names. induction areas as [ | a areas IH]; intros names E; inversion E; subst.
    + constructor.
    + constructor; [ | apply IH; assumption].
      match goal with Hm : made_under _ _ (Some a) |- _ => exact Hm end.
  - cbn [area_defs]. generalize (r :: regions). intros names.
    induction names; constructor; [exact I | assumption].
Qed.

End LegacyRequests.

(** X18 on the request of the two areas of [two_blocks_source], in the
    reverse order of the file. *)
Lemma legacy_definitions_follow_requests_witness :
  Forall2 (fun name area => exists content, block_area name content = Ok area)
    ["b"; "a"]%string
    [DynamicAreaDefinition "b" "XSIZE: 30" [] None None None None (KBool false);
     DynamicAreaDefinition "a" "XSIZE: 10YSIZE: 20" [] None None None None (KBool false)].
Proof.
  apply (legacy_definitions_follow_requests no_files block_area (fun _ => EmptyString)
           two_blocks_source ["b"; "a"]%string).
  - discriminate.
  - reflexivity.
Defined.

(** ** The normalizer: outcomes *)

Section NormalizerFacts.

Variable float_of_string : string -> option Q.

Lemma mapM_py_float_raises :
  forall l e,
    mapM (py_float float_of_string) l = Raise e ->
    e = TypeError \/ e = ValueError FloatOfText.
Proof.
  intros l. induction l as [ | v l IH]; intros e H; cbn [mapM] in H.
  - discriminate.
  - destruct v as [q | s | ]; cbn [py_float bind] in H.
    + destruct (mapM (py_float float_of_string) l) eqn:E; [discriminate | ].
      cbn [bind] in H. injection H as <-. apply IH. reflexivity.
    + destruct (float_of_string s); cbn [bind] in H.
      * destruct (mapM (py_float float_of_string) l) eqn:E; [discriminate | ].
        cbn [bind] in H. injection H as <-. apply IH. reflexivity.
      * injection H as <-. right. reflexivity.
    + injection H as <-. left. reflexivity.
Qed.

Lemma format_list_raises :
  forall var name e,
    _format_list float_of_string var name = Raise e ->
    e = TypeError \/ e = ValueError FloatOfText.
Proof.
  intros var name e H. destruct var as [q | s | l]; cbn [_format_list] in H.
  - destruct (is_radius_or_resolution name); [discriminate | ].
    injection H as <-. left. reflexivity.
  - destruct (is_radius_or_resolution name).
    + cbn [py_float] in H. destruct (float_of_string s); cbn [bind] in H; [discriminate | ].
      injection H as <-. right. reflexivity.
    + apply (mapM_py_float_raises _ _ H).
  - apply (mapM_py_float_raises _ _ H).
Qed.


(** X20.  A list of numbers of the expected length is kept as the tuple of
    these numbers.  In a list that starts with numbers, the first element
    that is no number decides the error: an object that [float()] does not
    take is not list-like, and a text that is no number is not purely
    numbers. *)
Theorem verify_list_of_numbers :
  forall (name : string) (numbers : list Q),
    _verify_list float_of_string name (Some (Plain (ListLike (map VNum numbers))))
      (List.length numbers) = Ok (Some (Tuple numbers))
    /\ (forall rest length,
          _verify_list float_of_string name
            (Some (Plain (ListLike (map VNum numbers ++ VObj :: rest)))) length
          = Raise (ValueError (NotListLike name)))
    /\ (forall s rest length,
          float_of_string s = None ->
          _verify_list float_of_string name
            (Some (Plain (ListLike (map VNum numbers ++ VStr s :: rest)))) length
          = Raise (ValueError (NotNumeric name))).
Proof.
  intros name numbers.
  assert (Hnum : forall l, mapM (py_float float_of_string) (map VNum l) = Ok l).
  { induction l as [ | q l IH]; cbn; [reflexivity | rewrite IH; reflexivity]. }
  split; [ | split].
  - unfold _verify_list, _format_list. rewrite Hnum. cbn [bind list_like_errors].
    rewrite Nat.eqb_refl. reflexivity.
  - intros rest length. unfold _verify_list, _format_list.
    rewrite mapM_app, Hnum. reflexivity.
  - intros s rest length Hs. unfold _verify_list, _format_list.
    rewrite mapM_app, Hnum. cbn [bind mapM py_float]. rewrite Hs. reflexivity.
Qed.

End NormalizerFacts.

(** X20 on a center given as [[0, None]] and as [[0, 'north']]. *)
Lemma verify_list_of_numbers_witness :
  _verify_list SampleFloat.float_of_string "center" (Some (Plain (ListLike [VNum 0; VObj]))) 2
    = Raise (ValueError (NotListLike "center"))
  /\ _verify_list SampleFloat.float_of_string "center"
       (Some (Plain (ListLike [VNum 0; VStr "north"]))) 2
     = Raise (ValueError (NotNumeric "center")).
Proof.
  split.
  - apply (verify_list_of_numbers SampleFloat.float_of_string "center" [0]).
  - apply (verify_list_of_numbers SampleFloat.float_of_string "center" [0]). reflexivity.
Defined.

(** ** The unit converter: meters, errors, poles *)

(** X21.  A vector in meters ([m] or [meters], as ambient units or as the
    units of a [DataArray]) that is not converted back ([inverse] false)
    and is no center never reaches the projection: on a geographic
    projection the call raises the meters error, and otherwise a radius or
    resolution comes back in absolute values and any other vector as it
    is. *)
Theorem convert_units_meters_untouched :
  forall (v : vec2) (name u : string) (ambient : units_t) (p : Proj) (center : option vec2),
    (u = "m" \/ u = "meters")%string ->
    name <> "center"%string ->
    let expected :=
      if is_latlong p then Raise (ValueError (LatlongMeters name))
      else Ok (Some (if is_radius_or_resolution name
                     then (Qabs (fst v), Qabs (snd v)) else v)) in
    _convert_units (Some (Tuple v)) name (UnitStr u) p false center = expected
    /\ _convert_units (Some (UnitArray v u)) name ambient p false center = expected.
Proof.
  intros v name u ambient p center Hu Hname expected. subst expected.
  apply String.eqb_neq in Hname.
  unfold _convert_units. cbn [m_in].
  destruct Hu as [-> | ->]; destruct (is_latlong p); cbn [bind];
    try (split; reflexivity);
    rewrite Hname; cbn [bind]; split; reflexivity.
Qed.

(** X21 on a top left corner in meters, with the projection that maps a
    point to itself. *)
Lemma convert_units_meters_untouched_witness :
  _convert_units (Some (Tuple (3, 4))) "top_left_extent" (UnitStr "m") identity_proj false None
    = Ok (Some (3, 4))
  /\ _convert_units (Some (UnitArray (3, 4) "m")) "top_left_extent" (UnitStr "deg")
       identity_proj false None
     = Ok (Some (3, 4)).
Proof.
  apply (convert_units_meters_untouched (3, 4) "top_left_extent" "m" (UnitStr "deg")
           identity_proj None).
  - left. reflexivity.
  - discriminate.
Defined.

(** X22.  Units that are none of the seven spellings raise the units
    error for every vector, unless the projection is geographic and the
    units hold an [m], which is the meters error.  And a radius or
    resolution in degrees or radians that is to be converted without a
    center raises the missing-center error, whatever the projection. *)
Theorem convert_units_errors :
  forall (v : vec2) (name u : string) (p : Proj) (inverse : bool) (center : option vec2),
    (viable (UnitStr u) = None ->
       _convert_units (Some (Tuple v)) name (UnitStr u) p inverse center
       = if is_latlong p && PyStr.contains "m" u
         then Raise (ValueError (LatlongMeters name))
         else Raise (ValueError (InvalidUnits name)))
    /\ (In u [degree_sign; "deg"; "degrees"; "rad"; "radians"]%string ->
        is_radius_or_resolution name = true ->
        _convert_units (Some (Tuple v)) name (UnitStr u) p false None
        = Raise (ValueError MissingCenter)).
Proof.
  intros v name u p inverse center. split.
  - intros Hv. unfold _convert_units. cbn [m_in]. rewrite Hv.
    destruct (is_latlong p); cbn [bind andb]; [ | reflexivity].
    destruct (PyStr.contains "m" u); reflexivity.
  - intros Hu Hname.
    assert (Hcenter : (name =? "center")%string = false).
    { unfold is_radius_or_resolution in Hname. cbn in Hname.
      destruct (name =? "center")%string eqn:E; [ | reflexivity].
      apply String.eqb_eq in E. subst name. discriminate. }
    unfold _convert_units. cbn [m_in].
    cbn in Hu.
    repeat (destruct Hu as [<- | Hu]; [ | ]); try contradiction;
      destruct (is_latlong p); cbn [bind]; rewrite Hcenter, Hname; reflexivity.
Qed.

(** X22 on the units [km] and on a resolution in degrees. *)
Lemma convert_units_errors_witness :
  _convert_units (Some (Tuple (1, 1))) "center" (UnitStr "km") identity_proj false None
    = Raise (ValueError (InvalidUnits "center"))
  /\ _convert_units (Some (Tuple (1, 1))) "resolution" (UnitStr "deg") identity_proj false None
     = Raise (ValueError MissingCenter).
Proof.
  split.
  - apply (convert_units_errors (1, 1) "center" "km" identity_proj false None). reflexivity.
  - apply (convert_units_errors (1, 1) "resolution" "deg" identity_proj false None).
    + right. left. reflexivity.
    + reflexivity.
Defined.

(** X23.  In degrees, a center is rounded without a call of the
    projection.  The longitude is kept.  The latitude is kept when it is
    1e-4 or more away from both poles, and is otherwise the pole, 90 or
    -90, of its sign; rounding a rounded center changes nothing. *)
Theorem round_poles_degrees :
  forall (center : vec2) (u : string) (p : Proj),
    In u [degree_sign; "deg"; "degrees"]%string ->
    let rounded :=
      if Qltb (Qabs (Qabs (snd center) - 90)) (1 # 10000)
      then (fst center, _sign (snd center) * 90)
      else center in
    _round_poles center u p = Ok rounded
    /\ _round_poles rounded u p = Ok rounded.
Proof.
  intros center u p Hu rounded. subst rounded.
  assert (Hround : forall c,
            _round_poles c u p
            = Ok (if Qltb (Qabs (Qabs (snd c) - 90)) (1 # 10000)
                  then (fst c, _sign (snd c) * 90) else c)).
  { intros c. cbn in Hu. unfold _round_poles.
    repeat (destruct Hu as [<- | Hu]; [reflexivity | ]). contradiction. }
  split; [apply Hround | ]. rewrite Hround.
  destruct (Qltb (Qabs (Qabs (snd center) - 90)) (1 # 10000)) eqn:E.
  - cbn [fst snd]. unfold _sign. destruct (Qltb (snd center) 0); reflexivity.
  - rewrite E. reflexivity.
Qed.

(** X23 on a center at a latitude of 89.99995 degrees. *)
Lemma round_poles_degrees_witness :
  _round_poles (10, 8999995 # 100000) "deg" identity_proj = Ok (10, 1 * 90)
  /\ _round_poles (10, 1 * 90) "deg" identity_proj = Ok (10, 1 * 90).
Proof.
  apply (round_poles_degrees (10, 8999995 # 100000) "deg" identity_proj).
  right. left. reflexivity.
Defined.

(** ** The factory: integer axes *)

From Stdlib Require Import Lqa.

Lemma inject_Z_succ : forall z : Z, inject_Z (z + 1) == inject_Z z + 1.
Proof.
  intros z. rewrite inject_Z_plus. reflexivity.
Qed.

Lemma inject_Z_pred : forall z : Z, inject_Z (z - 1) == inject_Z z - 1.
Proof.
  intros z. unfold Z.sub. rewrite inject_Z_plus. reflexivity.
Qed.

(** The ceiling is the floor or the integer after it, and is the floor
    only at an integer. *)
Lemma Qceiling_floor :
  forall x : Q,
    (Qceiling x = Qfloor x /\ x == inject_Z (Qfloor x))
    \/ Qceiling x = (Qfloor x + 1)%Z.
Proof.
  intros x.
  pose proof (Qfloor_le x) as Hf1. pose proof (Qlt_floor x) as Hf2.
  pose proof (Qle_ceiling x) as Hc1. pose proof (Qceiling_lt x) as Hc2.
  assert (H1 : (Qfloor x <= Qceiling x)%Z).
  { rewrite Zle_Qle. apply Qle_trans with x; assumption. }
  assert (H2 : (Qceiling x - 1 < Qfloor x + 1)%Z).
  { rewrite Zlt_Qlt. apply Qlt_trans with x; assumption. }
  destruct (Z.eq_dec (Qceiling x) (Qfloor x)) as [Heq | Hne].
  - left. split; [exact Heq | ]. rewrite Heq in Hc1. apply Qle_antisym; assumption.
  - right. lia.
Qed.

(** X24.  An axis of the shape becomes an integer that is more than
    [x - 0.01] and less than [x + 1]: a fraction below 0.01 is dropped,
    any other fraction counts as a whole pixel.  An axis that is an
    integer is kept. *)
Theorem round_axis_bounds :
  forall x : Q,
    x - (1 # 100) < inject_Z (round_axis x)
    /\ inject_Z (round_axis x) < x + 1
    /\ forall n : Z, round_axis (inject_Z n) = n.
Proof.
  intros x.
  assert (Hbounds : forall y : Q,
            y - (1 # 100) < inject_Z (round_axis y) /\ inject_Z (round_axis y) < y + 1).
  { intros y. unfold round_axis, py_round.
    pose proof (Qfloor_le y) as Hf1. pose proof (Qlt_floor y) as Hf2.
    pose proof (Qle_ceiling y) as Hc1. pose proof (Qceiling_lt y) as Hc2.
    rewrite inject_Z_succ in Hf2. rewrite inject_Z_pred in Hc2.
    pose proof (Qceiling_floor y) as Hcf.
    destruct (Qltb (y - inject_Z (Qfloor y)) (1 # 100)) eqn:E1;
      destruct (Qltb (inject_Z (Qceiling y) - y) (1 # 100)) eqn:E2; cbn [orb];
      try apply Qltb_lt in E1; try apply Qltb_ge in E1;
      try apply Qltb_lt in E2; try apply Qltb_ge in E2.
    4: { split; lra. }
    all: destruct (Qltb (y - inject_Z (Qfloor y)) (1 # 2)) eqn:E3;
      [ apply Qltb_lt in E3 | apply Qltb_ge in E3 ].
    all: try (split; lra).
    all: destruct (Qltb (1 # 2) (y - inject_Z (Qfloor y))) eqn:E4;
      [ apply Qltb_lt in E4 | apply Qltb_ge in E4 ].
    all: try rewrite inject_Z_succ.
    all: try (split; lra).
    all: destruct Hcf as [[Hc Hy] | Hc]; rewrite Hc in *;
      try rewrite inject_Z_succ in *; exfalso; lra. }
  split; [apply Hbounds | split; [apply Hbounds | ]].
  intros n. unfold round_axis, py_round. rewrite Qfloor_Z, Qceiling_Z.
  assert (H1 : Qltb (inject_Z n - inject_Z n) (1 # 100) = true) by (apply Qltb_lt; lra).
  assert (H2 : Qltb (inject_Z n - inject_Z n) (1 # 2) = true) by (apply Qltb_lt; lra).
  rewrite H1, H2. reflexivity.
Qed.

(** ** [from_params] with a shape and an extent *)

Section ShapeAndExtent.

Variable float_of_string : string -> option Q.
Variable Proj_init : proj_dict -> result Proj.

(** X25.  With a shape and an extent in meters on a projection that is
    not geographic, and no center and no top left corner, the result is
    the static definition with that extent and the shape as integers,
    width after height.  A radius and a resolution are verified and then
    not read: they are not compared with the shape and the extent. *)
Theorem from_params_shape_and_extent :
  forall (area_id : string) (projection : projection_arg) (pd : proj_dict) (p : Proj)
         (height width x0 y0 x1 y1 : Q) (given_radius given_resolution : option pyarg)
         (u : string) (descr pid : option string) (kw : PyDict.dict kwval)
         (r1 r2 : option (quantity (list Q))),
    _get_proj_data float_of_string Proj_init projection = Ok (pd, p) ->
    is_latlong p = false ->
    (u = "m" \/ u = "meters")%string ->
    _verify_list float_of_string "radius" given_radius 2 = Ok r1 ->
    _verify_list float_of_string "resolution" given_resolution 2 = Ok r2 ->
    from_params float_of_string Proj_init area_id projection
      {| shape := Some (Plain (ListLike [VNum height; VNum width]));
         top_left_extent := None;
         center := None;
         area_extent := Some (Plain (ListLike [VNum x0; VNum y0; VNum x1; VNum y1]));
         resolution := given_resolution;
         radius := given_radius;
         units := Some u;
         description := descr;
         proj_id := pid;
         kwargs := kw |}
    = Ok (AreaDefinition area_id (match descr with Some d => d | None => area_id end) pid pd
            (round_axis width) (round_axis height) (x0, y0, x1, y1) kw).
Proof.
  intros area_id projection pd p height width x0 y0 x1 y1 given_radius given_resolution
         u descr pid kw r1 r2 Hproj Hlat Hu Hrad Hres.
  unfold from_params, from_params_inference.
  cbn [shape top_left_extent center area_extent resolution radius units description
       proj_id kwargs].
  rewrite Hproj. cbn [bind]. rewrite Hrad. cbn [_verify_list bind]. rewrite Hres.
  cbn [bind]. unfold _get_converted_lists, _convert_units.
  cbn [option_map quantity_map vec4_of_list vec2_of_list nth m_in].
  rewrite Hlat. cbn [bind].
  destruct Hu as [-> | ->]; reflexivity.
Qed.

End ShapeAndExtent.

(** X25 on a shape of (20, 10) and an extent of (0, 0, 100, 200), with a
    radius of 5 that does not fit them. *)
Lemma from_params_shape_and_extent_witness :
  from_params SampleFloat.float_of_string (fun _ => Ok identity_proj) "a"
    (ProjString "+proj=stere")
    {| shape := Some (Plain (ListLike [VNum 20; VNum 10]));
       top_left_extent := None;
       center := None;
       area_extent := Some (Plain (ListLike [VNum 0; VNum 0; VNum 100; VNum 200]));
       resolution := None;
       radius := Some (Plain (Number 5));
       units := Some "m"%string;
       description := None;
       proj_id := None;
       kwargs := [] |}
  = Ok (AreaDefinition "a" "a" None [("proj", PStr "stere")]%string
          (round_axis 10) (round_axis 20) (0, 0, 100, 200) []).
Proof.
  apply (from_params_shape_and_extent SampleFloat.float_of_string (fun _ => Ok identity_proj)
           "a" (ProjString "+proj=stere") [("proj", PStr "stere")]%string identity_proj
           20 10 0 0 100 200 (Some (Plain (Number 5))) None "m" None None []
           (Some (Tuple [5; 5])) None).
  - reflexivity.
  - reflexivity.
  - left. reflexivity.
  - reflexivity.
  - reflexivity.
Defined.

(** ** The inference engine: two whole derivations *)

Lemma Qabs_nonzero : forall x : Q, ~ x == 0 -> ~ Qabs x == 0.
Proof.
  intros x Hx. apply Qabs_case; intros _ H; apply Hx; lra.
Qed.

Lemma isclose_equal : forall a b : Q, a == b -> isclose a b = true.
Proof.
  intros a b Hab. unfold isclose. apply Qle_bool_iff.
  assert (H0 : Qabs (a - b) == 0).
  { assert (Hz : a - b == 0) by lra. rewrite Hz. reflexivity. }
  pose proof (Qabs_nonneg b). rewrite H0. lra.
Qed.

(** X26.  From a center, a radius and a resolution in meters alone, on a
    projection that is not geographic and with a resolution without zero
    component, the engine finds the extent [center -/+ |radius|] and the
    shape [(2 |r_y| / |res_y|, 2 |r_x| / |res_x|)]: the signs of radius and
    resolution do not count. *)
Theorem extrapolate_center_radius_resolution :
  forall (c r res : vec2) (u : string) (p : Proj),
    (u = "m" \/ u = "meters")%string ->
    is_latlong p = false ->
    ~ fst res == 0 -> ~ snd res == 0 ->
    _extrapolate_information None None (Some c) (Some (Tuple r)) (Some (Tuple res)) None
      (UnitStr u) p
    = Ok (Some (fst c - Qabs (fst r), snd c - Qabs (snd r),
                fst c + Qabs (fst r), snd c + Qabs (snd r)),
          Some (2 * Qabs (snd r) / Qabs (snd res), 2 * Qabs (fst r) / Qabs (fst res))).
Proof.
  intros c r res u p Hu Hlat Hx Hy.
  assert (Hconv : forall v name,
            is_radius_or_resolution name = true ->
            _convert_units (Some (Tuple v)) name (UnitStr u) p false (Some c)
            = Ok (Some (Qabs (fst v), Qabs (snd v)))).
  { intros v name Hname.
    assert (Hne : name <> "center"%string) by (intros ->; discriminate).
    apply String.eqb_neq in Hne. unfold _convert_units. cbn [m_in].
    rewrite Hlat. cbn [bind].
    destruct Hu as [-> | ->]; cbn [viable existsb viable_units String.eqb Ascii.eqb Bool.eqb
                                     orb andb];
      rewrite Hne, Hname; reflexivity. }
  unfold _extrapolate_information, extrapolate_radius.
  rewrite (Hconv r "radius" eq_refl). cbn [bind].
  rewrite (Hconv res "resolution" eq_refl). cbn [bind].
  unfold extrapolate_shape. cbn [fst snd].
  rewrite (pydiv_nonzero _ _ (Qabs_nonzero _ Hy)), (pydiv_nonzero _ _ (Qabs_nonzero _ Hx)).
  reflexivity.
Qed.

(** X26 on a radius with a negative component. *)
Lemma extrapolate_center_radius_resolution_witness :
  _extrapolate_information None None (Some (0, 0)) (Some (Tuple (-(1000), 2000)))
    (Some (Tuple (500, 250))) None (UnitStr "meters") identity_proj
  = Ok (Some (0 - Qabs (-(1000)), 0 - Qabs 2000, 0 + Qabs (-(1000)), 0 + Qabs 2000),
        Some (2 * Qabs 2000 / Qabs 250, 2 * Qabs (-(1000)) / Qabs 500)).
Proof.
  apply (extrapolate_center_radius_resolution (0, 0) (-(1000), 2000) (500, 250) "meters"
           identity_proj).
  - right. reflexivity.
  - reflexivity.
  - discriminate.
  - discriminate.
Defined.


(** X28.  A center that is given beside an extent and is not close to the
    middle of the extent is reported first: the engine raises the
    conflicting-data error for the center and the extent before it converts
    a radius or a resolution, so whatever the other quantities, the units
    and the projection are. *)
Theorem extrapolate_center_conflicts_with_extent :
  forall (x0 y0 x1 y1 : Q) (c : vec2) (shape : option vec2)
         (radius resolution : option (quantity vec2)) (top_left_extent : option vec2)
         (units : units_t) (p : Proj),
    allclose c ((x1 + x0) / 2, (y1 + y0) / 2) = false ->
    _extrapolate_information (Some (x0, y0, x1, y1)) shape (Some c) radius resolution
      top_left_extent units p
    = Raise (ValueError (ConflictingData "center" ["area_extent"%string])).
Proof.
  intros x0 y0 x1 y1 c shape radius resolution top_left_extent units p Hc.
  unfold _extrapolate_information, extrapolate_radius, _validate_variable.
  rewrite Hc. reflexivity.
Qed.

(** X28 on the extent (0, 0, 100, 200) with the center (0, 0). *)
Lemma extrapolate_center_conflicts_with_extent_witness :
  _extrapolate_information (Some (0, 0, 100, 200)) None (Some (0, 0))
    (Some (Tuple (1, 1))) None None (UnitStr "furlongs") identity_proj
  = Raise (ValueError (ConflictingData "center" ["area_extent"%string])).
Proof.
  apply (extrapolate_center_conflicts_with_extent 0 0 100 200 (0, 0) None
           (Some (Tuple (1, 1))) None None (UnitStr "furlongs") identity_proj).
  reflexivity.
Defined.
